(** * trivy_to_nist: scan corpus loader, finding normalizer and HDF assembler

    A shallow embedding of [trivy_to_nist.py].  Python values that come out
    of [json.load] are terms of [json]; a Python [dict] is a finite map from
    strings to values; an exception is a value of [exn] carried by the error
    monad [res].  The three functions of the script that hold its logic,
    [merge_jsons], [extract_findings] and [export_mitre_saf_hdf], are
    transcribed statement by statement, in the evaluation order of Python. *)

From Stdlib Require Import ZArith QArith_base Ascii String.
From stdpp Require Import gmap strings list fin_maps pretty.
Close Scope Q_scope.
Set Warnings "-register-all".

(** ** Values *)

(** What [json.load] returns: [None], [bool], [int], [float], [str], [list]
    and [dict].  A float is kept as the rational its literal denotes. *)
Inductive json :=
  | JNull
  | JBool (b : bool)
  | JInt (z : Z)
  | JFloat (q : Q)
  | JStr (s : string)
  | JArr (l : list json)
  | JObj (m : gmap string json).

Abbreviation dict := (gmap string json).

(** The exception classes the script can meet. [KeyError] carries the key;
    [OSError] stands for the errors of [open] other than a missing file, and
    [UnicodeDecodeError] for a file that is not text. *)
Inductive exn :=
  | KeyError (k : string)
  | TypeError
  | AttributeError
  | IndexError
  | FileNotFoundError
  | JSONDecodeError
  | UnicodeDecodeError
  | OSError.

Inductive res (A : Type) :=
  | Ok (a : A)
  | Raise (e : exn).
Arguments Ok {A} a.
Arguments Raise {A} e.

#[global] Instance res_ret : MRet res := λ A a, Ok a.
#[global] Instance res_bind : MBind res := λ A B f m,
  match m with Ok a => f a | Raise e => Raise e end.
#[global] Instance res_fmap : FMap res := λ A B f m,
  match m with Ok a => Ok (f a) | Raise e => Raise e end.

(** [for x in l: out.append(f(x))]: the first exception ends the loop. *)
Fixpoint collect {A B} (f : A → res B) (l : list A) : res (list B) :=
  match l with
  | [] => Ok []
  | x :: l' => y ← f x; ys ← collect f l'; Ok (y :: ys)
  end.

(** ** Strings *)

(** A [string] holds the UTF-8 bytes of a Python [str]. Python iterates a
    [str] by code point: a code point is a lead byte followed by its
    continuation bytes (those of the form 10xxxxxx). *)
Definition is_continuation (c : ascii) : bool :=
  match c with Ascii _ _ _ _ _ _ b6 b7 => b7 && negb b6 end.

Definition starts_with_continuation (s : string) : bool :=
  match s with
  | String c _ => is_continuation c
  | EmptyString => false
  end.

Fixpoint code_points (s : string) : list string :=
  match s with
  | EmptyString => []
  | String c s' =>
      match code_points s' with
      | h :: t =>
          if starts_with_continuation s' then String c h :: t
          else String c EmptyString :: h :: t
      | [] => [String c EmptyString]
      end
  end.

Fixpoint is_prefix (p s : string) : bool :=
  match p, s with
  | EmptyString, _ => true
  | String a p', String b s' => bool_decide (a = b) && is_prefix p' s'
  | String _ _, EmptyString => false
  end.

(** [p in s] for two strings. *)
Fixpoint is_infix (p s : string) : bool :=
  is_prefix p s ||
  match s with
  | EmptyString => false
  | String _ s' => is_infix p s'
  end.

(** [s.replace(old, new)] for one-character [old] and [new]. *)
Fixpoint replace_char (old new : ascii) (s : string) : string :=
  match s with
  | EmptyString => EmptyString
  | String c s' =>
      String (if bool_decide (c = old) then new else c) (replace_char old new s')
  end.

(** ** The operations of Python the script applies to loaded values *)

(** [v[k]] for a string key [k]. *)
Definition getitem (v : json) (k : string) : res json :=
  match v with
  | JObj m => match m !! k with Some x => Ok x | None => Raise (KeyError k) end
  | _ => Raise TypeError
  end.

(** [v.get(k, d)]: only a [dict] has the method. *)
Definition get (v : json) (k : string) (d : json) : res json :=
  match v with
  | JObj m => Ok (default d (m !! k))
  | _ => Raise AttributeError
  end.

(** [for x in v]: the elements of a list, the code points of a string, the
    keys of a dict (the map yields its keys in its own order; it does not
    record the order of insertion). *)
Definition iter (v : json) : res (list json) :=
  match v with
  | JArr l => Ok l
  | JStr s => Ok (JStr <$> code_points s)
  | JObj m => Ok ((λ kv, JStr kv.1) <$> map_to_list m)
  | _ => Raise TypeError
  end.

(** [v[0]]. A dict loaded from JSON has string keys only, so [0] is not one. *)
Definition index0 (v : json) : res json :=
  match v with
  | JArr (x :: _) => Ok x
  | JArr [] => Raise IndexError
  | JStr s =>
      match code_points s with
      | c :: _ => Ok (JStr c)
      | [] => Raise IndexError
      end
  | JObj _ => Raise (KeyError "0")
  | _ => Raise TypeError
  end.

(** [k in v] for a string [k]. *)
Definition contains (v : json) (k : string) : res bool :=
  match v with
  | JObj m => Ok (bool_decide (is_Some (m !! k)))
  | JArr l => Ok (existsb (λ x, match x with JStr s => bool_decide (s = k) | _ => false end) l)
  | JStr s => Ok (is_infix k s)
  | _ => Raise TypeError
  end.

(** [v[k] = x] for a string key [k]. *)
Definition setitem (v : json) (k : string) (x : json) : res json :=
  match v with
  | JObj m => Ok (JObj (<[k := x]> m))
  | _ => Raise TypeError
  end.

(** [v.extend(xs)]: only a [list] has the method. *)
Definition extend (v : json) (xs : list json) : res json :=
  match v with
  | JArr l => Ok (JArr (l ++ xs))
  | _ => Raise AttributeError
  end.

(** ** The static tables *)

Record control_definition := {
  name : string;
  description : string;
  trivy_keywords : list string;
  severity_threshold : string
}.

Definition NIST_MAPPING : list (string * control_definition) := [
  ("SC-28", {| name := "Protection of Information at Rest";
               description := "Encrypt sensitive data at rest";
               trivy_keywords := ["crypto"; "ssl"; "tls"; "cipher"; "insecure"];
               severity_threshold := "HIGH" |});
  ("SI-2",  {| name := "Flaw Remediation";
               description := "Identify, report, and correct system flaws";
               trivy_keywords := [];
               severity_threshold := "CRITICAL" |});
  ("SI-7",  {| name := "Software, Firmware, and Information Integrity";
               description := "Employ integrity verification tools";
               trivy_keywords := ["signature"; "hash"; "verification"; "unsigned"];
               severity_threshold := "HIGH" |});
  ("CM-6",  {| name := "Configuration Settings";
               description := "Establish and document configuration settings";
               trivy_keywords := ["config"; "misconfiguration"; "exposure"; "debug"];
               severity_threshold := "MEDIUM" |});
  ("IA-5",  {| name := "Authenticator Management";
               description := "Manage system authenticators";
               trivy_keywords := ["password"; "credential"; "secret"; "key"];
               severity_threshold := "HIGH" |});
  ("AC-6",  {| name := "Least Privilege";
               description := "Enforce least privilege";
               trivy_keywords := ["root"; "privileged"; "capability"; "suid"];
               severity_threshold := "HIGH" |});
  ("SA-8",  {| name := "Security and Privacy Engineering Principles";
               description := "Apply secure design principles";
               trivy_keywords := ["insecure"; "deprecated"; "vulnerable"];
               severity_threshold := "MEDIUM" |});
  ("RA-5",  {| name := "Vulnerability Monitoring and Scanning";
               description := "Monitor and scan for vulnerabilities";
               trivy_keywords := [];
               severity_threshold := "LOW" |})
].

Definition SEVERITY_ORDER : gmap string Z :=
  list_to_map [("CRITICAL", 4%Z); ("HIGH", 3%Z); ("MEDIUM", 2%Z); ("LOW", 1%Z); ("UNKNOWN", 0%Z)].

(** ** merge_jsons *)

(** The files are seen through [fs]: [fs f] is what
    [with open(f, 'r') as ff: json.load(ff)] evaluates to. *)
Definition file_system := string → res json.

(** The body of the [try] once [data] is loaded: extend the accumulated
    [Results], then copy every other top-level key. *)
Definition merge_items (data merged : dict) : dict :=
  map_fold (λ key value acc,
              if bool_decide (key ≠ "Results") then <[key := value]> acc else acc)
           merged data.

Definition merge_data (merged : dict) (data : json) : res dict :=
  acc ← getitem (JObj merged) "Results";
  new ← get data "Results" (JArr []);
  xs ← iter new;
  acc' ← extend acc xs;
  match data with
  | JObj d => Ok (merge_items d (<["Results" := acc']> merged))
  | _ => Raise AttributeError
  end.

Definition warning (f : string) : string := "Warning: Could not load " +:+ f.

(** The loop of [merge_jsons]; [out] is what has been printed so far. *)
Fixpoint merge_loop (fs : file_system) (file_list : list string)
    (merged : dict) (out : list string) : list string * res dict :=
  match file_list with
  | [] => (out, Ok merged)
  | f :: rest =>
      match data ← fs f; merge_data merged data with
      | Ok merged' => merge_loop fs rest merged' out
      | Raise FileNotFoundError | Raise JSONDecodeError =>
          merge_loop fs rest merged (out ++ [warning f])
      | Raise e => (out, Raise e)
      end
  end.

Definition merge_jsons (fs : file_system) (file_list : list string)
    : list string * res dict :=
  merge_loop fs file_list {["Results" := JArr []]} [].

(** ** extract_findings and export_mitre_saf_hdf *)

Section Script.
(** [str(v)] for a value [v] that is not a string, as an f-string renders
    it (the repr of a number, a list, a dict, [None], [True]). *)
Variable py_str : json → string.

(** [f"{v}"] *)
Definition format (v : json) : string :=
  match v with
  | JStr s => s
  | _ => py_str v
  end.

(** The dict appended for one entry of [Vulnerabilities]. *)
Definition vulnerability_finding (vuln : json) : res dict :=
  id ← getitem vuln "VulnerabilityID";
  title_default ← getitem vuln "VulnerabilityID";
  title ← get vuln "Title" title_default;
  severity ← getitem vuln "Severity";
  package ← get vuln "PkgName" (JStr "N/A");
  installed ← get vuln "InstalledVersion" (JStr "N/A");
  fixed ← get vuln "FixedVersion" (JStr "No fix available");
  description ← get vuln "Description" (JStr "");
  references ← get vuln "References" (JArr []);
  published ← get vuln "PublishedDate" (JStr "");
  layer_obj ← get vuln "Layer" (JObj ∅);
  layer ← get layer_obj "DiffID" (JStr "N/A");
  Ok (list_to_map [
    ("type", JStr "vulnerability");
    ("id", id);
    ("title", title);
    ("severity", severity);
    ("package", package);
    ("installed", installed);
    ("fixed", fixed);
    ("description", description);
    ("references", references);
    ("published", published);
    ("layer", layer)
  ]).

(** The dict appended for one entry of [Misconfigurations]. *)
Definition misconfiguration_finding (m : json) : res dict :=
  id ← getitem m "ID";
  title_default ← getitem m "ID";
  title ← get m "Title" title_default;
  severity ← getitem m "Severity";
  description ← get m "Message" (JStr "");
  references ← get m "References" (JArr []);
  Ok (list_to_map [
    ("type", JStr "misconfiguration");
    ("id", id);
    ("title", title);
    ("severity", severity);
    ("description", description);
    ("references", references)
  ]).

(** The dict appended for one entry of [Secrets]. *)
Definition secret_finding (s : json) : res dict :=
  rule ← getitem s "RuleID";
  let id := JStr ("SECRET-" +:+ format rule) in
  rule' ← getitem s "RuleID";
  title ← get s "Title" (JStr ("SECRET-" +:+ format rule'));
  severity ← getitem s "Severity";
  description ← get s "Match" (JStr "");
  Ok (list_to_map [
    ("type", JStr "secret");
    ("id", id);
    ("title", title);
    ("severity", severity);
    ("description", description)
  ]).

(** The body of the outer loop: the three inner loops, one after the
    other, on one entry of [Results]. *)
Definition result_findings (result : json) : res (list dict) :=
  vulns ← get result "Vulnerabilities" (JArr []);
  vulns ← iter vulns;
  fv ← collect vulnerability_finding vulns;
  misconfs ← get result "Misconfigurations" (JArr []);
  misconfs ← iter misconfs;
  fm ← collect misconfiguration_finding misconfs;
  secrets ← get result "Secrets" (JArr []);
  secrets ← iter secrets;
  fs ← collect secret_finding secrets;
  Ok (fv ++ fm ++ fs).

Definition extract_findings (data : json) : res (list dict) :=
  results ← get data "Results" (JArr []);
  results ← iter results;
  per_result ← collect result_findings results;
  Ok (concat per_result).

(** The profile used when the template file does not exist. *)
Definition fallback_hdf : json :=
  JObj {[ "profiles" := JArr [JObj (list_to_map [
    ("name", JStr "Trivy Container Scan");
    ("title", JStr "Automated scan of container image");
    ("controls", JArr [])
  ])] ]}.

(** [{"CRITICAL": 0.9, "HIGH": 0.7, "MEDIUM": 0.5, "LOW": 0.3}.get(severity, 0.1)];
    a list or a dict is not hashable and cannot be looked up. *)
Definition impact (severity : json) : res json :=
  match severity with
  | JStr s =>
      Ok (JFloat (default (1 # 10)%Q
            ((list_to_map [("CRITICAL", (9 # 10)%Q); ("HIGH", (7 # 10)%Q);
                           ("MEDIUM", (5 # 10)%Q); ("LOW", (3 # 10)%Q)]
              : gmap string Q) !! s)))
  | JArr _ | JObj _ => Raise TypeError
  | _ => Ok (JFloat (1 # 10)%Q)
  end.

(** The control built for one finding; [now] is
    [datetime.utcnow().isoformat()] at that moment. *)
Definition control (now : string) (f : dict) : res json :=
  id ← getitem (JObj f) "id";
  title ← getitem (JObj f) "title";
  desc ← getitem (JObj f) "description";
  severity ← getitem (JObj f) "severity";
  imp ← impact severity;
  tag ← getitem (JObj f) "severity";
  package ← getitem (JObj f) "package";
  installed ← getitem (JObj f) "installed";
  fixed ← getitem (JObj f) "fixed";
  Ok (JObj (list_to_map [
    ("id", id);
    ("title", title);
    ("desc", desc);
    ("impact", imp);
    ("tags", JObj {[ "severity" := tag ]});
    ("results", JArr [JObj (list_to_map [
       ("status", JStr "failed");
       ("code_desc", JStr (format package +:+ " " +:+ format installed
                           +:+ " → " +:+ format fixed));
       ("start_time", JStr (now +:+ "Z"))
     ])])
  ])).

(** The loop over [findings]; [clock i] is the [i]-th reading of the
    clock taken during the call. *)
Fixpoint controls_from (clock : nat → string) (i : nat) (findings : list dict)
    : res (list json) :=
  match findings with
  | [] => Ok []
  | f :: rest =>
      c ← control (clock i) f;
      cs ← controls_from clock (S i) rest;
      Ok (c :: cs)
  end.

(** "Append to existing controls or set". The first profile is an object
    inside the document, so what is stored into it shows in [hdf]. *)
Definition append_controls (hdf : json) (controls : list json) : res json :=
  profiles ← getitem hdf "profiles";
  profile ← index0 profiles;
  present ← contains profile "controls";
  profile' ←
    (if negb present then setitem profile "controls" (JArr controls)
     else
       existing ← getitem profile "controls";
       extended ← extend existing controls;
       setitem profile "controls" extended);
  match profiles with
  | JArr (_ :: others) => setitem hdf "profiles" (JArr (profile' :: others))
  | _ => Raise TypeError
  end.

Record exported := {
  filename : string;
  document : json;
  printed : list string
}.

Definition safe_name (image_name : string) : string :=
  replace_char ":" "_" (replace_char "/" "_" image_name).

(** [template] is what opening and loading [container_hardening.hdf.json]
    evaluates to. The result holds the name returned, the document dumped
    into that file and the two lines printed; opening the output file for
    writing is taken to succeed ([main] has made its directory). *)
Definition export_mitre_saf_hdf (template : res json) (clock : nat → string)
    (image_name : string) (findings : list dict) (directory timestamp : string)
    : res exported :=
  hdf ← match template with
        | Raise FileNotFoundError => Ok fallback_hdf
        | loaded => loaded
        end;
  controls ← controls_from clock 0 findings;
  hdf ← append_controls hdf controls;
  let filename :=
    directory +:+ "/hdf/trivy-hdf-" +:+ safe_name image_name +:+ "_"
      +:+ timestamp +:+ ".json" in
  Ok {| filename := filename;
        document := hdf;
        printed := [ "MITRE SAF HDF (eMASS-ready) saved as " +:+ filename;
                     "   → Upload with: saf emasser post findings -f " +:+ filename ] |}.
End Script.

Arguments filename : clear implicits.
Arguments document : clear implicits.
Arguments printed : clear implicits.

(** ** Reading the written document *)

(** The [controls] sequence of the first profile of a document. *)
Definition output_controls (hdf : json) : list json :=
  match hdf with
  | JObj h =>
      match h !! "profiles" with
      | Some (JArr (JObj p :: _)) =>
          match p !! "controls" with
          | Some (JArr l) => l
          | _ => []
          end
      | _ => []
      end
  | _ => []
  end.

Definition control_id (c : json) : option json :=
  match c with
  | JObj m => m !! "id"
  | _ => None
  end.

(** The [code_desc] of the only result record of a control. *)
Definition code_desc (c : json) : option json :=
  match c with
  | JObj m =>
      match m !! "results" with
      | Some (JArr [JObj r]) => r !! "code_desc"
      | _ => None
      end
  | _ => None
  end.

(** The document the assembler starts from. *)
Definition starting_hdf (template : res json) : res json :=
  match template with
  | Raise FileNotFoundError => Ok fallback_hdf
  | loaded => loaded
  end.

(** A control with the id [k] appears in the output control sequence. *)
Definition appears (k : string) (hdf : json) : Prop :=
  ∃ c, c ∈ output_controls hdf ∧ control_id c = Some (JStr k).

(** ** Which files and records the script can process *)

(** What [merged["Results"]] is extended with for the document [data]. *)
Definition results_seq (data : json) : res (list json) :=
  new ← get data "Results" (JArr []);
  iter new.

Definition results_of (data : json) : list json :=
  match results_seq data with
  | Ok xs => xs
  | Raise _ => []
  end.

(** A file the handler of [merge_jsons] skips: missing
    ([FileNotFoundError]) or not JSON ([JSONDecodeError]). *)
Definition skipped (fs : file_system) (f : string) : bool :=
  match fs f with
  | Raise FileNotFoundError | Raise JSONDecodeError => true
  | _ => false
  end.

(** The documents of the files that did load, in the order of the list. *)
Definition loaded (fs : file_system) (file_list : list string) : list json :=
  omap (λ f, match fs f with Ok data => Some data | Raise _ => None end) file_list.

(** A file is usable when it is missing or unparseable (and so skipped), or
    holds an object whose [Results], when present, can be iterated. *)
Definition usable (fs : file_system) (f : string) : Prop :=
  match fs f with
  | Ok data => ∃ xs, results_seq data = Ok xs
  | Raise e => e = FileNotFoundError ∨ e = JSONDecodeError
  end.

(** The records of a corpus: the entries of the three sections of every
    entry of [Results]. *)
Definition section_names : list string :=
  ["Vulnerabilities"; "Misconfigurations"; "Secrets"].

Definition record_in (data record : json) : Prop :=
  ∃ results result section entries,
    results_seq data = Ok results ∧ result ∈ results ∧
    section ∈ section_names ∧
    (s ← get result section (JArr []); iter s) = Ok entries ∧
    record ∈ entries.

(** A corpus of the expected shape: every entry of [Results] is an object,
    its sections are lists of objects, the [Layer] of a vulnerability is an
    object. Nothing is asked of the fields [extract_findings] subscripts. *)
Definition list_of (P : json → Prop) (v : option json) : Prop :=
  match v with
  | None => True
  | Some (JArr l) => Forall P l
  | Some _ => False
  end.

Definition is_object (v : json) : Prop :=
  match v with JObj _ => True | _ => False end.

Definition vulnerability_shaped (v : json) : Prop :=
  match v with
  | JObj m => match m !! "Layer" with None => True | Some l => is_object l end
  | _ => False
  end.

Definition result_shaped (v : json) : Prop :=
  match v with
  | JObj m =>
      list_of vulnerability_shaped (m !! "Vulnerabilities") ∧
      list_of is_object (m !! "Misconfigurations") ∧
      list_of is_object (m !! "Secrets")
  | _ => False
  end.

Definition corpus_shaped (data : json) : Prop :=
  match data with
  | JObj m => list_of result_shaped (m !! "Results")
  | _ => False
  end.

(** A finding that carries every key the assembler subscripts, and a
    severity that can be looked up in the impact table. *)
Definition complete (f : dict) : Prop :=
  (∀ k, k ∈ ["id"; "title"; "description"; "severity"; "package"; "installed"; "fixed"]
        → is_Some (f !! k)) ∧
  match f !! "severity" with
  | Some (JArr _) | Some (JObj _) => False
  | _ => True
  end.

(** ** The control mapper as the specification words it

    The script holds no mapper; these definitions follow the text of the
    specification and are what the assembler's output is compared with. *)

Definition spec_rank (severity : string) : Z :=
  default 0%Z (SEVERITY_ORDER !! severity).

Definition spec_lower_char (c : ascii) : ascii :=
  let n := N_of_ascii c in
  if (65 <=? n)%N && (n <=? 90)%N then ascii_of_N (n + 32) else c.

Fixpoint spec_lower (s : string) : string :=
  match s with
  | EmptyString => EmptyString
  | String c s' => String (spec_lower_char c) (spec_lower s')
  end.

Definition string_field (f : dict) (k : string) : string :=
  match f !! k with
  | Some (JStr s) => s
  | _ => ""
  end.

Definition spec_severity_test (f : dict) (c : control_definition) : bool :=
  (spec_rank (severity_threshold c) <=? spec_rank (string_field f "severity"))%Z.

Definition spec_keyword_test (f : dict) (c : control_definition) : bool :=
  match trivy_keywords c with
  | [] => true
  | keywords =>
      existsb (λ kw,
                 is_infix (spec_lower kw) (spec_lower (string_field f "title"))
                 || is_infix (spec_lower kw) (spec_lower (string_field f "description")))
              keywords
  end.

Definition spec_matches (f : dict) (c : control_definition) : bool :=
  spec_severity_test f c && spec_keyword_test f c.

(** For a key other than [Results], the value the documents [docs], taken
    in order, leave in the merged corpus that held [init]. *)
Definition last_written (key : string) (docs : list json) (init : option json)
    : option json :=
  foldl (λ cur data,
           match data with
           | JObj d => match d !! key with Some v => Some v | None => cur end
           | _ => cur
           end) init docs.

(** A computation that ends normally or with a [KeyError]. *)
Definition only_key_errors {A} (r : res A) : Prop :=
  match r with
  | Ok _ | Raise (KeyError _) => True
  | Raise _ => False
  end.

(** ** Sample inputs *)

(** [str] on [None], booleans and integers. The samples below format
    strings only; other values are written as the empty string here. *)
Definition str_scalar (v : json) : string :=
  match v with
  | JNull => "None"
  | JBool true => "True"
  | JBool false => "False"
  | JInt z => pretty z
  | _ => ""
  end.

Definition sample_clock : nat → string := λ _, "2025-12-01T10:00:00".

Definition sample_vulnerability : dict :=
  list_to_map [
    ("VulnerabilityID", JStr "CVE-2024-0001");
    ("Title", JStr "Hardcoded password in default image");
    ("Severity", JStr "CRITICAL");
    ("PkgName", JStr "openssl");
    ("InstalledVersion", JStr "1.0.2");
    ("FixedVersion", JStr "1.0.3")
  ].

(** A vulnerability without a title. *)
Definition sample_untitled : dict :=
  list_to_map [
    ("VulnerabilityID", JStr "CVE-2024-0002");
    ("Severity", JStr "LOW");
    ("PkgName", JStr "zlib")
  ].

(** A vulnerability whose identifier reads like a catalog id. *)
Definition sample_low : dict :=
  list_to_map [
    ("VulnerabilityID", JStr "SI-2");
    ("Title", JStr "Outdated package");
    ("Severity", JStr "LOW")
  ].

Definition sample_misconfiguration : dict :=
  list_to_map [
    ("ID", JStr "DS002");
    ("Severity", JStr "HIGH");
    ("Message", JStr "Image user should not be root")
  ].

Definition sample_secret : dict :=
  list_to_map [
    ("RuleID", JStr "AWS-001");
    ("Severity", JStr "CRITICAL");
    ("Match", JStr "AKIA****************")
  ].

(** A secret record without a severity. *)
Definition sample_no_severity : dict :=
  list_to_map [("RuleID", JStr "AWS-001"); ("Match", JStr "AKIA")].

Definition corpus_of (vulns misconfs secrets : list dict) : json :=
  JObj {[ "Results" := JArr [JObj (list_to_map [
    ("Target", JStr "image");
    ("Vulnerabilities", JArr (JObj <$> vulns));
    ("Misconfigurations", JArr (JObj <$> misconfs));
    ("Secrets", JArr (JObj <$> secrets))
  ])] ]}.

Definition sample_vuln_document : json :=
  JObj (list_to_map [
    ("ArtifactName", JStr "registry/app:1.0");
    ("SchemaVersion", JInt 2);
    ("Results", JArr [JObj {[ "Vulnerabilities" := JArr [JObj sample_vulnerability; JObj sample_untitled] ]}])
  ]).

Definition sample_secret_document : json :=
  JObj (list_to_map [
    ("ArtifactName", JStr "registry/app:latest");
    ("Results", JArr [JObj {[ "Secrets" := JArr [JObj sample_secret] ]};
                      JObj {[ "Target" := JStr "etc" ]}])
  ]).

(** Two scan files, one file that is not JSON; any other path is missing. *)
Definition sample_fs : file_system := λ f,
  if bool_decide (f = "vuln_1.json") then Ok sample_vuln_document
  else if bool_decide (f = "secret_1.json") then Ok sample_secret_document
  else if bool_decide (f = "misconfig_1.json") then Raise JSONDecodeError
  else Raise FileNotFoundError.

Definition sample_files : list string :=
  ["vuln_1.json"; "secret_1.json"; "misconfig_1.json"; "license_1.json"].

(** A template whose profile already lists a control named like a catalog
    entry. *)
Definition sample_template : json :=
  JObj {[ "profiles" := JArr [JObj (list_to_map [
    ("name", JStr "Container hardening");
    ("controls", JArr [JObj {[ "id" := JStr "SI-2" ]}])
  ])] ]}.

(** The findings the normalizer makes of the sample records. *)
Definition sample_finding : dict :=
  list_to_map [
    ("type", JStr "vulnerability");
    ("id", JStr "CVE-2024-0001");
    ("title", JStr "Hardcoded password in default image");
    ("severity", JStr "CRITICAL");
    ("package", JStr "openssl");
    ("installed", JStr "1.0.2");
    ("fixed", JStr "1.0.3");
    ("description", JStr "");
    ("references", JArr []);
    ("published", JStr "");
    ("layer", JStr "N/A")
  ].

Definition sample_low_finding : dict :=
  list_to_map [
    ("type", JStr "vulnerability");
    ("id", JStr "SI-2");
    ("title", JStr "Outdated package");
    ("severity", JStr "LOW");
    ("package", JStr "N/A");
    ("installed", JStr "N/A");
    ("fixed", JStr "No fix available");
    ("description", JStr "");
    ("references", JArr []);
    ("published", JStr "");
    ("layer", JStr "N/A")
  ].

Definition sample_misconfiguration_finding : dict :=
  list_to_map [
    ("type", JStr "misconfiguration");
    ("id", JStr "DS002");
    ("title", JStr "DS002");
    ("severity", JStr "HIGH");
    ("description", JStr "Image user should not be root");
    ("references", JArr [])
  ].

Definition sample_secret_finding : dict :=
  list_to_map [
    ("type", JStr "secret");
    ("id", JStr "SECRET-AWS-001");
    ("title", JStr "SECRET-AWS-001");
    ("severity", JStr "CRITICAL");
    ("description", JStr "AKIA****************")
  ].

(** The catalog entries the samples are compared with. *)
Definition IA_5 : control_definition :=
  {| name := "Authenticator Management";
     description := "Manage system authenticators";
     trivy_keywords := ["password"; "credential"; "secret"; "key"];
     severity_threshold := "HIGH" |}.

Definition SI_2 : control_definition :=
  {| name := "Flaw Remediation";
     description := "Identify, report, and correct system flaws";
     trivy_keywords := [];
     severity_threshold := "CRITICAL" |}.

(** The sample files, and one file that holds a list, not an object. *)
Definition sample_fs_bad : file_system := λ f,
  if bool_decide (f = "bad.json") then Ok (JArr []) else sample_fs f.

(** ** Records and corpora the normalizer accepts *)

(** The entries of one section of one entry of [Results], as the inner
    loops see them. *)
Definition section_seq (result : json) (section : string) : res (list json) :=
  s ← get result section (JArr []);
  iter s.

Definition section_entries (result : json) (section : string) : list json :=
  match section_seq result section with
  | Ok l => l
  | Raise _ => []
  end.

(** An object that carries the identifier [key] and [Severity]. *)
Definition ready (key : string) (v : json) : Prop :=
  match v with
  | JObj m => is_Some (m !! key) ∧ is_Some (m !! "Severity")
  | _ => False
  end.

Definition vulnerability_ready (v : json) : Prop :=
  vulnerability_shaped v ∧ ready "VulnerabilityID" v.

Definition entries_ok (P : json → Prop) (result : json) (section : string) : Prop :=
  ∃ l, section_seq result section = Ok l ∧ Forall P l.

Definition result_accepted (result : json) : Prop :=
  entries_ok vulnerability_ready result "Vulnerabilities" ∧
  entries_ok (ready "ID") result "Misconfigurations" ∧
  entries_ok (ready "RuleID") result "Secrets".

Definition corpus_accepted (data : json) : Prop :=
  ∃ results, results_seq data = Ok results ∧ Forall result_accepted results.

(** The exceptions a corpus of the expected shape can make extraction
    raise. *)
Definition required_keys : list string :=
  ["VulnerabilityID"; "ID"; "RuleID"; "Severity"].

Definition missing_required_key (e : exn) : Prop :=
  ∃ k, e = KeyError k ∧ k ∈ required_keys.

(** The [type] fields extraction gives the findings of one entry of
    [Results], in order. *)
Definition section_types (result : json) : list (option json) :=
  replicate (length (section_entries result "Vulnerabilities"))
            (Some (JStr "vulnerability")) ++
  replicate (length (section_entries result "Misconfigurations"))
            (Some (JStr "misconfiguration")) ++
  replicate (length (section_entries result "Secrets"))
            (Some (JStr "secret")).

(** A severity the impact table can be asked for. *)
Definition hashable (v : json) : Prop :=
  match v with
  | JArr _ | JObj _ => False
  | _ => True
  end.

(** The result records of a control. *)
Definition result_records (c : json) : list json :=
  match c with
  | JObj m =>
      match m !! "results" with
      | Some (JArr l) => l
      | _ => []
      end
  | _ => []
  end.

(** The number a float value holds. *)
Definition float_value (v : json) : option Q :=
  match v with
  | JFloat q => Some q
  | _ => None
  end.

(** ** convert_tbl_to_html

    [convert_tbl_to_html.py] reads the lines of a table drawn with box
    characters and writes an HTML page. The lines are what [readlines]
    returns; the page is the sequence of the strings handed to [write]. *)

Definition newline : string := String "010" EmptyString.

Definition bytes (l : list nat) : string :=
  string_of_list_ascii (ascii_of_nat <$> l).

(** The code points [str.strip] and [str.rstrip] remove: U+0009 to U+000D,
    U+001C to U+0020, U+0085, U+00A0, U+1680, U+2000 to U+200A, U+2028,
    U+2029, U+202F, U+205F and U+3000, in UTF-8. *)
Definition is_space (c : string) : bool :=
  match c with
  | String a EmptyString =>
      let n := nat_of_ascii a in
      (9 <=? n) && (n <=? 13) || (28 <=? n) && (n <=? 32)
  | _ =>
      bool_decide (c ∈ [bytes [194; 133]; bytes [194; 160]; bytes [225; 154; 128];
                        bytes [226; 128; 128]; bytes [226; 128; 129];
                        bytes [226; 128; 130]; bytes [226; 128; 131];
                        bytes [226; 128; 132]; bytes [226; 128; 133];
                        bytes [226; 128; 134]; bytes [226; 128; 135];
                        bytes [226; 128; 136]; bytes [226; 128; 137];
                        bytes [226; 128; 138]; bytes [226; 128; 168];
                        bytes [226; 128; 169]; bytes [226; 128; 175];
                        bytes [226; 129; 159]; bytes [227; 128; 128]])
  end.

Fixpoint drop_spaces (l : list string) : list string :=
  match l with
  | c :: l' => if is_space c then drop_spaces l' else l
  | [] => []
  end.

Definition join (l : list string) : string := String.concat EmptyString l.

(** [s.lstrip()], [s.rstrip()], [s.strip()] *)
Definition lstrip (s : string) : string := join (drop_spaces (code_points s)).

Definition rstrip (s : string) : string :=
  join (reverse (drop_spaces (reverse (code_points s)))).

Definition strip (s : string) : string := lstrip (rstrip s).

(** [s.split(sep)] for a separator that is not empty: the occurrences of
    [sep] are found from the left and do not overlap. [skip] counts the
    characters of a found separator still to pass. *)
Fixpoint split_from (sep : string) (skip : nat) (s : string) : list string :=
  match s with
  | EmptyString => [EmptyString]
  | String c s' =>
      match skip with
      | S k => split_from sep k s'
      | O =>
          if is_prefix sep s then
            EmptyString :: split_from sep (String.length sep - 1) s'
          else
            match split_from sep 0 s' with
            | h :: t => String c h :: t
            | [] => [String c EmptyString]
            end
      end
  end.

Definition split (sep s : string) : list string := split_from sep 0 s.

(** [l[1:-1]] *)
Definition inner {A} (l : list A) : list A := take (length l - 2) (drop 1 l).

(** [html.escape(s)], with [quote=True]. *)
Definition escape_char (c : ascii) : string :=
  if bool_decide (c = "&"%char) then "&amp;"
  else if bool_decide (c = "<"%char) then "&lt;"
  else if bool_decide (c = ">"%char) then "&gt;"
  else if bool_decide (c = "034"%char) then "&quot;"
  else if bool_decide (c = "'"%char) then "&#x27;"
  else String c EmptyString.

Fixpoint escape (s : string) : string :=
  match s with
  | EmptyString => EmptyString
  | String c s' => escape_char c +:+ escape s'
  end.

Definition page_head : list string := [
  "<!DOCTYPE html>" +:+ newline;
  "<html><head><title>Trivy TBL Report</title>" +:+ newline;
  "<style>" +:+ newline;
  "table { border-collapse: collapse; width: 100%; font-family: Arial, sans-serif; margin: 20px 0; }" +:+ newline;
  "th, td { border: 1px solid #ddd; padding: 8px; text-align: left; }" +:+ newline;
  "th { background-color: #f2f2f2; font-weight: bold; }" +:+ newline;
  "tr:nth-child(even) { background-color: #f9f9f9; }" +:+ newline;
  "tr:hover { background-color: #f5f5f5; }" +:+ newline;
  "h2 { font-family: Arial, sans-serif; color: #333; }" +:+ newline;
  "pre { font-family: monospace; background: #f5f5f5; padding: 10px; border: 1px solid #ddd; }" +:+ newline;
  "</style></head><body><h2>Trivy Scan Report</h2>" +:+ newline
].

Definition table_open : string := "<table>" +:+ newline.
Definition table_close : string := "</table>" +:+ newline.
Definition row_open : string := "<tr>".
Definition row_close : string := "</tr>" +:+ newline.

(** The line is a border of the drawn table. *)
Definition is_border (line : string) : bool :=
  is_prefix "┌" line || is_prefix "├" line || is_prefix "└" line.

(** The cells of a row line, stripped and escaped. *)
Definition cells (line : string) : list string :=
  (λ c, escape (strip c)) <$> inner (split "│" line).

(** What is written for a row line. *)
Definition write_row (line : string) : list string :=
  [row_open] ++ ((λ cell, "<td>" +:+ cell +:+ "</td>") <$> cells line) ++ [row_close].

(** The loop over the lines and the closing of a table left open;
    [in_table] is the flag of the script. *)
Fixpoint convert_lines (lines : list string) (in_table : bool) : list string :=
  match lines with
  | [] => if in_table then [table_close] else []
  | raw :: rest =>
      let line := rstrip raw in
      if is_border line then convert_lines rest in_table
      else if is_infix "│" line then
        (if negb in_table then [table_open] else []) ++
        write_row line ++ convert_lines rest true
      else if negb (bool_decide (strip line ≠ EmptyString)) then
        (if in_table then [table_close] else []) ++ convert_lines rest false
      else
        (if in_table then [table_close] else []) ++
        (if bool_decide (strip line ≠ EmptyString)
         then ["<pre>" +:+ escape line +:+ "</pre>" +:+ newline] else []) ++
        convert_lines rest false
  end.

Definition convert_tbl_to_html (lines : list string) : list string :=
  page_head ++ convert_lines lines false ++ ["</body></html>" +:+ newline].



(** Reading the page back: where the writer stands between two strings. *)
Inductive place := Outside | Opened | InTable | InRow.

(** One string of the page moves the reader, or is out of place. *)
Definition read (p : place) (chunk : string) : option place :=
  if is_prefix "<table>" chunk then
    match p with Outside => Some Opened | _ => None end
  else if is_prefix "</table>" chunk then
    match p with InTable => Some Outside | _ => None end
  else if is_prefix "<tr>" chunk then
    match p with Opened | InTable => Some InRow | _ => None end
  else if is_prefix "</tr>" chunk then
    match p with InRow => Some InTable | _ => None end
  else if is_prefix "<td>" chunk then
    match p with InRow => Some InRow | _ => None end
  else if is_prefix "<pre>" chunk then
    match p with Outside => Some Outside | _ => None end
  else None.

Fixpoint read_all (p : place) (chunks : list string) : option place :=
  match chunks with
  | [] => Some p
  | c :: rest =>
      match read p c with
      | Some p' => read_all p' rest
      | None => None
      end
  end.

Definition sample_table : list string := [
  "Report for app" +:+ newline;
  "┌──────┬──────┐" +:+ newline;
  "│ Name │ <b>  │" +:+ newline;
  "├──────┼──────┤" +:+ newline;
  "│ a&b  │ 1    │" +:+ newline;
  "└──────┴──────┘" +:+ newline;
  newline;
  "│ lone" +:+ newline
].

(** ** main and export_openscap_bundle

    What [main] does to the outside is kept as a list of events; what it
    asks of the outside (the files [glob] finds, the scan files, the
    template, the clocks, the converter run through [docker], the lines
    typed at the menu) is given by a [world] and a list of input lines. *)

Inductive event :=
  | Printed (text : string)
  | Prompted (text : string)
  | MadeDirs (path : string)
  | Wrote (path : string) (doc : json)
  | Ran (command : list string).

(** How [subprocess.run(..., check=True)] ends: normally, with the
    [CalledProcessError] the script catches ([shown] is its [str]), or
    with another exception (no [docker] to run, for one). *)
Inductive process :=
  | Completed
  | CalledProcessError (shown : string)
  | Failed (e : exn).

Record world := {
  glob : string → list string;
  open_json : file_system;
  template_file : res json;
  utcnow : nat → string;
  now_stamp : string;
  subprocess_run : list string → process
}.

(** How a run of [main] ends: it returns, [sys.exit] is called, an
    exception leaves it, or [input] finds no line ([EOFError]). *)
Inductive ending :=
  | Returned
  | Exited (code : Z)
  | Raised (e : exn)
  | EndOfInput.

Definition ends_with_slash (s : string) : bool :=
  match reverse (list_ascii_of_string s) with
  | c :: _ => bool_decide (c = "/"%char)
  | [] => false
  end.

(** [os.path.join(a, b)] *)
Definition path_join (a b : string) : string :=
  if is_prefix "/" b then b
  else if bool_decide (a = EmptyString) || ends_with_slash a then a +:+ b
  else a +:+ "/" +:+ b.

(** [os.path.basename(p)] *)
Definition basename (p : string) : string := List.last (split "/" p) EmptyString.

(** The truth value of a loaded value, as [or] tests it. *)
Definition truthy (v : json) : bool :=
  match v with
  | JNull => false
  | JBool b => b
  | JInt z => negb (z =? 0)%Z
  | JFloat q => negb (Qnum q =? 0)%Z
  | JStr s => negb (bool_decide (s = EmptyString))
  | JArr l => negb (bool_decide (l = []))
  | JObj m => negb (bool_decide (m = ∅))
  end.

(** [image_name.split('/')[-1].split(':')[0] if '/' in image_name
     else image_name.split(':')[0]] *)
Definition container_name (image_name : json) : res string :=
  has_slash ← contains image_name "/";
  match image_name with
  | JStr s =>
      Ok (if has_slash : bool
          then hd EmptyString (split ":" (List.last (split "/" s) EmptyString))
          else hd EmptyString (split ":" s))
  | _ => Raise AttributeError
  end.

(** [data.get("Metadata", {}).get("RepoDigests", [None])[0] or "No digest found"] *)
Definition image_digest (data : dict) : res json :=
  metadata ← get (JObj data) "Metadata" (JObj ∅);
  digests ← get metadata "RepoDigests" (JArr [JNull]);
  first ← index0 digests;
  Ok (if truthy first then first else JStr "No digest found").

Definition xccdf_file (image_name directory timestamp : string) : string :=
  directory +:+ "/openscap/" +:+ safe_name image_name +:+ "_" +:+ timestamp
    +:+ ".xccdf.xml".

Definition openscap_command (image_name directory timestamp hdf_file : string)
    : list string :=
  ["docker"; "run"; "--rm"; "-v"; directory +:+ ":/share"; "-w"; "/share";
   "mitre/saf:latest"; "convert"; "hdf2xccdf";
   "-i"; "hdf/" +:+ basename hdf_file;
   "-o"; "openscap/" +:+ basename (xccdf_file image_name directory timestamp)].

(** The events of one call, and the exception that leaves it, if any. *)
Definition export_openscap_bundle (w : world)
    (image_name directory timestamp hdf_file : string)
    : list event * option exn :=
  let command := openscap_command image_name directory timestamp hdf_file in
  match subprocess_run w command with
  | Completed =>
      ([Ran command;
        Printed ("OpenSCAP XCCDF saved as " +:+ xccdf_file image_name directory timestamp)],
       None)
  | CalledProcessError shown =>
      ([Ran command; Printed ("Error generating XCCDF: " +:+ shown)], None)
  | Failed e => ([Ran command], Some e)
  end.

Definition menu_text : list event := [
  Printed "Export Options:";
  Printed "  1) OpenSCAP XCCDF + OVAL Bundle";
  Printed "  2) MITRE SAF HDF JSON (eMASS POAM upload)";
  Printed "  3) DISA STIG Viewer CKL";
  Printed "  4) All of the above";
  Printed "  5) Exit";
  Prompted (newline +:+ "Choose (1-5): ")
].

Definition hdf_lines (hdf_file : string) : list event := [
  Printed ("MITRE SAF HDF (eMASS-ready) saved as " +:+ hdf_file);
  Printed ("   → Upload with: saf emasser post findings -f " +:+ hdf_file)
].

Definition ckl_lines : list event := [
  Printed "DISA STIG Viewer CKL generation not available due to compatibility issues.";
  Printed "Use the main hardening script for CKL generation."
].

(** The [while True] loop; [inputs] are the lines [input] will return. *)
Fixpoint menu (w : world) (image_name directory timestamp hdf_file : string)
    (inputs : list string) : list event * ending :=
  match inputs with
  | [] => (menu_text, EndOfInput)
  | line :: rest =>
      let choice := strip line in
      let continue (events : list event) :=
        let '(later, ending) := menu w image_name directory timestamp hdf_file rest in
        (menu_text ++ events ++ [Printed EmptyString] ++ later, ending) in
      let with_openscap (after : list event) :=
        match export_openscap_bundle w image_name directory timestamp hdf_file with
        | (events, None) =>
            continue ([Printed "Generating OpenSCAP XCCDF..."] ++ events ++
                      [Printed "XCCDF generation complete."] ++ after)
        | (events, Some e) =>
            (menu_text ++ [Printed "Generating OpenSCAP XCCDF..."] ++ events, Raised e)
        end in
      if bool_decide (choice = "1") then with_openscap []
      else if bool_decide (choice = "2") then continue (hdf_lines hdf_file)
      else if bool_decide (choice = "3") then continue ckl_lines
      else if bool_decide (choice = "4") then
        with_openscap (hdf_lines hdf_file ++ ckl_lines)
      else if bool_decide (choice = "5") then
        (menu_text ++ [Printed "Goodbye!"], Returned)
      else continue [Printed "Invalid choice. Try again."]
  end.

Section Main.
Variable py_str : json → string.

(** [main], for the directory given on the command line. The directories
    are taken to be made without error. The parsing of the command line,
    which the module does before [main] is called and which can itself
    exit, is not part of [main]. *)
Definition main (w : world) (directory : string) (inputs : list string)
    : list event * ending :=
  let trivy_scans_dir := path_join directory "trivy_scans" in
  let all_files :=
    glob w (path_join trivy_scans_dir "vuln_*.json") ++
    glob w (path_join trivy_scans_dir "secret_*.json") ++
    glob w (path_join trivy_scans_dir "misconfig_*.json") ++
    glob w (path_join trivy_scans_dir "license_*.json") in
  if bool_decide (all_files = []) then
    ([Printed "Error: No Trivy scan JSON files found in trivy_scans directory"],
     Exited 1)
  else
    let '(warnings, merged) := merge_jsons (open_json w) all_files in
    let loaded := Printed <$> warnings in
    match merged with
    | Raise e => (loaded, Raised e)
    | Ok data =>
        let image_name := default (JStr "unknown-image") (data !! "ArtifactName") in
        match extract_findings py_str (JObj data) with
        | Raise e => (loaded, Raised e)
        | Ok findings =>
            match (name ← container_name image_name;
                   digest ← image_digest data;
                   Ok (name, digest)) with
            | Raise e => (loaded, Raised e)
            | Ok (name, digest) =>
                let image := format py_str image_name in
                let found := [
                  Printed (newline +:+ "Found " +:+ pretty (length findings) +:+
                           " findings in " +:+ image +:+ newline);
                  Printed ("Container name: " +:+ name);
                  Printed ("Image digest: " +:+ format py_str digest +:+ newline)
                ] in
                let mitre := directory +:+ "/MITRE" in
                let made := [
                  MadeDirs (mitre +:+ "/openscap");
                  MadeDirs (mitre +:+ "/hdf");
                  MadeDirs (mitre +:+ "/ckl")
                ] in
                match export_mitre_saf_hdf py_str (template_file w) (utcnow w)
                        image findings mitre (now_stamp w) with
                | Raise e => (loaded ++ found ++ made, Raised e)
                | Ok e =>
                    let exported :=
                      Wrote (filename e) (document e) :: (Printed <$> printed e) in
                    let told := [
                      Printed ("Results will be saved in directory: " +:+ mitre);
                      Printed "Subfolders created: openscap, hdf, ckl";
                      Printed EmptyString
                    ] in
                    let '(asked, ending) :=
                      menu w image mitre (now_stamp w) (filename e) inputs in
                    (loaded ++ found ++ made ++ exported ++ told ++ asked, ending)
                end
            end
        end
    end.
End Main.

(** The choices typed before the first [5]. *)
Fixpoint before_exit (inputs : list string) : list string :=
  match inputs with
  | [] => []
  | line :: rest =>
      if bool_decide (strip line = "5") then [] else strip line :: before_exit rest
  end.

Definition runs_converter (choice : string) : bool :=
  bool_decide (choice = "1") || bool_decide (choice = "4").

Definition is_run (e : event) : bool :=
  match e with Ran _ => true | _ => false end.

Definition is_write (e : event) : bool :=
  match e with Wrote _ _ => true | _ => false end.

(** A converter that always ends, normally or with the caught error. *)
Definition converter_ends (w : world) : Prop :=
  ∀ command e, subprocess_run w command ≠ Failed e.

(** [s.split(a)] for a separator of one character. *)
Fixpoint split_char (a : ascii) (s : string) : list string :=
  match s with
  | EmptyString => [EmptyString]
  | String c s' =>
      if bool_decide (a = c) then EmptyString :: split_char a s'
      else match split_char a s' with
           | h :: t => String c h :: t
           | [] => [String c EmptyString]
           end
  end.

Definition sample_world : world := {|
  glob := λ pattern,
    if bool_decide (pattern = "/scan/trivy_scans/vuln_*.json") then ["vuln_1.json"]
    else [];
  open_json := sample_fs;
  template_file := Raise FileNotFoundError;
  utcnow := sample_clock;
  now_stamp := "20251201_100000";
  subprocess_run := λ _, CalledProcessError "Command returned non-zero exit status 1."
|}.

(** A scan whose image has no repository digest. *)
Definition sample_local_document : json :=
  JObj (list_to_map [
    ("ArtifactName", JStr "app:dev");
    ("Metadata", JObj {[ "RepoDigests" := JArr [] ]});
    ("Results", JArr [JObj {[ "Vulnerabilities" := JArr [JObj sample_vulnerability] ]}])
  ]).

Definition sample_local_world : world := {|
  glob := λ pattern,
    if bool_decide (pattern = "/scan/trivy_scans/vuln_*.json") then ["vuln_local.json"]
    else [];
  open_json := λ f,
    if bool_decide (f = "vuln_local.json") then Ok sample_local_document
    else Raise FileNotFoundError;
  template_file := Raise FileNotFoundError;
  utcnow := sample_clock;
  now_stamp := "20251201_100000";
  subprocess_run := λ _, Completed
|}.

(** The files [main] hands to [merge_jsons]: what the four patterns find,
    in the order of the script. *)
Definition all_files (w : world) (directory : string) : list string :=
  let trivy_scans_dir := path_join directory "trivy_scans" in
  glob w (path_join trivy_scans_dir "vuln_*.json") ++
  glob w (path_join trivy_scans_dir "secret_*.json") ++
  glob w (path_join trivy_scans_dir "misconfig_*.json") ++
  glob w (path_join trivy_scans_dir "license_*.json").

Definition is_made (e : event) : bool :=
  match e with MadeDirs _ => true | _ => false end.

(** What the normalizer makes of [sample_untitled]. *)
Definition sample_untitled_finding : dict :=
  list_to_map [
    ("type", JStr "vulnerability");
    ("id", JStr "CVE-2024-0002");
    ("title", JStr "CVE-2024-0002");
    ("severity", JStr "LOW");
    ("package", JStr "zlib");
    ("installed", JStr "N/A");
    ("fixed", JStr "No fix available");
    ("description", JStr "");
    ("references", JArr []);
    ("published", JStr "");
    ("layer", JStr "N/A")
  ].

(** The sample files, and one scan saved as UTF-16: [open(f, 'r')] decodes
    it as UTF-8 and [json.load] raises [UnicodeDecodeError] on its first
    bytes. *)
Definition sample_fs_not_text : file_system := λ f,
  if bool_decide (f = "vuln_utf16.json") then Raise UnicodeDecodeError
  else sample_fs f.

(** ** The records of a corpus, in the order of the loops *)

(** The three inner loops of [extract_findings]. *)
Inductive section_kind := Vulnerability | Misconfiguration | Secret.

(** The key of the identifier an inner loop subscripts and the [type] it
    writes. *)
Definition identifier_key (k : section_kind) : string :=
  match k with
  | Vulnerability => "VulnerabilityID"
  | Misconfiguration => "ID"
  | Secret => "RuleID"
  end.

Definition type_name (k : section_kind) : string :=
  match k with
  | Vulnerability => "vulnerability"
  | Misconfiguration => "misconfiguration"
  | Secret => "secret"
  end.

(** The records of one entry of [Results], section after section. *)
Definition tagged_records (result : json) : list (section_kind * json) :=
  (pair Vulnerability <$> section_entries result "Vulnerabilities") ++
  (pair Misconfiguration <$> section_entries result "Misconfigurations") ++
  (pair Secret <$> section_entries result "Secrets").

Definition corpus_records (data : json) : list (section_kind * json) :=
  concat (tagged_records <$> results_of data).

(** The finding [f] carries the type of the section of the record, the
    identifier of the record (behind [SECRET-] for a secret) and its
    severity. *)
Definition made_from (py_str : json → string) (tagged : section_kind * json)
    (f : dict) : Prop :=
  ∃ m identifier severity,
    tagged.2 = JObj m ∧
    m !! identifier_key tagged.1 = Some identifier ∧
    m !! "Severity" = Some severity ∧
    f !! "type" = Some (JStr (type_name tagged.1)) ∧
    f !! "id" = Some (match tagged.1 with
                      | Secret => JStr ("SECRET-" +:+ format py_str identifier)
                      | _ => identifier
                      end) ∧
    f !! "severity" = Some severity.

(** ** The strings of the page *)

(** The strings the converter writes whatever the lines are. *)
Definition markup : list string :=
  page_head ++
  [table_open; table_close; row_open; row_close; "</body></html>" +:+ newline].

(** A text that holds no [<], no [>], no double quote and no apostrophe. *)
Definition plain (text : string) : Prop :=
  ∀ a, a ∈ ["<"%char; ">"%char; "034"%char; "'"%char] →
       is_infix (String a EmptyString) text = false.

(** The string [chunk] is a text of the line [raw], escaped and plain, in
    a block or in a cell: the line without its trailing blanks between
    [<pre>] and [</pre>], or one of its inner cells, stripped, between
    [<td>] and [</td>]. *)
Definition escaped_text_of (raw chunk : string) : Prop :=
  ∃ text,
    plain text ∧
    ((text = escape (rstrip raw) ∧
      chunk = "<pre>" +:+ text +:+ "</pre>" +:+ newline) ∨
     (∃ cell, cell ∈ inner (split "│" (rstrip raw)) ∧
              text = escape (strip cell) ∧
              chunk = "<td>" +:+ text +:+ "</td>")).

(** ** Properties of the error monad and of the dynamic operations *)

Lemma collect_app {A B} (f : A → res B) (l1 l2 : list A) :
  collect f (l1 ++ l2) =
  (ys1 ← collect f l1; ys2 ← collect f l2; Ok (ys1 ++ ys2)).
Proof.
  induction l1 as [|x l1 IH]; simpl.
  - by destruct (collect f l2).
  - destruct (f x) as [y|e]; simpl; [|done].
    rewrite IH. destruct (collect f l1); simpl; [|done].
    by destruct (collect f l2).
Qed.

Lemma collect_Ok {A B} (f : A → res B) (l : list A) (ys : list B) :
  collect f l = Ok ys ↔ Forall2 (λ x y, f x = Ok y) l ys.
Proof.
  revert ys. induction l as [|x l IH]; intros ys; simpl.
  - split; [intros [= <-]; constructor | by inversion 1].
  - destruct (f x) as [y|e] eqn:Hx; simpl.
    + destruct (collect f l) as [ys'|e] eqn:Hl; simpl.
      * split.
        -- intros [= <-]. constructor; [done | by apply IH].
        -- inversion 1 as [|? y' ? ys'' Hy Hys]; subst.
           apply IH in Hys. congruence.
      * split; [done|]. inversion 1 as [|? y' ? ys'' Hy Hys]; subst.
        apply IH in Hys. congruence.
    + split; [done|]. inversion 1; congruence.
Qed.

Lemma collect_Raise {A B} (f : A → res B) (l : list A) (x : A) (e : exn) :
  x ∈ l → f x = Raise e → ∃ e', collect f l = Raise e'.
Proof.
  intros Hin Hx. induction l as [|x' l IH]; [by apply elem_of_nil in Hin|].
  apply elem_of_cons in Hin as [<- | Hin]; simpl.
  - rewrite Hx. by eexists.
  - destruct (f x'); simpl; [|by eexists].
    destruct (IH Hin) as [e' ->]. by eexists.
Qed.

(** ** The loader *)

Lemma merge_items_lookup (data merged : dict) (key : string) :
  merge_items data merged !! key =
  if bool_decide (key = "Results") then merged !! key
  else match data !! key with Some v => Some v | None => merged !! key end.
Proof.
  unfold merge_items.
  apply (map_fold_weak_ind (λ acc d, acc !! key =
    if bool_decide (key = "Results") then merged !! key
    else match d !! key with Some v => Some v | None => merged !! key end)).
  - rewrite lookup_empty. by case_bool_decide.
  - intros k x d acc Hk IH. simpl.
    destruct (decide (k = key)) as [->|Hne].
    + rewrite lookup_insert_eq.
      destruct (decide (key = "Results")) as [Hkey|Hkey].
      * rewrite (bool_decide_true (key = "Results")) in IH |- * by done.
        by rewrite bool_decide_false by (by intros []).
      * rewrite (bool_decide_false (key = "Results")) by done.
        rewrite bool_decide_true by done. apply lookup_insert_eq.
    + rewrite (lookup_insert_ne d) by done. rewrite <- IH.
      destruct (bool_decide (k ≠ "Results")); [by rewrite lookup_insert_ne|done].
Qed.

Lemma merge_data_Ok (merged : dict) (data : json) (acc xs : list json) :
  merged !! "Results" = Some (JArr acc) →
  results_seq data = Ok xs →
  ∃ d, data = JObj d ∧
       merge_data merged data =
       Ok (merge_items d (<["Results" := JArr (acc ++ xs)]> merged)).
Proof.
  intros Hacc Hxs. unfold merge_data, results_seq in *. simpl. rewrite Hacc. simpl.
  destruct data; try done. simpl in *. rewrite Hxs. simpl. by eexists.
Qed.

Lemma merge_data_Raise (merged : dict) (data : json) (acc : list json) (e : exn) :
  merged !! "Results" = Some (JArr acc) →
  merge_data merged data = Raise e →
  results_seq data = Raise e ∧ (e = AttributeError ∨ e = TypeError).
Proof.
  intros Hacc. unfold merge_data, results_seq. simpl. rewrite Hacc. simpl.
  destruct data as [| | | | |l|m]; simpl; try (intros [= <-]; auto).
  destruct (default (JArr []) (m !! "Results")); simpl; try done;
    intros [= <-]; auto.
Qed.

Lemma merge_data_inv (merged : dict) (data : json) (acc : list json) :
  merged !! "Results" = Some (JArr acc) →
  match merge_data merged data with
  | Ok merged' =>
      ∃ d xs, data = JObj d ∧ results_seq data = Ok xs ∧
              merged' = merge_items d (<["Results" := JArr (acc ++ xs)]> merged)
  | Raise e => results_seq data = Raise e ∧ (e = AttributeError ∨ e = TypeError)
  end.
Proof.
  intros Hacc. destruct (merge_data merged data) as [merged'|e] eqn:Hm.
  - destruct (results_seq data) as [xs|e] eqn:Hxs.
    + destruct (merge_data_Ok _ _ _ _ Hacc Hxs) as (d & -> & Hd).
      exists d, xs. split_and!; congruence.
    + unfold merge_data, results_seq in *. simpl in Hm. rewrite Hacc in Hm.
      simpl in Hm. destruct (get data "Results" (JArr [])) as [new|]; simpl in *;
        [|done]. by rewrite Hxs in Hm.
  - by eapply merge_data_Raise.
Qed.

Lemma merged_results (d merged : dict) (l : list json) :
  merge_items d (<["Results" := JArr l]> merged) !! "Results" = Some (JArr l).
Proof. rewrite merge_items_lookup. simpl. apply lookup_insert_eq. Qed.

Lemma merged_other (d merged : dict) (l : list json) (key : string) :
  key ≠ "Results" →
  merge_items d (<["Results" := JArr l]> merged) !! key =
  match d !! key with Some v => Some v | None => merged !! key end.
Proof.
  intros Hkey. rewrite merge_items_lookup. rewrite bool_decide_false by done.
  by rewrite lookup_insert_ne.
Qed.

Lemma loaded_cons_Ok (fs : file_system) (f : string) (rest : list string) (data : json) :
  fs f = Ok data → loaded fs (f :: rest) = data :: loaded fs rest.
Proof. intros Hfs. unfold loaded. simpl. by rewrite Hfs. Qed.

Lemma loaded_cons_Raise (fs : file_system) (f : string) (rest : list string) (e : exn) :
  fs f = Raise e → loaded fs (f :: rest) = loaded fs rest.
Proof. intros Hfs. unfold loaded. simpl. by rewrite Hfs. Qed.

Lemma skipped_Ok (fs : file_system) (f : string) (data : json) :
  fs f = Ok data → skipped fs f = false.
Proof. intros Hfs. unfold skipped. by rewrite Hfs. Qed.

Lemma skipped_Raise (fs : file_system) (f : string) (e : exn) :
  fs f = Raise e →
  skipped fs f = true ↔ e = FileNotFoundError ∨ e = JSONDecodeError.
Proof.
  intros Hfs. unfold skipped. rewrite Hfs.
  destruct e; split; intros H; try done; auto; by destruct H.
Qed.

Lemma warnings_cons_skipped (fs : file_system) (f : string) (rest out : list string) :
  skipped fs f = true →
  out ++ (warning <$> filter (λ f, skipped fs f) (f :: rest)) =
  (out ++ [warning f]) ++ (warning <$> filter (λ f, skipped fs f) rest).
Proof.
  intros Hf. rewrite filter_cons_True by (by rewrite Hf).
  by rewrite fmap_cons, <- app_assoc.
Qed.

Lemma warnings_cons_read (fs : file_system) (f : string) (rest : list string) :
  skipped fs f = false →
  filter (λ f, skipped fs f) (f :: rest) = filter (λ f, skipped fs f) rest.
Proof. intros Hf. apply filter_cons_False. rewrite Hf. simpl. tauto. Qed.

Lemma read_cons_skipped (fs : file_system) (f : string) (rest : list string) :
  skipped fs f = true →
  filter (λ f, ¬ skipped fs f) (f :: rest) = filter (λ f, ¬ skipped fs f) rest.
Proof. intros Hf. apply filter_cons_False. rewrite Hf. simpl. tauto. Qed.

Lemma read_cons_read (fs : file_system) (f : string) (rest : list string) :
  skipped fs f = false →
  filter (λ f, ¬ skipped fs f) (f :: rest) = f :: filter (λ f, ¬ skipped fs f) rest.
Proof. intros Hf. apply filter_cons_True. rewrite Hf. simpl. tauto. Qed.

(** One turn of the loop, by what loading the file gives. *)
Lemma merge_loop_Ok (fs : file_system) (f : string) (rest : list string)
    (merged merged' : dict) (out : list string) (data : json) :
  fs f = Ok data → merge_data merged data = Ok merged' →
  merge_loop fs (f :: rest) merged out = merge_loop fs rest merged' out.
Proof. intros Hfs Hm. simpl. rewrite Hfs. simpl. by rewrite Hm. Qed.

Lemma merge_loop_skipped (fs : file_system) (f : string) (rest : list string)
    (merged : dict) (out : list string) :
  skipped fs f = true →
  merge_loop fs (f :: rest) merged out = merge_loop fs rest merged (out ++ [warning f]).
Proof.
  unfold skipped. intros Hf. simpl. destruct (fs f) as [|e]; [done|].
  by destruct e.
Qed.

Lemma merge_loop_Raise (fs : file_system) (f : string) (rest : list string)
    (merged : dict) (out : list string) (e : exn) :
  (data ← fs f; merge_data merged data) = Raise e →
  e ≠ FileNotFoundError → e ≠ JSONDecodeError →
  merge_loop fs (f :: rest) merged out = (out, Raise e).
Proof. intros Hr Hn1 Hn2. simpl. rewrite Hr. by destruct e. Qed.

(** On usable files the loop ends normally, and its three effects are the
    warnings, the concatenated [Results] and the last value of every key. *)
Lemma merge_loop_usable (fs : file_system) (file_list : list string) :
  ∀ (merged : dict) (acc : list json) (out : list string),
  merged !! "Results" = Some (JArr acc) →
  Forall (usable fs) file_list →
  ∃ merged',
    merge_loop fs file_list merged out =
      (out ++ (warning <$> filter (λ f, skipped fs f) file_list), Ok merged') ∧
    merged' !! "Results" =
      Some (JArr (acc ++ concat (results_of <$> loaded fs file_list))) ∧
    ∀ key, key ≠ "Results" →
      merged' !! key = last_written key (loaded fs file_list) (merged !! key).
Proof.
  induction file_list as [|f rest IH]; intros merged acc out Hacc Hall.
  - exists merged. simpl. rewrite !app_nil_r. done.
  - apply Forall_cons in Hall as [Hf Hrest]. unfold usable in Hf.
    destruct (fs f) as [data|e] eqn:Hfs.
    + destruct Hf as [xs Hxs].
      destruct (merge_data_Ok _ _ _ _ Hacc Hxs) as (d & -> & Hd).
      destruct (IH _ (acc ++ xs) out (merged_results d merged _) Hrest)
        as (merged' & Hloop & Hres & Hkeys).
      exists merged'.
      rewrite (merge_loop_Ok _ _ _ _ _ _ _ Hfs Hd), (loaded_cons_Ok _ _ _ _ Hfs).
      rewrite (warnings_cons_read _ _ _ (skipped_Ok _ _ _ Hfs)).
      split_and!; [done| |].
      * rewrite Hres, fmap_cons. unfold results_of at 2. rewrite Hxs.
        simpl. by rewrite app_assoc.
      * intros key Hkey. rewrite (Hkeys key Hkey). simpl.
        by rewrite merged_other.
    + apply (skipped_Raise _ _ _ Hfs) in Hf.
      destruct (IH merged acc (out ++ [warning f]) Hacc Hrest)
        as (merged' & Hloop & Hres & Hkeys).
      exists merged'.
      rewrite (merge_loop_skipped _ _ _ _ _ Hf), (loaded_cons_Raise _ _ _ _ Hfs).
      by rewrite (warnings_cons_skipped _ _ _ _ Hf).
Qed.

(** Dropping the skipped files from the list does not change the result,
    and a normal end has printed one warning per skipped file. *)
Lemma merge_loop_skips (fs : file_system) (file_list : list string) :
  ∀ (merged : dict) (acc : list json) (out out' : list string),
  merged !! "Results" = Some (JArr acc) →
  (merge_loop fs file_list merged out).2 =
    (merge_loop fs (filter (λ f, ¬ skipped fs f) file_list) merged out').2 ∧
  (∀ merged', (merge_loop fs file_list merged out).2 = Ok merged' →
     (merge_loop fs file_list merged out).1 =
       out ++ (warning <$> filter (λ f, skipped fs f) file_list)).
Proof.
  induction file_list as [|f rest IH]; intros merged acc out out' Hacc.
  - simpl. by rewrite app_nil_r.
  - destruct (skipped fs f) eqn:Hf.
    + rewrite (merge_loop_skipped _ _ _ _ _ Hf), (read_cons_skipped _ _ _ Hf).
      rewrite (warnings_cons_skipped _ _ _ _ Hf). by apply IH with acc.
    + rewrite (read_cons_read _ _ _ Hf), (warnings_cons_read _ _ _ Hf).
      pose proof (merge_data_inv merged) as Hinv.
      destruct (fs f) as [data|e] eqn:Hfs.
      * specialize (Hinv data acc Hacc).
        destruct (merge_data merged data) as [merged1|e] eqn:Hm.
        -- rewrite !(merge_loop_Ok _ _ _ _ _ _ _ Hfs Hm).
           destruct Hinv as (d & xs & -> & _ & ->).
           apply (IH _ (acc ++ xs)), merged_results.
        -- assert (e ≠ FileNotFoundError ∧ e ≠ JSONDecodeError) as [Hn1 Hn2]
             by (destruct Hinv as [_ [-> | ->]]; done).
           rewrite !(merge_loop_Raise fs f _ merged _ e); try done;
             by rewrite Hfs.
      * assert (e ≠ FileNotFoundError ∧ e ≠ JSONDecodeError) as [Hn1 Hn2].
        { split; intros ->; unfold skipped in Hf; by rewrite Hfs in Hf. }
        rewrite !(merge_loop_Raise fs f _ merged _ e); try done;
          by rewrite Hfs.
Qed.

Lemma merge_loop_exn (fs : file_system) (file_list : list string) :
  ∀ (merged : dict) (acc : list json) (out : list string) (e : exn),
  merged !! "Results" = Some (JArr acc) →
  (merge_loop fs file_list merged out).2 = Raise e →
  e ≠ FileNotFoundError ∧ e ≠ JSONDecodeError.
Proof.
  induction file_list as [|f rest IH]; intros merged acc out e Hacc; [done|].
  simpl. destruct (fs f) as [data|e0] eqn:Hfs; simpl.
  - pose proof (merge_data_inv merged data acc Hacc) as Hinv.
    destruct (merge_data merged data) as [merged1|e1].
    + destruct Hinv as (d & xs & -> & _ & ->).
      apply (IH _ (acc ++ xs)), merged_results.
    + destruct Hinv as [_ [-> | ->]]; by intros [= <-].
  - destruct e0; try (by intros [= <-]); by apply IH with acc.
Qed.

Lemma initial_results :
  ({["Results" := JArr []]} : dict) !! "Results" = Some (JArr []).
Proof. apply lookup_singleton_eq. Qed.

Lemma last_written_app (key : string) (l1 l2 : list json) (init : option json) :
  last_written key (l1 ++ l2) init = last_written key l2 (last_written key l1 init).
Proof. apply foldl_app. Qed.

Lemma last_written_absent (key : string) (docs : list json) (init : option json) :
  Forall (λ data, ∀ d, data = JObj d → d !! key = None) docs →
  last_written key docs init = init.
Proof.
  intros Hall. revert init. induction Hall as [|data docs Hd _ IH]; intros init; [done|].
  simpl. destruct data as [| | | | | |d]; try apply IH. rewrite (Hd d eq_refl). apply IH.
Qed.

Lemma loaded_app (fs : file_system) (l1 l2 : list string) :
  loaded fs (l1 ++ l2) = loaded fs l1 ++ loaded fs l2.
Proof. apply omap_app. Qed.

(** C5. For every list of input documents, the [Results] of the merged
    corpus is the concatenation, in load order, of the [Results] sequence of
    each loaded document; its length is the sum of their lengths, so nothing
    is dropped and nothing is deduplicated. *)
Theorem merge_jsons_results_concat (fs : file_system) (file_list : list string) :
  Forall (usable fs) file_list →
  ∃ merged results,
    (merge_jsons fs file_list).2 = Ok merged ∧
    merged !! "Results" = Some (JArr results) ∧
    results = concat (results_of <$> loaded fs file_list) ∧
    length results = sum_list (length <$> (results_of <$> loaded fs file_list)).
Proof.
  intros Hall.
  destruct (merge_loop_usable fs file_list _ [] [] initial_results Hall)
    as (merged & Hloop & Hres & _).
  exists merged, (concat (results_of <$> loaded fs file_list)).
  unfold merge_jsons. rewrite Hloop. split_and!; try done.
  apply length_concat.
Qed.

Lemma merge_jsons_results_concat_witness :
  Forall (usable sample_fs) sample_files ∧
  ∃ merged results,
    (merge_jsons sample_fs sample_files).2 = Ok merged ∧
    merged !! "Results" = Some (JArr results) ∧
    results = concat (results_of <$> loaded sample_fs sample_files) ∧
    length results = sum_list (length <$> (results_of <$> loaded sample_fs sample_files)).
Proof.
  assert (Forall (usable sample_fs) sample_files) as Hall.
  { repeat apply Forall_cons_2; [| | | |apply Forall_nil_2].
    - exists (results_of sample_vuln_document). reflexivity.
    - exists (results_of sample_secret_document). reflexivity.
    - right. reflexivity.
    - left. reflexivity. }
  split; [exact Hall | exact (merge_jsons_results_concat sample_fs sample_files Hall)].
Defined.

(** C6. For every top-level key other than [Results], the merged corpus
    holds the value of the last loaded document, in load order, that has
    the key. *)
Theorem merge_jsons_last_write_wins (fs : file_system)
    (before after : list string) (f : string) (d : dict) (key : string)
    (value : json) :
  Forall (usable fs) (before ++ f :: after) →
  fs f = Ok (JObj d) →
  d !! key = Some value →
  key ≠ "Results" →
  Forall (λ f', ∀ d', fs f' = Ok (JObj d') → d' !! key = None) after →
  ∃ merged,
    (merge_jsons fs (before ++ f :: after)).2 = Ok merged ∧
    merged !! key = Some value.
Proof.
  intros Hall Hf Hkey Hne Hafter.
  destruct (merge_loop_usable fs _ _ [] [] initial_results Hall)
    as (merged & Hloop & _ & Hkeys).
  exists merged. unfold merge_jsons. rewrite Hloop. split; [done|].
  rewrite (Hkeys key Hne), loaded_app, last_written_app.
  rewrite (loaded_cons_Ok _ _ _ _ Hf). simpl. rewrite Hkey.
  apply last_written_absent.
  clear -Hafter. induction Hafter as [|f' after Hf' _ IH]; [constructor|].
  destruct (fs f') as [data|e] eqn:Hfs.
  - rewrite (loaded_cons_Ok _ _ _ _ Hfs). constructor; [|done].
    intros d' ->. by apply Hf'.
  - by rewrite (loaded_cons_Raise _ _ _ _ Hfs).
Qed.

Lemma merge_jsons_last_write_wins_witness :
  Forall (usable sample_fs) (["vuln_1.json"] ++ "secret_1.json" :: ["misconfig_1.json"; "license_1.json"]) ∧
  sample_fs "secret_1.json" = Ok sample_secret_document ∧
  ∃ merged,
    (merge_jsons sample_fs
       (["vuln_1.json"] ++ "secret_1.json" :: ["misconfig_1.json"; "license_1.json"])).2
      = Ok merged ∧
    merged !! "ArtifactName" = Some (JStr "registry/app:latest").
Proof.
  assert (Forall (usable sample_fs)
            (["vuln_1.json"] ++ "secret_1.json" :: ["misconfig_1.json"; "license_1.json"]))
    as Hall.
  { repeat apply Forall_cons_2; [| | | |apply Forall_nil_2].
    - exists (results_of sample_vuln_document). reflexivity.
    - exists (results_of sample_secret_document). reflexivity.
    - right. reflexivity.
    - left. reflexivity. }
  split; [exact Hall|]. split; [reflexivity|].
  eapply (merge_jsons_last_write_wins sample_fs ["vuln_1.json"]
            ["misconfig_1.json"; "license_1.json"] "secret_1.json").
  - exact Hall.
  - reflexivity.
  - reflexivity.
  - discriminate.
  - repeat apply Forall_cons_2; [| |apply Forall_nil_2]; intros d' Hd'; discriminate Hd'.
Defined.

(** The two exceptions the loader catches never leave it: a file that is
    missing, or whose text is not JSON, is skipped with a warning, and the
    merged corpus is that of the list without the skipped files. *)
Theorem merge_jsons_skips_bad_files (fs : file_system) (file_list : list string) :
  (merge_jsons fs file_list).2 =
    (merge_jsons fs (filter (λ f, ¬ skipped fs f) file_list)).2 ∧
  (∀ e, (merge_jsons fs file_list).2 = Raise e →
        e ≠ FileNotFoundError ∧ e ≠ JSONDecodeError) ∧
  (∀ merged, (merge_jsons fs file_list).2 = Ok merged →
        (merge_jsons fs file_list).1 =
          warning <$> filter (λ f, skipped fs f) file_list) ∧
  (Forall (usable fs) file_list → ∃ merged, (merge_jsons fs file_list).2 = Ok merged).
Proof.
  unfold merge_jsons. split_and!.
  - by apply (merge_loop_skips fs file_list _ []), initial_results.
  - intros e. by apply (merge_loop_exn fs file_list _ []), initial_results.
  - intros merged.
    by apply (merge_loop_skips fs file_list _ [] [] []), initial_results.
  - intros Hall.
    destruct (merge_loop_usable fs file_list _ [] [] initial_results Hall)
      as (merged & -> & _). by exists merged.
Qed.

(** C9, at an input where the code departs from it. The second file of the
    list cannot be parsed: it is not UTF-8 text, and loading it raises
    [UnicodeDecodeError], which the [except] clause does not name. The
    loader does not skip it: the exception leaves [merge_jsons], no warning
    is printed, no corpus is returned and the third file is never read,
    while the same list with that file missing loads the other two. *)
Theorem merge_jsons_aborts_on_undecodable_file :
  merge_jsons sample_fs_not_text ["vuln_1.json"; "vuln_utf16.json"; "secret_1.json"]
    = ([], Raise UnicodeDecodeError) ∧
  ∃ merged,
    merge_jsons sample_fs ["vuln_1.json"; "vuln_utf16.json"; "secret_1.json"]
      = (["Warning: Could not load vuln_utf16.json"], Ok merged) ∧
    (merge_jsons sample_fs ["vuln_1.json"; "secret_1.json"]).2 = Ok merged.
Proof.
  split; [reflexivity|]. eexists. split; reflexivity.
Qed.

(** ** The normalizer *)

Section Normalizer.
Context (py_str : json → string).

(** What the three per-record functions return on an object. The first
    failing subscript decides the exception. *)
Lemma vulnerability_finding_Ok (vuln : dict) (id severity : json) :
  vuln !! "VulnerabilityID" = Some id →
  vuln !! "Severity" = Some severity →
  vulnerability_shaped (JObj vuln) →
  ∃ f, vulnerability_finding (JObj vuln) = Ok f ∧
       f !! "type" = Some (JStr "vulnerability") ∧
       f !! "id" = Some id ∧
       f !! "title" = Some (default id (vuln !! "Title")) ∧
       f !! "severity" = Some severity ∧
       f !! "package" = Some (default (JStr "N/A") (vuln !! "PkgName")) ∧
       f !! "installed" = Some (default (JStr "N/A") (vuln !! "InstalledVersion")) ∧
       f !! "fixed" = Some (default (JStr "No fix available") (vuln !! "FixedVersion")) ∧
       f !! "description" = Some (default (JStr "") (vuln !! "Description")).
Proof.
  intros Hid Hsev Hlayer. unfold vulnerability_finding. simpl.
  rewrite Hid, Hsev. simpl. simpl in Hlayer.
  destruct (vuln !! "Layer") as [layer|]; simpl.
  - destruct layer; try done. simpl. eexists. split; [reflexivity|].
    split_and!; reflexivity.
  - eexists. split; [reflexivity|]. split_and!; reflexivity.
Qed.

Lemma misconfiguration_finding_Ok (m : dict) (id severity : json) :
  m !! "ID" = Some id →
  m !! "Severity" = Some severity →
  ∃ f, misconfiguration_finding (JObj m) = Ok f ∧
       f !! "type" = Some (JStr "misconfiguration") ∧
       f !! "id" = Some id ∧
       f !! "title" = Some (default id (m !! "Title")) ∧
       f !! "severity" = Some severity ∧
       f !! "description" = Some (default (JStr "") (m !! "Message")) ∧
       f !! "package" = None.
Proof.
  intros Hid Hsev. unfold misconfiguration_finding. simpl.
  rewrite Hid, Hsev. simpl. eexists. split; [reflexivity|].
  split_and!; reflexivity.
Qed.

Lemma secret_finding_Ok (s : dict) (rule severity : json) :
  s !! "RuleID" = Some rule →
  s !! "Severity" = Some severity →
  ∃ f, secret_finding py_str (JObj s) = Ok f ∧
       f !! "type" = Some (JStr "secret") ∧
       f !! "id" = Some (JStr ("SECRET-" +:+ format py_str rule)) ∧
       f !! "title" =
         Some (default (JStr ("SECRET-" +:+ format py_str rule)) (s !! "Title")) ∧
       f !! "severity" = Some severity ∧
       f !! "description" = Some (default (JStr "") (s !! "Match")) ∧
       f !! "package" = None.
Proof.
  intros Hid Hsev. unfold secret_finding. simpl.
  rewrite Hid, Hsev. simpl. eexists. split; [reflexivity|].
  split_and!; reflexivity.
Qed.

(** A record without [Severity] makes its own conversion raise a
    [KeyError]: for the identifier when that is missing too, for
    [Severity] otherwise. *)
Lemma vulnerability_finding_no_severity (vuln : dict) :
  vuln !! "Severity" = None →
  ∃ k, vulnerability_finding (JObj vuln) = Raise (KeyError k).
Proof.
  intros Hsev. unfold vulnerability_finding. simpl.
  destruct (vuln !! "VulnerabilityID"); simpl; [|by eexists].
  rewrite Hsev. by eexists.
Qed.

Lemma misconfiguration_finding_no_severity (m : dict) :
  m !! "Severity" = None →
  ∃ k, misconfiguration_finding (JObj m) = Raise (KeyError k).
Proof.
  intros Hsev. unfold misconfiguration_finding. simpl.
  destruct (m !! "ID"); simpl; [|by eexists].
  rewrite Hsev. by eexists.
Qed.

Lemma secret_finding_no_severity (s : dict) :
  s !! "Severity" = None →
  ∃ k, secret_finding py_str (JObj s) = Raise (KeyError k).
Proof.
  intros Hsev. unfold secret_finding. simpl.
  destruct (s !! "RuleID"); simpl; [|by eexists].
  rewrite Hsev. by eexists.
Qed.

(** The pass over a corpus that holds one entry of [Results]. *)
Lemma extract_findings_single (result : json) :
  extract_findings py_str (JObj {[ "Results" := JArr [result] ]}) =
  result_findings py_str result.
Proof.
  unfold extract_findings. simpl. rewrite lookup_singleton_eq. simpl.
  destruct (result_findings py_str result); simpl; [|done].
  by rewrite app_nil_r.
Qed.

Lemma result_findings_sections (r : dict) (vulns misconfs secrets : list json) :
  r !! "Vulnerabilities" = Some (JArr vulns) →
  r !! "Misconfigurations" = Some (JArr misconfs) →
  r !! "Secrets" = Some (JArr secrets) →
  result_findings py_str (JObj r) =
    (fv ← collect vulnerability_finding vulns;
     fm ← collect misconfiguration_finding misconfs;
     fs ← collect (secret_finding py_str) secrets;
     Ok (fv ++ fm ++ fs)).
Proof.
  intros Hv Hm Hs. unfold result_findings. simpl. rewrite Hv. simpl.
  destruct (collect vulnerability_finding vulns); simpl; [|done].
  rewrite Hm. simpl.
  destruct (collect misconfiguration_finding misconfs); simpl; [|done].
  by rewrite Hs.
Qed.

Lemma extract_findings_corpus_of (vulns misconfs secrets : list dict) :
  extract_findings py_str (corpus_of vulns misconfs secrets) =
    (fv ← collect vulnerability_finding (JObj <$> vulns);
     fm ← collect misconfiguration_finding (JObj <$> misconfs);
     fs ← collect (secret_finding py_str) (JObj <$> secrets);
     Ok (fv ++ fm ++ fs)).
Proof.
  unfold corpus_of. rewrite extract_findings_single.
  by apply result_findings_sections.
Qed.
End Normalizer.

(** C7. A secret record with rule identifier [r] is normalized into a
    finding whose id is "SECRET-" followed by [r], whose title is the
    record's [Title] or else that same id, and whose description is the
    record's [Match] field (the empty string when there is none). *)
Theorem secret_finding_id (py_str : json → string) (s : dict) (r : string)
    (severity : json) :
  s !! "RuleID" = Some (JStr r) →
  s !! "Severity" = Some severity →
  ∃ f, extract_findings py_str (corpus_of [] [] [s]) = Ok [f] ∧
       f !! "id" = Some (JStr ("SECRET-" +:+ r)) ∧
       f !! "title" = Some (default (JStr ("SECRET-" +:+ r)) (s !! "Title")) ∧
       f !! "description" = Some (default (JStr "") (s !! "Match")).
Proof.
  intros Hrule Hsev.
  destruct (secret_finding_Ok py_str s _ _ Hrule Hsev)
    as (f & Hf & _ & Hid & Htitle & _ & Hdesc & _).
  exists f. rewrite extract_findings_corpus_of. simpl. rewrite Hf. done.
Qed.

Lemma secret_finding_id_witness :
  sample_secret !! "RuleID" = Some (JStr "AWS-001") ∧
  sample_secret !! "Severity" = Some (JStr "CRITICAL") ∧
  ∃ f, extract_findings str_scalar (corpus_of [] [] [sample_secret]) = Ok [f] ∧
       f !! "id" = Some (JStr "SECRET-AWS-001") ∧
       f !! "title" = Some (JStr "SECRET-AWS-001") ∧
       f !! "description" = Some (JStr "AKIA****************").
Proof.
  split; [reflexivity|]. split; [reflexivity|].
  exact (secret_finding_id str_scalar sample_secret "AWS-001" (JStr "CRITICAL")
           eq_refl eq_refl).
Defined.

(** C8. A vulnerability or misconfiguration record without a [Title] is
    normalized into a finding whose title is the record's identifier
    ([VulnerabilityID], respectively [ID]). *)
Theorem title_defaults_to_identifier (py_str : json → string)
    (vuln misconf : dict) (vid mid vsev msev : json) :
  vuln !! "VulnerabilityID" = Some vid →
  vuln !! "Severity" = Some vsev →
  vuln !! "Title" = None →
  vulnerability_shaped (JObj vuln) →
  misconf !! "ID" = Some mid →
  misconf !! "Severity" = Some msev →
  misconf !! "Title" = None →
  ∃ fv fm,
    extract_findings py_str (corpus_of [vuln] [misconf] []) = Ok [fv; fm] ∧
    fv !! "id" = Some vid ∧ fv !! "title" = Some vid ∧
    fm !! "id" = Some mid ∧ fm !! "title" = Some mid.
Proof.
  intros Hvid Hvsev Hvt Hlayer Hmid Hmsev Hmt.
  destruct (vulnerability_finding_Ok vuln _ _ Hvid Hvsev Hlayer)
    as (fv & Hfv & _ & Hv1 & Hv2 & _).
  destruct (misconfiguration_finding_Ok misconf _ _ Hmid Hmsev)
    as (fm & Hfm & _ & Hm1 & Hm2 & _).
  exists fv, fm. rewrite extract_findings_corpus_of. simpl.
  rewrite Hfv, Hfm. simpl. rewrite Hvt in Hv2. rewrite Hmt in Hm2. done.
Qed.

Lemma title_defaults_to_identifier_witness :
  sample_untitled !! "Title" = None ∧
  sample_misconfiguration !! "Title" = None ∧
  ∃ fv fm,
    extract_findings str_scalar
      (corpus_of [sample_untitled] [sample_misconfiguration] []) = Ok [fv; fm] ∧
    fv !! "id" = Some (JStr "CVE-2024-0002") ∧
    fv !! "title" = Some (JStr "CVE-2024-0002") ∧
    fm !! "id" = Some (JStr "DS002") ∧
    fm !! "title" = Some (JStr "DS002").
Proof.
  split; [reflexivity|]. split; [reflexivity|].
  apply (title_defaults_to_identifier str_scalar sample_untitled
           sample_misconfiguration (JStr "CVE-2024-0002") (JStr "DS002")
           (JStr "LOW") (JStr "HIGH")); reflexivity || exact I.
Defined.

(** ** Records without a severity *)

Section Severity.
Context (py_str : json → string).

Lemma collect_only_key_errors {A B} (P : A → Prop) (f : A → res B) (l : list A) :
  (∀ x, P x → only_key_errors (f x)) → Forall P l →
  only_key_errors (collect f l).
Proof.
  intros Hf. induction 1 as [|x l Hx _ IH]; simpl; [done|].
  specialize (Hf x Hx). destruct (f x) as [y|e]; simpl; [|done].
  by destruct (collect f l).
Qed.

Lemma list_of_iter (P : json → Prop) (o : option json) :
  list_of P o → ∃ l, default (JArr []) o = JArr l ∧ Forall P l.
Proof.
  destruct o as [v|]; simpl.
  - destruct v; try done. by eexists.
  - by exists [].
Qed.

Lemma vulnerability_finding_shaped (v : json) :
  vulnerability_shaped v → only_key_errors (vulnerability_finding v).
Proof.
  destruct v as [| | | | | |m]; try done. simpl. intros Hlayer.
  unfold vulnerability_finding. simpl.
  destruct (m !! "VulnerabilityID"); simpl; [|done].
  destruct (m !! "Severity"); simpl; [|done].
  destruct (m !! "Layer") as [layer|]; simpl; [|done].
  by destruct layer.
Qed.

Lemma misconfiguration_finding_shaped (v : json) :
  is_object v → only_key_errors (misconfiguration_finding v).
Proof.
  destruct v as [| | | | | |m]; try done. intros _.
  unfold misconfiguration_finding. simpl.
  destruct (m !! "ID"); simpl; [|done].
  by destruct (m !! "Severity").
Qed.

Lemma secret_finding_shaped (v : json) :
  is_object v → only_key_errors (secret_finding py_str v).
Proof.
  destruct v as [| | | | | |m]; try done. intros _.
  unfold secret_finding. simpl.
  destruct (m !! "RuleID"); simpl; [|done].
  by destruct (m !! "Severity").
Qed.

Lemma result_findings_shaped (result : json) :
  result_shaped result → only_key_errors (result_findings py_str result).
Proof.
  destruct result as [| | | | | |m]; try done. intros (Hv & Hm & Hs).
  apply list_of_iter in Hv as (vulns & Hv & Hvs).
  apply list_of_iter in Hm as (misconfs & Hm & Hms).
  apply list_of_iter in Hs as (secrets & Hs & Hss).
  unfold result_findings. simpl. rewrite Hv, Hm, Hs. simpl.
  pose proof (collect_only_key_errors _ _ _ vulnerability_finding_shaped Hvs) as H1.
  destruct (collect vulnerability_finding vulns); simpl; [|done].
  pose proof (collect_only_key_errors _ _ _ misconfiguration_finding_shaped Hms) as H2.
  destruct (collect misconfiguration_finding misconfs); simpl; [|done].
  pose proof (collect_only_key_errors _ _ _ secret_finding_shaped Hss) as H3.
  by destruct (collect (secret_finding py_str) secrets).
Qed.

Lemma extract_findings_shaped (data : json) :
  corpus_shaped data → only_key_errors (extract_findings py_str data).
Proof.
  destruct data as [| | | | | |m]; try done. intros Hr.
  apply list_of_iter in Hr as (results & Hr & Hrs).
  unfold extract_findings. simpl. rewrite Hr. simpl.
  pose proof (collect_only_key_errors _ _ _ result_findings_shaped Hrs) as H.
  by destruct (collect (result_findings py_str) results).
Qed.

(** One record without [Severity] makes the body of the outer loop raise. *)
Lemma result_findings_no_severity (result : json) (section : string)
    (entries : list json) (r : dict) :
  section ∈ section_names →
  (s ← get result section (JArr []); iter s) = Ok entries →
  JObj r ∈ entries →
  r !! "Severity" = None →
  ∃ e, result_findings py_str result = Raise e.
Proof.
  intros Hsec Hentries Hin Hsev.
  destruct result as [| | | | | |m]; try done. simpl in Hentries.
  unfold result_findings. simpl.
  destruct (vulnerability_finding_no_severity r Hsev) as [kv Hkv].
  destruct (misconfiguration_finding_no_severity r Hsev) as [km Hkm].
  destruct (secret_finding_no_severity py_str r Hsev) as [ks Hks].
  unfold section_names in Hsec.
  apply elem_of_cons in Hsec as [-> | Hsec].
  { rewrite Hentries. simpl.
    destruct (collect_Raise _ _ _ _ Hin Hkv) as [e ->]. by eexists. }
  destruct (iter (default (JArr []) (m !! "Vulnerabilities"))) as [vulns|];
    simpl; [|by eexists].
  destruct (collect vulnerability_finding vulns); simpl; [|by eexists].
  apply elem_of_cons in Hsec as [-> | Hsec].
  { rewrite Hentries. simpl.
    destruct (collect_Raise _ _ _ _ Hin Hkm) as [e ->]. by eexists. }
  destruct (iter (default (JArr []) (m !! "Misconfigurations"))) as [misconfs|];
    simpl; [|by eexists].
  destruct (collect misconfiguration_finding misconfs); simpl; [|by eexists].
  apply list_elem_of_singleton in Hsec as ->.
  rewrite Hentries. simpl.
  destruct (collect_Raise _ _ _ _ Hin Hks) as [e ->]. by eexists.
Qed.

Lemma extract_findings_no_severity (data : json) (r : dict) :
  record_in data (JObj r) →
  r !! "Severity" = None →
  ∃ e, extract_findings py_str data = Raise e.
Proof.
  intros (results & result & section & entries & Hres & Hresult & Hsec & Hentries & Hin) Hsev.
  destruct (result_findings_no_severity _ _ _ _ Hsec Hentries Hin Hsev) as [e He].
  unfold extract_findings. unfold results_seq in Hres.
  destruct (get data "Results" (JArr [])) as [rs|]; simpl in *; [|done].
  rewrite Hres. simpl.
  destruct (collect_Raise _ _ _ _ Hresult He) as [e' ->]. by eexists.
Qed.
End Severity.

(** C10. Extraction ends normally only if every vulnerability,
    misconfiguration and secret record carries [Severity]: a record without
    it makes its conversion raise a [KeyError], the whole pass then returns
    no finding, and on a corpus of the expected shape the exception that
    leaves [extract_findings] is a [KeyError]. *)
Theorem extraction_requires_severity (py_str : json → string) (data : json)
    (r : dict) :
  record_in data (JObj r) →
  r !! "Severity" = None →
  (∃ k, vulnerability_finding (JObj r) = Raise (KeyError k)) ∧
  (∃ k, misconfiguration_finding (JObj r) = Raise (KeyError k)) ∧
  (∃ k, secret_finding py_str (JObj r) = Raise (KeyError k)) ∧
  (∃ e, extract_findings py_str data = Raise e) ∧
  (corpus_shaped data → ∃ k, extract_findings py_str data = Raise (KeyError k)).
Proof.
  intros Hin Hsev. split_and!.
  - by apply vulnerability_finding_no_severity.
  - by apply misconfiguration_finding_no_severity.
  - by apply secret_finding_no_severity.
  - by eapply extract_findings_no_severity.
  - intros Hshape.
    destruct (extract_findings_no_severity py_str data r Hin Hsev) as [e He].
    pose proof (extract_findings_shaped py_str data Hshape) as Hk.
    rewrite He in Hk |- *. destruct e; try done. by eexists.
Qed.

Lemma extraction_requires_severity_witness :
  record_in (corpus_of [sample_vulnerability] [] [sample_no_severity])
            (JObj sample_no_severity) ∧
  sample_no_severity !! "Severity" = None ∧
  corpus_shaped (corpus_of [sample_vulnerability] [] [sample_no_severity]) ∧
  ∃ k, extract_findings str_scalar
         (corpus_of [sample_vulnerability] [] [sample_no_severity])
       = Raise (KeyError k).
Proof.
  assert (record_in (corpus_of [sample_vulnerability] [] [sample_no_severity])
                    (JObj sample_no_severity)) as Hin.
  { eexists _, _, "Secrets", [JObj sample_no_severity].
    split_and!; [reflexivity|apply list_elem_of_singleton; reflexivity| |reflexivity|].
    - unfold section_names. apply elem_of_cons. right. apply elem_of_cons. right.
      by apply list_elem_of_singleton.
    - by apply list_elem_of_singleton. }
  assert (corpus_shaped (corpus_of [sample_vulnerability] [] [sample_no_severity]))
    as Hshape by (vm_compute; repeat constructor).
  split; [exact Hin|]. split; [reflexivity|]. split; [exact Hshape|].
  destruct (extraction_requires_severity str_scalar _ _ Hin eq_refl)
    as (_ & _ & _ & _ & Hk).
  exact (Hk Hshape).
Defined.

(** The sample findings are what extraction returns. *)
Lemma sample_findings_extracted :
  extract_findings str_scalar
    (corpus_of [sample_vulnerability; sample_low] [sample_misconfiguration]
               [sample_secret])
  = Ok [sample_finding; sample_low_finding; sample_misconfiguration_finding;
        sample_secret_finding].
Proof. rewrite extract_findings_corpus_of. reflexivity. Qed.

Lemma sample_controls_in_catalog :
  ("IA-5", IA_5) ∈ NIST_MAPPING ∧ ("SI-2", SI_2) ∈ NIST_MAPPING.
Proof. split; apply list_elem_of_In; simpl; tauto. Qed.

(** ** The assembler *)

Section Assembler.
Context (py_str : json → string).

(** A control is built only from a finding that carries the seven keys
    and a severity the impact table can be asked for. *)
Lemma control_inv (now : string) (f : dict) (c : json) :
  control py_str now f = Ok c →
  ∃ id title desc severity imp package installed fixed,
    f !! "id" = Some id ∧ f !! "title" = Some title ∧
    f !! "description" = Some desc ∧ f !! "severity" = Some severity ∧
    impact severity = Ok imp ∧
    f !! "package" = Some package ∧ f !! "installed" = Some installed ∧
    f !! "fixed" = Some fixed ∧
    c = JObj (list_to_map [
          ("id", id); ("title", title); ("desc", desc); ("impact", imp);
          ("tags", JObj {[ "severity" := severity ]});
          ("results", JArr [JObj (list_to_map [
             ("status", JStr "failed");
             ("code_desc", JStr (format py_str package +:+ " " +:+
                                 format py_str installed +:+ " → " +:+
                                 format py_str fixed));
             ("start_time", JStr (now +:+ "Z"))
           ])])
        ]).
Proof.
  unfold control. simpl.
  destruct (f !! "id") as [id|]; simpl; [|done].
  destruct (f !! "title") as [title|]; simpl; [|done].
  destruct (f !! "description") as [desc|]; simpl; [|done].
  destruct (f !! "severity") as [severity|]; simpl; [|done].
  destruct (impact severity) as [imp|] eqn:Himp; simpl; [|done].
  destruct (f !! "package") as [package|]; simpl; [|done].
  destruct (f !! "installed") as [installed|]; simpl; [|done].
  destruct (f !! "fixed") as [fixed|]; simpl; [|done].
  intros [= <-]. by eexists _, _, _, _, imp, _, _, _.
Qed.

Lemma control_id_Ok (now : string) (f : dict) (c : json) :
  control py_str now f = Ok c → control_id c = f !! "id".
Proof.
  intros Hc. apply control_inv in Hc
    as (id & ? & ? & ? & ? & ? & ? & ? & -> & _ & _ & _ & _ & _ & _ & _ & ->).
  reflexivity.
Qed.

Lemma control_code_desc (now : string) (f : dict) (c : json) :
  control py_str now f = Ok c →
  ∃ package installed fixed,
    f !! "package" = Some package ∧ f !! "installed" = Some installed ∧
    f !! "fixed" = Some fixed ∧
    code_desc c = Some (JStr (format py_str package +:+ " " +:+
                              format py_str installed +:+ " → " +:+
                              format py_str fixed)).
Proof.
  intros Hc. apply control_inv in Hc
    as (? & ? & ? & ? & ? & package & installed & fixed
        & _ & _ & _ & _ & _ & Hp & Hi & Hf & ->).
  exists package, installed, fixed. split_and!; try done.
Qed.

Lemma control_complete (now : string) (f : dict) :
  complete f → ∃ c, control py_str now f = Ok c.
Proof.
  intros [Hkeys Hsev]. unfold control. simpl.
  destruct (Hkeys "id") as [? ->]; [set_solver|].
  destruct (Hkeys "title") as [? ->]; [set_solver|].
  destruct (Hkeys "description") as [? ->]; [set_solver|].
  destruct (Hkeys "package") as [? ->]; [set_solver|].
  destruct (Hkeys "installed") as [? ->]; [set_solver|].
  destruct (Hkeys "fixed") as [? ->]; [set_solver|].
  destruct (f !! "severity") as [sev|] eqn:Hs; simpl.
  - destruct sev; simpl; try done; by eexists.
  - destruct (Hkeys "severity") as [? Hs']; [set_solver|]. congruence.
Qed.

(** A finding without the key [package] stops the assembler, whatever
    the clock reads. *)
Lemma control_no_package (now : string) (f : dict) :
  f !! "package" = None → ∃ e, control py_str now f = Raise e.
Proof.
  intros Hp. unfold control. simpl.
  destruct (f !! "id"); simpl; [|by eexists].
  destruct (f !! "title"); simpl; [|by eexists].
  destruct (f !! "description"); simpl; [|by eexists].
  destruct (f !! "severity"); simpl; [|by eexists].
  destruct (impact _); simpl; [|by eexists].
  rewrite Hp. by eexists.
Qed.

Lemma controls_from_Ok (clock : nat → string) (findings : list dict) :
  ∀ (i : nat) (cs : list json),
  controls_from py_str clock i findings = Ok cs →
  Forall2 (λ f c, ∃ now, control py_str now f = Ok c) findings cs.
Proof.
  induction findings as [|f rest IH]; intros i cs; simpl.
  - intros [= <-]. constructor.
  - destruct (control py_str (clock i) f) as [c|] eqn:Hc; simpl; [|done].
    destruct (controls_from py_str clock (S i) rest) as [cs'|] eqn:Hcs;
      simpl; [|done].
    intros [= <-]. constructor; [by eexists | by eapply IH].
Qed.

Lemma controls_from_complete (clock : nat → string) (findings : list dict) :
  Forall complete findings →
  ∀ i, ∃ cs, controls_from py_str clock i findings = Ok cs.
Proof.
  induction 1 as [|f rest Hf _ IH]; intros i; simpl; [by eexists|].
  destruct (control_complete (clock i) f Hf) as [c ->]. simpl.
  destruct (IH (S i)) as [cs ->]. by eexists.
Qed.

Lemma controls_from_Raise (clock : nat → string) (findings : list dict) (f : dict) :
  f ∈ findings → (∀ now, ∃ e, control py_str now f = Raise e) →
  ∀ i, ∃ e, controls_from py_str clock i findings = Raise e.
Proof.
  intros Hin Hf. induction findings as [|f' rest IH]; intros i;
    [by apply elem_of_nil in Hin|].
  apply elem_of_cons in Hin as [<- | Hin]; simpl.
  - destruct (Hf (clock i)) as [e ->]. by eexists.
  - destruct (control py_str (clock i) f'); simpl; [|by eexists].
    destruct (IH Hin (S i)) as [e ->]. by eexists.
Qed.

(** When the append succeeds, the controls of the first profile are the
    ones it held followed by the new ones. *)
Lemma append_controls_Ok (hdf hdf' : json) (controls : list json) :
  append_controls hdf controls = Ok hdf' →
  output_controls hdf' = output_controls hdf ++ controls.
Proof.
  unfold append_controls.
  destruct hdf as [| | | | | |h]; try done. simpl.
  destruct (h !! "profiles") as [profiles|] eqn:Hp; simpl; [|done].
  destruct profiles as [| | | |s|l|m]; try done; simpl.
  - destruct (code_points s) as [|c ?]; simpl; [done|].
    by destruct (negb (is_infix "controls" c)).
  - destruct l as [|profile others]; simpl; [done|].
    destruct profile as [| | | |s|l|p]; try done; simpl.
    + by destruct (negb (is_infix "controls" s)).
    + by destruct (negb (existsb _ l)).
    + destruct (p !! "controls") as [existing|] eqn:Hc; simpl.
      * destruct existing as [| | | | |old|]; try done. simpl.
        intros [= <-]. unfold output_controls.
        by rewrite !lookup_insert_eq.
      * intros [= <-]. unfold output_controls.
        by rewrite !lookup_insert_eq.
Qed.

Lemma export_Ok (template : res json) (clock : nat → string)
    (image_name : string) (findings : list dict) (directory timestamp : string)
    (e : exported) :
  export_mitre_saf_hdf py_str template clock image_name findings directory timestamp
    = Ok e →
  ∃ hdf cs,
    starting_hdf template = Ok hdf ∧
    controls_from py_str clock 0 findings = Ok cs ∧
    output_controls (document e) = output_controls hdf ++ cs.
Proof.
  unfold export_mitre_saf_hdf. fold (starting_hdf template).
  destruct (starting_hdf template) as [hdf|]; simpl; [|done].
  destruct (controls_from py_str clock 0 findings) as [cs|]; simpl; [|done].
  destruct (append_controls hdf cs) as [hdf'|] eqn:Ha; simpl; [|done].
  intros [= <-]. simpl. exists hdf, cs. split_and!; try done.
  by apply append_controls_Ok.
Qed.

(** With the fallback profile and complete findings the assembler ends
    normally. *)
Lemma export_fallback_complete (clock : nat → string) (image_name : string)
    (findings : list dict) (directory timestamp : string) :
  Forall complete findings →
  ∃ e, export_mitre_saf_hdf py_str (Raise FileNotFoundError) clock image_name
         findings directory timestamp = Ok e.
Proof.
  intros Hall. unfold export_mitre_saf_hdf. simpl.
  destruct (controls_from_complete clock findings Hall 0) as [cs ->]. simpl.
  by eexists.
Qed.

Lemma export_Raise (template : res json) (clock : nat → string)
    (image_name : string) (findings : list dict) (directory timestamp : string)
    (f : dict) :
  f ∈ findings → f !! "package" = None →
  ∃ e, export_mitre_saf_hdf py_str template clock image_name findings
         directory timestamp = Raise e.
Proof.
  intros Hin Hp. unfold export_mitre_saf_hdf.
  destruct (match template with Raise FileNotFoundError => _ | _ => _ end);
    simpl; [|by eexists].
  destruct (controls_from_Raise clock findings f Hin
              (λ now, control_no_package now f Hp) 0) as [e ->].
  by eexists.
Qed.

(** What the assembler does on findings that carry all the keys: one
    control per finding, in the order of the findings, each with the id of
    its finding, after the controls the profile already held. *)
Lemma export_one_control_per_finding (template : res json) (clock : nat → string)
    (image_name : string) (findings : list dict) (directory timestamp : string)
    (e : exported) :
  export_mitre_saf_hdf py_str template clock image_name findings directory timestamp
    = Ok e →
  ∃ hdf cs,
    starting_hdf template = Ok hdf ∧
    output_controls (document e) = output_controls hdf ++ cs ∧
    length cs = length findings ∧
    Forall2 (λ f c, control_id c = f !! "id") findings cs.
Proof.
  intros He. destruct (export_Ok _ _ _ _ _ _ _ He) as (hdf & cs & Hs & Hcs & Hout).
  exists hdf, cs. apply controls_from_Ok in Hcs.
  split_and!; try done.
  - symmetry. by eapply Forall2_length.
  - eapply Forall2_impl; [done|]. intros f c [now Hc]. by eapply control_id_Ok.
Qed.
End Assembler.

Section Evidence.
Context (py_str : json → string).

(** A control id is in the output when the starting profile held it or a
    finding bears it, and only then. *)
Lemma export_appears (template : res json) (clock : nat → string)
    (image_name : string) (findings : list dict) (directory timestamp : string)
    (e : exported) (k : string) :
  export_mitre_saf_hdf py_str template clock image_name findings directory timestamp
    = Ok e →
  appears k (document e) ↔
    (∃ hdf, starting_hdf template = Ok hdf ∧ appears k hdf) ∨
    (∃ f, f ∈ findings ∧ f !! "id" = Some (JStr k)).
Proof.
  intros He.
  destruct (export_Ok _ _ _ _ _ _ _ _ He) as (hdf & cs & Hs & Hcs & Hout).
  apply controls_from_Ok in Hcs. unfold appears. rewrite Hout. split.
  - intros (c & Hin & Hid). apply elem_of_app in Hin as [Hin | Hin].
    + left. exists hdf. split; [done|]. by exists c.
    + right. apply list_elem_of_lookup in Hin as [j Hj].
      destruct (Forall2_lookup_r _ _ _ _ _ Hcs Hj) as (f & Hf & now & Hnow).
      exists f. split; [apply list_elem_of_lookup; by exists j|].
      by rewrite <- (control_id_Ok _ _ _ _ Hnow).
  - intros [(hdf0 & Hs0 & c & Hin & Hid) | (f & Hin & Hid)].
    + assert (hdf0 = hdf) as -> by congruence.
      exists c. split; [|done]. apply elem_of_app. by left.
    + apply list_elem_of_lookup in Hin as [j Hj].
      destruct (Forall2_lookup_l _ _ _ _ _ Hcs Hj) as (c & Hc & now & Hnow).
      exists c. split.
      * apply elem_of_app. right. apply list_elem_of_lookup. by exists j.
      * by rewrite (control_id_Ok _ _ _ _ Hnow).
Qed.
End Evidence.

Lemma sample_findings_complete :
  Forall complete [sample_finding; sample_low_finding].
Proof.
  repeat apply Forall_cons_2; [| |apply Forall_nil_2];
    (split; [|exact I]); intros k Hk;
    repeat (apply elem_of_cons in Hk as [-> | Hk]; [by eexists|]);
    by apply elem_of_nil in Hk.
Qed.

(** C1, at an input where the code departs from it. The critical finding
    whose title holds "password" is what extraction returns for the sample
    record. It passes the severity and keyword tests of the catalog
    controls IA-5 and SI-2. The assembler writes one control, named by the
    finding's own id: the finding is listed under no control of the
    catalog, whose thresholds and keywords no operation reads. *)
Theorem matching_finding_is_not_mapped (py_str : json → string)
    (clock : nat → string) :
  extract_findings py_str (corpus_of [sample_vulnerability] [] [])
    = Ok [sample_finding] ∧
  ("IA-5", IA_5) ∈ NIST_MAPPING ∧ spec_matches sample_finding IA_5 = true ∧
  ("SI-2", SI_2) ∈ NIST_MAPPING ∧ spec_matches sample_finding SI_2 = true ∧
  ∃ e, export_mitre_saf_hdf py_str (Raise FileNotFoundError) clock
         "registry/app:1.0" [sample_finding] "/scan/MITRE" "20251201_100000" = Ok e ∧
       control_id <$> output_controls (document e) = [Some (JStr "CVE-2024-0001")] ∧
       ∀ cid c, (cid, c) ∈ NIST_MAPPING → ¬ appears cid (document e).
Proof.
  split; [rewrite extract_findings_corpus_of; reflexivity|].
  split; [apply sample_controls_in_catalog|]. split; [reflexivity|].
  split; [apply sample_controls_in_catalog|]. split; [reflexivity|].
  eexists. split; [reflexivity|].
  match goal with
  | |- ?ids = _ ∧ _ =>
      assert (ids = [Some (JStr "CVE-2024-0001")]) as Hlist by reflexivity
  end.
  split; [exact Hlist|].
  intros cid c Hcat (ctl & Hin & Hid).
  assert (Some (JStr cid) ∈ [Some (JStr "CVE-2024-0001")]) as Hids.
  { rewrite <- Hlist, <- Hid. apply list_elem_of_fmap. exists ctl. by split. }
  apply list_elem_of_singleton in Hids. injection Hids as ->.
  apply list_elem_of_In in Hcat. simpl in Hcat.
  repeat (destruct Hcat as [Heq | Hcat]; [discriminate Heq|]). exact Hcat.
Qed.

(** C2, as amended. A control of the catalog with zero matching findings,
    whose id no finding bears as its own, is in the output control sequence
    exactly when the profile the assembler started from already held a
    control with its id: the assembler appends to the controls of the
    template and removes none. Started from the fallback profile, such a
    control is not in the output. *)
Theorem unmatched_control_only_from_template (py_str : json → string)
    (template : res json) (clock : nat → string) (image_name : string)
    (findings : list dict) (directory timestamp : string) (e : exported)
    (hdf : json) (cid : string) (c : control_definition) :
  (cid, c) ∈ NIST_MAPPING →
  (∀ f, f ∈ findings → spec_matches f c = false) →
  (∀ f, f ∈ findings → f !! "id" ≠ Some (JStr cid)) →
  export_mitre_saf_hdf py_str template clock image_name findings directory timestamp
    = Ok e →
  starting_hdf template = Ok hdf →
  (appears cid (document e) ↔ appears cid hdf) ∧
  (template = Raise FileNotFoundError → ¬ appears cid (document e)).
Proof.
  intros _ _ Hids He Hs.
  pose proof (export_appears py_str _ _ _ _ _ _ e cid He) as Hiff.
  assert (appears cid (document e) ↔ appears cid hdf) as Hsame.
  { rewrite Hiff. split.
    - intros [(hdf' & Hs' & Happ) | (f & Hin & Hid)].
      + assert (hdf' = hdf) as -> by congruence. exact Happ.
      + by destruct (Hids f Hin).
    - intros Happ. left. by exists hdf. }
  split; [exact Hsame|].
  intros -> Happ. apply Hsame in Happ. injection Hs as <-.
  destruct Happ as (ctl & Hin & _). by apply elem_of_nil in Hin.
Qed.

Lemma unmatched_control_only_from_template_witness :
  ∃ e, export_mitre_saf_hdf str_scalar (Ok sample_template) sample_clock
         "registry/app:1.0" [sample_untitled_finding] "/scan/MITRE"
         "20251201_100000" = Ok e ∧
       (appears "SI-2" (document e) ↔ appears "SI-2" sample_template).
Proof.
  eexists. split; [reflexivity|].
  apply (unmatched_control_only_from_template str_scalar (Ok sample_template)
           sample_clock "registry/app:1.0" [sample_untitled_finding] "/scan/MITRE"
           "20251201_100000" _ sample_template "SI-2" SI_2).
  - apply sample_controls_in_catalog.
  - intros f Hin. apply list_elem_of_singleton in Hin as ->. reflexivity.
  - intros f Hin. apply list_elem_of_singleton in Hin as ->. discriminate.
  - reflexivity.
  - reflexivity.
Defined.

(** C2 as stated fails. The only finding of the run, a LOW vulnerability,
    does not pass the CRITICAL threshold of SI-2, and a control with the id
    SI-2 is in the output: the loaded template held one, and the assembler
    keeps the controls of the template. *)
Lemma template_control_counterexample :
  extract_findings str_scalar (corpus_of [sample_untitled] [] [])
    = Ok [sample_untitled_finding] ∧
  ("SI-2", SI_2) ∈ NIST_MAPPING ∧
  (∀ f, f ∈ [sample_untitled_finding] → spec_matches f SI_2 = false) ∧
  ∃ e, export_mitre_saf_hdf str_scalar (Ok sample_template) sample_clock
         "registry/app:1.0" [sample_untitled_finding] "/scan/MITRE"
         "20251201_100000" = Ok e ∧
       appears "SI-2" (document e).
Proof.
  split; [rewrite extract_findings_corpus_of; reflexivity|].
  split; [apply sample_controls_in_catalog|]. split.
  - intros f Hin. apply list_elem_of_singleton in Hin as ->. reflexivity.
  - eexists. split; [reflexivity|].
    apply (export_appears str_scalar (Ok sample_template) sample_clock
             "registry/app:1.0" [sample_untitled_finding] "/scan/MITRE"
             "20251201_100000" _ "SI-2" eq_refl).
    left. exists sample_template. split; [reflexivity|].
    exists (JObj {[ "id" := JStr "SI-2" ]}).
    split; [apply list_elem_of_singleton|]; reflexivity.
Qed.

(** C3, at the input where the code departs from it. The finding made of a
    misconfiguration record has no [package] key, so the assembler does not
    render its description: it raises [KeyError] and writes nothing. *)
Theorem code_desc_of_misconfiguration_raises (py_str : json → string)
    (clock : nat → string) :
  misconfiguration_finding (JObj sample_misconfiguration)
    = Ok sample_misconfiguration_finding ∧
  control py_str (clock 0) sample_misconfiguration_finding
    = Raise (KeyError "package") ∧
  export_mitre_saf_hdf py_str (Raise FileNotFoundError) clock "registry/app:1.0"
    [sample_misconfiguration_finding] "/scan/MITRE" "20251201_100000"
    = Raise (KeyError "package").
Proof. split_and!; reflexivity. Qed.

(** C4, at the input where the code departs from it. Of the two findings
    extraction returns for one vulnerability and one secret, the second has
    no [package] key: the assembler raises [KeyError] and appends no
    control, where the claim has it append two. *)
Theorem one_control_per_finding_fails_on_secret (py_str : json → string)
    (clock : nat → string) :
  extract_findings py_str (corpus_of [sample_vulnerability] [] [sample_secret])
    = Ok [sample_finding; sample_secret_finding] ∧
  (∃ c, control py_str (clock 0) sample_finding = Ok c ∧
        control_id c = Some (JStr "CVE-2024-0001")) ∧
  export_mitre_saf_hdf py_str (Raise FileNotFoundError) clock "registry/app:1.0"
    [sample_finding; sample_secret_finding] "/scan/MITRE" "20251201_100000"
    = Raise (KeyError "package").
Proof.
  split_and!.
  - rewrite extract_findings_corpus_of. reflexivity.
  - eexists. split; reflexivity.
  - reflexivity.
Qed.

(** ** More on the loader *)

Lemma merge_loop_app (fs : file_system) (l1 l2 : list string) :
  ∀ (merged : dict) (out : list string),
  merge_loop fs (l1 ++ l2) merged out =
  match merge_loop fs l1 merged out with
  | (out1, Ok merged1) => merge_loop fs l2 merged1 out1
  | stopped => stopped
  end.
Proof.
  induction l1 as [|f l1 IH]; intros merged out; [done|].
  simpl. destruct (fs f ≫= merge_data merged) as [merged1|e]; [apply IH|].
  destruct e; try done; apply IH.
Qed.

Lemma merge_loop_Ok_usable (fs : file_system) (file_list : list string) :
  ∀ (merged merged' : dict) (acc : list json) (out out' : list string),
  merged !! "Results" = Some (JArr acc) →
  merge_loop fs file_list merged out = (out', Ok merged') →
  Forall (usable fs) file_list.
Proof.
  induction file_list as [|f rest IH]; intros merged merged' acc out out' Hacc;
    [constructor|].
  simpl. unfold usable at 1. destruct (fs f) as [data|e] eqn:Hfs; simpl.
  - pose proof (merge_data_inv merged data acc Hacc) as Hinv.
    destruct (merge_data merged data) as [merged1|e1].
    + destruct Hinv as (d & xs & -> & Hxs & ->). intros Hloop.
      apply Forall_cons_2.
      * unfold usable. rewrite Hfs. by exists xs.
      * eapply (IH _ _ (acc ++ xs)); [apply merged_results|done].
    + destruct Hinv as [_ [-> | ->]]; done.
  - intros Hloop. destruct e; try done;
      (apply Forall_cons_2;
       [unfold usable; rewrite Hfs; auto | by eapply (IH _ _ acc)]).
Qed.

(** X1. The loader ends normally exactly when every file of the list is
    either skipped (missing, not JSON) or holds an object whose [Results],
    when present, can be iterated. *)
Theorem merge_jsons_ends_normally_iff (fs : file_system) (file_list : list string) :
  (∃ merged, (merge_jsons fs file_list).2 = Ok merged) ↔
  Forall (usable fs) file_list.
Proof.
  split.
  - intros [merged Hm]. unfold merge_jsons in Hm.
    destruct (merge_loop fs file_list {["Results" := JArr []]} []) as [out r] eqn:Hloop.
    simpl in Hm. subst r.
    by eapply merge_loop_Ok_usable; [apply initial_results|].
  - intros Hall.
    destruct (merge_loop_usable fs file_list _ [] [] initial_results Hall)
      as (merged & Hloop & _).
    exists merged. unfold merge_jsons. by rewrite Hloop.
Qed.

(** X2. The first file whose loading raises anything but the two skipped
    exceptions, or whose document is not an object or has a [Results] that
    cannot be iterated, ends the loader with that exception: the files
    after it are not read, and the warnings printed are those of the files
    before it. *)
Theorem merge_jsons_first_failure (fs : file_system) (before after : list string)
    (f : string) (e : exn) :
  Forall (usable fs) before →
  (data ← fs f; results_seq data) = Raise e →
  e ≠ FileNotFoundError →
  e ≠ JSONDecodeError →
  merge_jsons fs (before ++ f :: after) =
    (warning <$> filter (λ f, skipped fs f) before, Raise e).
Proof.
  intros Hbefore Hf Hn1 Hn2. unfold merge_jsons.
  destruct (merge_loop_usable fs before _ [] [] initial_results Hbefore)
    as (merged & Hloop & Hres & _).
  rewrite merge_loop_app, Hloop. simpl in *.
  apply merge_loop_Raise; try done.
  destruct (fs f) as [data|e0]; [|by injection Hf as ->].
  change (results_seq data = Raise e) in Hf.
  change (merge_data merged data = Raise e).
  pose proof (merge_data_inv merged data _ Hres) as Hinv.
  destruct (merge_data merged data) as [m1|e1].
  - destruct Hinv as (d & xs & _ & Hxs & _). congruence.
  - destruct Hinv as [He1 _]. congruence.
Qed.

Lemma merge_jsons_first_failure_witness :
  Forall (usable sample_fs_bad) ["misconfig_1.json"; "vuln_1.json"] ∧
  merge_jsons sample_fs_bad
    (["misconfig_1.json"; "vuln_1.json"] ++ "bad.json" :: ["secret_1.json"])
  = (warning <$> filter (λ f, skipped sample_fs_bad f)
                        ["misconfig_1.json"; "vuln_1.json"],
     Raise AttributeError).
Proof.
  assert (Forall (usable sample_fs_bad) ["misconfig_1.json"; "vuln_1.json"]) as Hall.
  { repeat apply Forall_cons_2; [| |apply Forall_nil_2].
    - right. reflexivity.
    - exists (results_of sample_vuln_document). reflexivity. }
  split; [exact Hall|].
  by apply (merge_jsons_first_failure sample_fs_bad
              ["misconfig_1.json"; "vuln_1.json"] ["secret_1.json"] "bad.json"
              AttributeError Hall).
Defined.

Lemma last_written_Some (key : string) (docs : list json) (init : option json)
    (v : json) :
  last_written key docs init = Some v →
  init = Some v ∨ ∃ d, JObj d ∈ docs ∧ d !! key = Some v.
Proof.
  revert init. induction docs as [|data docs IH]; intros init; simpl; [auto|].
  intros Hv. apply IH in Hv as [Hv | (d & Hin & Hd)].
  - destruct data as [| | | | | |d]; auto.
    destruct (d !! key) as [w|] eqn:Hw; auto.
    right. exists d. split; [apply elem_of_cons; by left|congruence].
  - right. exists d. split; [apply elem_of_cons; by right|done].
Qed.

Lemma last_written_is_Some (key : string) (docs : list json) (init : option json)
    (d : dict) :
  JObj d ∈ docs → is_Some (d !! key) → is_Some (last_written key docs init).
Proof.
  revert init. induction docs as [|data docs IH]; intros init Hin Hd;
    [by apply elem_of_nil in Hin|].
  apply elem_of_cons in Hin as [<- | Hin]; simpl.
  - destruct Hd as [v ->]. clear. revert v.
    induction docs as [|data docs IH]; intros v; simpl; [by eexists|].
    destruct data as [| | | | | |d']; try apply IH.
    destruct (d' !! key); apply IH.
  - by apply IH.
Qed.

(** X3. In the corpus of a load that ends normally, [Results] is a list,
    and every other key comes from a loaded document: its value is the
    value some loaded document has for it, and every key of a loaded
    document is present. *)
Theorem merge_jsons_keys (fs : file_system) (file_list : list string)
    (merged : dict) :
  (merge_jsons fs file_list).2 = Ok merged →
  (∃ results, merged !! "Results" = Some (JArr results)) ∧
  (∀ key v, key ≠ "Results" → merged !! key = Some v →
     ∃ d, JObj d ∈ loaded fs file_list ∧ d !! key = Some v) ∧
  (∀ key d, key ≠ "Results" → JObj d ∈ loaded fs file_list →
     is_Some (d !! key) → is_Some (merged !! key)).
Proof.
  intros Hm.
  assert (Forall (usable fs) file_list) as Hall
    by (apply merge_jsons_ends_normally_iff; by exists merged).
  destruct (merge_loop_usable fs file_list _ [] [] initial_results Hall)
    as (merged' & Hloop & Hres & Hkeys).
  unfold merge_jsons in Hm. rewrite Hloop in Hm. simpl in Hm.
  injection Hm as ->. split_and!.
  - by eexists.
  - intros key v Hkey Hv. rewrite (Hkeys key Hkey) in Hv.
    apply last_written_Some in Hv as [Hv | Hv]; [|done].
    by rewrite lookup_singleton_ne in Hv.
  - intros key d Hkey Hin Hd. rewrite (Hkeys key Hkey).
    by eapply last_written_is_Some.
Qed.

Lemma merge_jsons_keys_witness :
  ∃ merged,
    (merge_jsons sample_fs sample_files).2 = Ok merged ∧
    (∃ results, merged !! "Results" = Some (JArr results)) ∧
    is_Some (merged !! "SchemaVersion").
Proof.
  assert (Forall (usable sample_fs) sample_files) as Hall.
  { repeat apply Forall_cons_2; [| | | |apply Forall_nil_2].
    - exists (results_of sample_vuln_document). reflexivity.
    - exists (results_of sample_secret_document). reflexivity.
    - right. reflexivity.
    - left. reflexivity. }
  destruct (proj2 (merge_jsons_ends_normally_iff sample_fs sample_files) Hall)
    as [merged Hm].
  exists merged. split; [exact Hm|].
  destruct (merge_jsons_keys sample_fs sample_files merged Hm) as (Hr & _ & Hk).
  split; [exact Hr|].
  apply (Hk "SchemaVersion" (list_to_map [
    ("ArtifactName", JStr "registry/app:1.0");
    ("SchemaVersion", JInt 2);
    ("Results", JArr [JObj {[ "Vulnerabilities" := JArr [JObj sample_vulnerability; JObj sample_untitled] ]}])
  ])).
  - discriminate.
  - apply elem_of_cons. left. reflexivity.
  - eexists. reflexivity.
Defined.

(** ** More on the normalizer *)

Section Acceptance.
Context (py_str : json → string).

(** What a conversion that ends normally says of its record. *)
Lemma vulnerability_finding_inv (v : json) (f : dict) :
  vulnerability_finding v = Ok f →
  ∃ m id severity,
    v = JObj m ∧ vulnerability_shaped v ∧
    m !! "VulnerabilityID" = Some id ∧ m !! "Severity" = Some severity ∧
    f !! "type" = Some (JStr "vulnerability") ∧ f !! "id" = Some id ∧
    f !! "severity" = Some severity ∧
    (∀ k, k ∈ ["id"; "title"; "description"; "severity"; "package";
                "installed"; "fixed"] → is_Some (f !! k)).
Proof.
  destruct v as [| | | | | |m]; try done.
  unfold vulnerability_finding. simpl.
  destruct (m !! "VulnerabilityID") as [id|] eqn:Hid; simpl; [|done].
  destruct (m !! "Severity") as [severity|] eqn:Hsev; simpl; [|done].
  destruct (m !! "Layer") as [layer|] eqn:Hlayer; simpl.
  - destruct layer; try done. simpl. intros [= <-].
    exists m, id, severity. split_and!; try done.
    intros k Hk.
    repeat (apply elem_of_cons in Hk as [-> | Hk]; [by eexists|]).
    by apply elem_of_nil in Hk.
  - intros [= <-]. exists m, id, severity. split_and!; try done.
    intros k Hk.
    repeat (apply elem_of_cons in Hk as [-> | Hk]; [by eexists|]).
    by apply elem_of_nil in Hk.
Qed.

Lemma misconfiguration_finding_inv (v : json) (f : dict) :
  misconfiguration_finding v = Ok f →
  ∃ m id severity,
    v = JObj m ∧ m !! "ID" = Some id ∧ m !! "Severity" = Some severity ∧
    f !! "type" = Some (JStr "misconfiguration") ∧ f !! "id" = Some id ∧
    f !! "package" = None.
Proof.
  destruct v as [| | | | | |m]; try done.
  unfold misconfiguration_finding. simpl.
  destruct (m !! "ID") as [id|] eqn:Hid; simpl; [|done].
  destruct (m !! "Severity") as [severity|] eqn:Hsev; simpl; [|done].
  intros [= <-]. by exists m, id, severity.
Qed.

Lemma secret_finding_inv (v : json) (f : dict) :
  secret_finding py_str v = Ok f →
  ∃ m rule severity,
    v = JObj m ∧ m !! "RuleID" = Some rule ∧ m !! "Severity" = Some severity ∧
    f !! "type" = Some (JStr "secret") ∧
    f !! "id" = Some (JStr ("SECRET-" +:+ format py_str rule)) ∧
    f !! "package" = None.
Proof.
  destruct v as [| | | | | |m]; try done.
  unfold secret_finding. simpl.
  destruct (m !! "RuleID") as [rule|] eqn:Hid; simpl; [|done].
  destruct (m !! "Severity") as [severity|] eqn:Hsev; simpl; [|done].
  intros [= <-]. by exists m, rule, severity.
Qed.

(** A conversion ends normally exactly on the records that are ready. *)
Lemma vulnerability_finding_Ok_iff (v : json) :
  (∃ f, vulnerability_finding v = Ok f) ↔ vulnerability_ready v.
Proof.
  split.
  - intros [f Hf].
    apply vulnerability_finding_inv in Hf
      as (m & id & sev & -> & Hshape & Hid & Hsev & _).
    split; [done|]. simpl. rewrite Hid, Hsev. by split; eexists.
  - intros [Hshape Hready]. destruct v as [| | | | | |m]; try done.
    destruct Hready as [[id Hid] [sev Hsev]].
    destruct (vulnerability_finding_Ok m id sev Hid Hsev Hshape) as (f & Hf & _).
    by exists f.
Qed.

Lemma misconfiguration_finding_Ok_iff (v : json) :
  (∃ f, misconfiguration_finding v = Ok f) ↔ ready "ID" v.
Proof.
  split.
  - intros [f Hf].
    apply misconfiguration_finding_inv in Hf as (m & id & sev & -> & Hid & Hsev & _).
    simpl. rewrite Hid, Hsev. by split; eexists.
  - destruct v as [| | | | | |m]; try done. intros [[id Hid] [sev Hsev]].
    destruct (misconfiguration_finding_Ok m id sev Hid Hsev) as (f & Hf & _).
    by exists f.
Qed.

Lemma secret_finding_Ok_iff (v : json) :
  (∃ f, secret_finding py_str v = Ok f) ↔ ready "RuleID" v.
Proof.
  split.
  - intros [f Hf].
    apply secret_finding_inv in Hf as (m & id & sev & -> & Hid & Hsev & _).
    simpl. rewrite Hid, Hsev. by split; eexists.
  - destruct v as [| | | | | |m]; try done. intros [[id Hid] [sev Hsev]].
    destruct (secret_finding_Ok py_str m id sev Hid Hsev) as (f & Hf & _).
    by exists f.
Qed.

Lemma collect_Ok_iff {A B} (P : A → Prop) (f : A → res B) (l : list A) :
  (∀ x, (∃ y, f x = Ok y) ↔ P x) →
  (∃ ys, collect f l = Ok ys) ↔ Forall P l.
Proof.
  intros Hf. induction l as [|x l IH]; simpl.
  - split; [constructor | by eexists].
  - rewrite Forall_cons, <- IH, <- Hf. split.
    + intros [ys Hys]. destruct (f x) as [y|]; simpl in Hys; [|done].
      destruct (collect f l) as [ys'|]; simpl in Hys; [|done].
      split; by eexists.
    + intros [[y ->] [ys ->]]. by eexists.
Qed.

Lemma section_Ok_iff {B} (P : json → Prop) (conv : json → res B)
    (result : json) (section : string) :
  (∀ x, (∃ y, conv x = Ok y) ↔ P x) →
  (∃ ys, (l ← section_seq result section; collect conv l) = Ok ys) ↔
  entries_ok P result section.
Proof.
  intros Hconv. unfold entries_ok.
  destruct (section_seq result section) as [l|]; simpl.
  - rewrite (collect_Ok_iff P conv l Hconv). split.
    + intros Hall. by exists l.
    + by intros (l' & [= <-] & Hall).
  - split; [by intros [? ?] | by intros (? & ? & _)].
Qed.

(** The body of the outer loop, with its sections read through
    [section_seq]. *)
Lemma result_findings_unfold (result : json) :
  result_findings py_str result =
    (fv ← (l ← section_seq result "Vulnerabilities"; collect vulnerability_finding l);
     fm ← (l ← section_seq result "Misconfigurations"; collect misconfiguration_finding l);
     fs ← (l ← section_seq result "Secrets"; collect (secret_finding py_str) l);
     Ok (fv ++ fm ++ fs)).
Proof.
  unfold result_findings, section_seq.
  destruct (get result "Vulnerabilities" (JArr [])) as [v|]; simpl; [|done].
  destruct (iter v) as [lv|]; simpl; [|done].
  destruct (collect vulnerability_finding lv); simpl; [|done].
  destruct (get result "Misconfigurations" (JArr [])) as [m|]; simpl; [|done].
  destruct (iter m) as [lm|]; simpl; [|done].
  destruct (collect misconfiguration_finding lm); simpl; [|done].
  destruct (get result "Secrets" (JArr [])) as [s|]; simpl; [|done].
  by destruct (iter s).
Qed.

Lemma result_findings_Ok_iff (result : json) :
  (∃ fs, result_findings py_str result = Ok fs) ↔ result_accepted result.
Proof.
  rewrite result_findings_unfold. unfold result_accepted.
  rewrite <- (section_Ok_iff _ _ result "Vulnerabilities" vulnerability_finding_Ok_iff).
  rewrite <- (section_Ok_iff _ _ result "Misconfigurations" misconfiguration_finding_Ok_iff).
  rewrite <- (section_Ok_iff _ _ result "Secrets" secret_finding_Ok_iff).
  destruct (section_seq result "Vulnerabilities" ≫= _) as [fv|]; simpl;
    [|split; [by intros [? ?] | by intros ([? ?] & _)]].
  destruct (section_seq result "Misconfigurations" ≫= _) as [fm|]; simpl;
    [|split; [by intros [? ?] | by intros (_ & [? ?] & _)]].
  destruct (section_seq result "Secrets" ≫= _) as [fs|]; simpl;
    [|split; [by intros [? ?] | by intros (_ & _ & [? ?])]].
  split; [intros _; split_and!; by eexists | intros _; by eexists].
Qed.

Lemma extract_findings_unfold (data : json) :
  extract_findings py_str data =
    (results ← results_seq data;
     per_result ← collect (result_findings py_str) results;
     Ok (concat per_result)).
Proof.
  unfold extract_findings, results_seq.
  by destruct (get data "Results" (JArr [])).
Qed.
End Acceptance.

(** X4. Extraction ends normally exactly on the corpora it accepts: the
    corpus is an object whose [Results] can be iterated, every entry of it
    is an object whose three sections can be iterated, and every record is
    an object with its identifier and [Severity] (and, for a
    vulnerability, a [Layer] that is absent or an object). *)
Theorem extract_findings_Ok_iff (py_str : json → string) (data : json) :
  (∃ findings, extract_findings py_str data = Ok findings) ↔ corpus_accepted data.
Proof.
  rewrite extract_findings_unfold. unfold corpus_accepted.
  destruct (results_seq data) as [results|]; simpl.
  - pose proof (collect_Ok_iff result_accepted (result_findings py_str) results
                  (result_findings_Ok_iff py_str)) as Hiff.
    split.
    + intros [fs Hfs]. exists results. split; [done|]. apply Hiff.
      destruct (collect (result_findings py_str) results); [by eexists|done].
    + intros (results' & [= <-] & Hall). apply Hiff in Hall as [per ->].
      by eexists.
  - split; [by intros [? ?] | by intros (? & ? & _)].
Qed.

Lemma elem_of_concat {A} (x : A) (ls : list (list A)) :
  x ∈ concat ls ↔ ∃ l, l ∈ ls ∧ x ∈ l.
Proof.
  induction ls as [|l ls IH]; simpl.
  - split; [by intros ?%elem_of_nil | by intros (? & ?%elem_of_nil & _)].
  - rewrite elem_of_app, IH. split.
    + intros [Hx | (l' & Hl' & Hx)].
      * exists l. split; [apply elem_of_cons; by left|done].
      * exists l'. split; [apply elem_of_cons; by right|done].
    + intros (l' & Hl' & Hx). apply elem_of_cons in Hl' as [-> | Hl']; [by left|].
      right. by exists l'.
Qed.

Lemma collect_elem {A B} (f : A → res B) (l : list A) (ys : list B) (x : A) :
  collect f l = Ok ys → x ∈ l → ∃ y, y ∈ ys ∧ f x = Ok y.
Proof.
  intros Hys Hx. apply collect_Ok in Hys.
  apply list_elem_of_lookup in Hx as [i Hi].
  destruct (Forall2_lookup_l _ _ _ _ _ Hys Hi) as (y & Hy & Hfx).
  exists y. split; [apply list_elem_of_lookup; by exists i | done].
Qed.

Lemma collect_length {A B} (f : A → res B) (l : list A) (ys : list B) :
  collect f l = Ok ys → length ys = length l.
Proof. intros Hys. apply collect_Ok in Hys. symmetry. by eapply Forall2_length. Qed.

Lemma collect_concat {A B} (f : A → res B) (ls : list (list A)) :
  collect f (concat ls) = (yss ← collect (collect f) ls; Ok (concat yss)).
Proof.
  induction ls as [|l ls IH]; simpl; [done|].
  rewrite collect_app, IH.
  destruct (collect f l) as [ys|]; simpl; [|done].
  by destruct (collect (collect f) ls).
Qed.

Lemma collect_raises {A B} (Q : exn → Prop) (P : A → Prop) (f : A → res B)
    (l : list A) (e : exn) :
  (∀ x e, P x → f x = Raise e → Q e) → Forall P l →
  collect f l = Raise e → Q e.
Proof.
  intros Hf. induction 1 as [|x l Hx _ IH]; simpl; [done|].
  destruct (f x) as [y|e0] eqn:Hfx; simpl.
  - destruct (collect f l); simpl; [done|]. intros [= <-]. by apply IH.
  - intros [= <-]. by eapply Hf.
Qed.

Section Order.
Context (py_str : json → string).

Lemma collect_types {conv : json → res dict} (T : json) (l : list json)
    (ys : list dict) :
  (∀ x y, conv x = Ok y → y !! "type" = Some T) →
  collect conv l = Ok ys →
  (λ f : dict, f !! "type") <$> ys = replicate (length l) (Some T).
Proof.
  intros Hconv Hys. apply collect_Ok in Hys.
  induction Hys as [|x y l ys Hxy _ IH]; [done|].
  by rewrite fmap_cons, (Hconv x y Hxy), IH.
Qed.

Lemma vulnerability_finding_type (x : json) (y : dict) :
  vulnerability_finding x = Ok y → y !! "type" = Some (JStr "vulnerability").
Proof. intros (? & ? & ? & _ & _ & _ & _ & H & _)%vulnerability_finding_inv. done. Qed.

Lemma misconfiguration_finding_type (x : json) (y : dict) :
  misconfiguration_finding x = Ok y → y !! "type" = Some (JStr "misconfiguration").
Proof. intros (? & ? & ? & _ & _ & _ & H & _)%misconfiguration_finding_inv. done. Qed.

Lemma secret_finding_type (x : json) (y : dict) :
  secret_finding py_str x = Ok y → y !! "type" = Some (JStr "secret").
Proof. intros (? & ? & ? & _ & _ & _ & H & _)%secret_finding_inv. done. Qed.

(** What the body of the outer loop returns, section by section. *)
Lemma result_findings_Ok (result : json) (findings : list dict) :
  result_findings py_str result = Ok findings →
  ∃ fv fm fs,
    collect vulnerability_finding (section_entries result "Vulnerabilities") = Ok fv ∧
    collect misconfiguration_finding (section_entries result "Misconfigurations") = Ok fm ∧
    collect (secret_finding py_str) (section_entries result "Secrets") = Ok fs ∧
    findings = fv ++ fm ++ fs.
Proof.
  rewrite result_findings_unfold. unfold section_entries.
  destruct (section_seq result "Vulnerabilities") as [lv|]; simpl; [|done].
  destruct (collect vulnerability_finding lv) as [fv|]; simpl; [|done].
  destruct (section_seq result "Misconfigurations") as [lm|]; simpl; [|done].
  destruct (collect misconfiguration_finding lm) as [fm|]; simpl; [|done].
  destruct (section_seq result "Secrets") as [ls|]; simpl; [|done].
  destruct (collect (secret_finding py_str) ls) as [fs|]; simpl; [|done].
  intros [= <-]. by exists fv, fm, fs.
Qed.

Lemma result_findings_types (result : json) (findings : list dict) :
  result_findings py_str result = Ok findings →
  (λ f : dict, f !! "type") <$> findings = section_types result.
Proof.
  intros (fv & fm & fs & Hv & Hm & Hs & ->)%result_findings_Ok.
  unfold section_types. rewrite !fmap_app.
  rewrite (collect_types _ _ _ vulnerability_finding_type Hv).
  rewrite (collect_types _ _ _ misconfiguration_finding_type Hm).
  by rewrite (collect_types _ _ _ secret_finding_type Hs).
Qed.

Lemma extract_findings_Ok (data : json) (findings : list dict) :
  extract_findings py_str data = Ok findings →
  ∃ per_result,
    Forall2 (λ result fs, result_findings py_str result = Ok fs)
            (results_of data) per_result ∧
    findings = concat per_result.
Proof.
  rewrite extract_findings_unfold. unfold results_of.
  destruct (results_seq data) as [results|]; simpl; [|done].
  destruct (collect (result_findings py_str) results) as [per|] eqn:Hper;
    simpl; [|done].
  intros [= <-]. exists per. split; [by apply collect_Ok|done].
Qed.
End Order.

Lemma vulnerability_made_from (py_str : json → string) (v : json) (f : dict) :
  vulnerability_finding v = Ok f → made_from py_str (Vulnerability, v) f.
Proof.
  intros (m & id & severity & -> & _ & Hid & Hsev & Htype & Hfid & Hfsev & _)
    %vulnerability_finding_inv.
  by exists m, id, severity.
Qed.

Lemma misconfiguration_made_from (py_str : json → string) (v : json) (f : dict) :
  misconfiguration_finding v = Ok f → made_from py_str (Misconfiguration, v) f.
Proof.
  destruct v as [| | | | | |m]; try done.
  unfold misconfiguration_finding. simpl.
  destruct (m !! "ID") as [id|] eqn:Hid; simpl; [|done].
  destruct (m !! "Severity") as [severity|] eqn:Hsev; simpl; [|done].
  intros [= <-]. by exists m, id, severity.
Qed.

Lemma secret_made_from (py_str : json → string) (v : json) (f : dict) :
  secret_finding py_str v = Ok f → made_from py_str (Secret, v) f.
Proof.
  destruct v as [| | | | | |m]; try done.
  unfold secret_finding. simpl.
  destruct (m !! "RuleID") as [rule|] eqn:Hid; simpl; [|done].
  destruct (m !! "Severity") as [severity|] eqn:Hsev; simpl; [|done].
  intros [= <-]. by exists m, rule, severity.
Qed.

Lemma collect_made_from (py_str : json → string) (k : section_kind)
    (conv : json → res dict) (records : list json) (fs : list dict) :
  (∀ v f, conv v = Ok f → made_from py_str (k, v) f) →
  collect conv records = Ok fs →
  Forall2 (made_from py_str) (pair k <$> records) fs.
Proof.
  intros Hconv Hfs%collect_Ok. apply Forall2_fmap_l.
  eapply Forall2_impl; [exact Hfs|]. intros v f. apply Hconv.
Qed.

Lemma result_findings_made_from (py_str : json → string) (result : json)
    (findings : list dict) :
  result_findings py_str result = Ok findings →
  Forall2 (made_from py_str) (tagged_records result) findings.
Proof.
  intros (fv & fm & fs & Hv & Hm & Hs & ->)%result_findings_Ok.
  unfold tagged_records. repeat apply Forall2_app.
  - by apply (collect_made_from _ _ _ _ _ (vulnerability_made_from py_str)).
  - by apply (collect_made_from _ _ _ _ _ (misconfiguration_made_from py_str)).
  - by apply (collect_made_from _ _ _ _ _ (secret_made_from py_str)).
Qed.

(** X5. Extraction returns one finding per record, in the order of the
    corpus: entry of [Results] after entry, and inside an entry the
    vulnerabilities, then the misconfigurations, then the secrets. The
    i-th finding is made from the i-th record: it has the type of the
    record's section, the record's identifier as its id (behind [SECRET-]
    for a secret) and the record's severity. *)
Theorem extract_findings_order (py_str : json → string) (data : json)
    (findings : list dict) :
  extract_findings py_str data = Ok findings →
  Forall2 (made_from py_str) (corpus_records data) findings ∧
  (λ f : dict, f !! "type") <$> findings = concat (section_types <$> results_of data) ∧
  length findings =
    sum_list ((λ result,
                 length (section_entries result "Vulnerabilities") +
                 length (section_entries result "Misconfigurations") +
                 length (section_entries result "Secrets")) <$> results_of data).
Proof.
  intros (per & Hper & ->)%extract_findings_Ok. unfold corpus_records.
  induction Hper as [|result fs results per Hfs _ (IH0 & IH1 & IH2)]; simpl;
    [by split_and!; [constructor| |]|].
  rewrite fmap_app, length_app, IH1, IH2.
  pose proof (result_findings_types py_str _ _ Hfs) as Htypes.
  split_and!.
  - apply Forall2_app; [by apply result_findings_made_from|exact IH0].
  - by rewrite Htypes.
  - f_equal.
    rewrite <- (length_fmap (λ f : dict, f !! "type")), Htypes.
    unfold section_types. rewrite !length_app, !length_replicate. lia.
Qed.

Lemma extract_findings_order_witness :
  extract_findings str_scalar
    (corpus_of [sample_vulnerability; sample_low] [sample_misconfiguration]
               [sample_secret])
  = Ok [sample_finding; sample_low_finding; sample_misconfiguration_finding;
        sample_secret_finding] ∧
  Forall2 (made_from str_scalar)
    (corpus_records (corpus_of [sample_vulnerability; sample_low]
                               [sample_misconfiguration] [sample_secret]))
    [sample_finding; sample_low_finding; sample_misconfiguration_finding;
     sample_secret_finding].
Proof.
  split; [exact sample_findings_extracted|].
  exact (proj1 (extract_findings_order str_scalar _ _ sample_findings_extracted)).
Defined.

Section Shape.
Context (py_str : json → string).

Lemma missing_key (k : string) :
  k ∈ required_keys → missing_required_key (KeyError k).
Proof. intros Hk. by exists k. Qed.

Lemma vulnerability_finding_raises (v : json) (e : exn) :
  vulnerability_shaped v → vulnerability_finding v = Raise e →
  missing_required_key e.
Proof.
  destruct v as [| | | | | |m]; try done. simpl. intros Hlayer.
  unfold vulnerability_finding. simpl.
  destruct (m !! "VulnerabilityID"); simpl;
    [|intros [= <-]; apply missing_key; set_solver].
  destruct (m !! "Severity"); simpl;
    [|intros [= <-]; apply missing_key; set_solver].
  destruct (m !! "Layer") as [layer|]; simpl; [|done].
  by destruct layer.
Qed.

Lemma misconfiguration_finding_raises (v : json) (e : exn) :
  is_object v → misconfiguration_finding v = Raise e → missing_required_key e.
Proof.
  destruct v as [| | | | | |m]; try done. intros _.
  unfold misconfiguration_finding. simpl.
  destruct (m !! "ID"); simpl; [|intros [= <-]; apply missing_key; set_solver].
  destruct (m !! "Severity"); simpl; [done|].
  intros [= <-]; apply missing_key; set_solver.
Qed.

Lemma secret_finding_raises (v : json) (e : exn) :
  is_object v → secret_finding py_str v = Raise e → missing_required_key e.
Proof.
  destruct v as [| | | | | |m]; try done. intros _.
  unfold secret_finding. simpl.
  destruct (m !! "RuleID"); simpl; [|intros [= <-]; apply missing_key; set_solver].
  destruct (m !! "Severity"); simpl; [done|].
  intros [= <-]; apply missing_key; set_solver.
Qed.

Lemma result_findings_raises (result : json) (e : exn) :
  result_shaped result → result_findings py_str result = Raise e →
  missing_required_key e.
Proof.
  destruct result as [| | | | | |m]; try done. intros (Hv & Hm & Hs).
  apply list_of_iter in Hv as (vulns & Hv & Hvs).
  apply list_of_iter in Hm as (misconfs & Hm & Hms).
  apply list_of_iter in Hs as (secrets & Hs & Hss).
  unfold result_findings. simpl. rewrite Hv, Hm, Hs. simpl.
  destruct (collect vulnerability_finding vulns) eqn:H1; simpl;
    [|intros [= <-];
      by eapply (collect_raises _ _ _ _ _ vulnerability_finding_raises Hvs)].
  destruct (collect misconfiguration_finding misconfs) eqn:H2; simpl;
    [|intros [= <-];
      by eapply (collect_raises _ _ _ _ _ misconfiguration_finding_raises Hms)].
  destruct (collect (secret_finding py_str) secrets) eqn:H3; simpl; [done|].
  intros [= <-].
  by eapply (collect_raises _ _ _ _ _ secret_finding_raises Hss).
Qed.
End Shape.

(** X6. On a corpus of the expected shape (objects and lists where the
    script expects them) extraction can only fail for a missing
    [VulnerabilityID], [ID], [RuleID] or [Severity]: the exception is the
    [KeyError] of one of these four keys. *)
Theorem extract_findings_raises_required_key (py_str : json → string)
    (data : json) (e : exn) :
  corpus_shaped data →
  extract_findings py_str data = Raise e →
  missing_required_key e.
Proof.
  destruct data as [| | | | | |m]; try done. intros Hr.
  apply list_of_iter in Hr as (results & Hr & Hrs).
  unfold extract_findings. simpl. rewrite Hr. simpl.
  destruct (collect (result_findings py_str) results) eqn:Hc; simpl; [done|].
  intros [= <-].
  by eapply (collect_raises _ _ _ _ _ (result_findings_raises py_str) Hrs).
Qed.

Lemma extract_findings_raises_required_key_witness :
  corpus_shaped (corpus_of [sample_vulnerability] [] [sample_no_severity]) ∧
  extract_findings str_scalar (corpus_of [sample_vulnerability] [] [sample_no_severity])
    = Raise (KeyError "Severity") ∧
  missing_required_key (KeyError "Severity").
Proof.
  assert (corpus_shaped (corpus_of [sample_vulnerability] [] [sample_no_severity]))
    as Hshape by (vm_compute; repeat constructor).
  assert (extract_findings str_scalar
            (corpus_of [sample_vulnerability] [] [sample_no_severity])
          = Raise (KeyError "Severity")) as Hraise
    by (rewrite extract_findings_corpus_of; reflexivity).
  split; [exact Hshape|]. split; [exact Hraise|].
  exact (extract_findings_raises_required_key str_scalar _ _ Hshape Hraise).
Defined.

(** ** The stages together *)

Section Pipeline.
Context (py_str : json → string).

Lemma result_findings_no_package (result : json) (findings : list dict) :
  result_findings py_str result = Ok findings →
  section_entries result "Misconfigurations" ≠ [] ∨
    section_entries result "Secrets" ≠ [] →
  ∃ f, f ∈ findings ∧ f !! "package" = None.
Proof.
  intros (fv & fm & fs & _ & Hm & Hs & ->)%result_findings_Ok [Hne | Hne].
  - destruct (section_entries result "Misconfigurations") as [|x l] eqn:Hl; [done|].
    destruct (collect_elem _ _ _ x Hm) as (f & Hf & Hx);
      [apply elem_of_cons; by left|].
    apply misconfiguration_finding_inv in Hx as (? & ? & ? & _ & _ & _ & _ & _ & Hp).
    exists f. split; [|done]. rewrite !elem_of_app. auto.
  - destruct (section_entries result "Secrets") as [|x l] eqn:Hl; [done|].
    destruct (collect_elem _ _ _ x Hs) as (f & Hf & Hx);
      [apply elem_of_cons; by left|].
    apply secret_finding_inv in Hx as (? & ? & ? & _ & _ & _ & _ & _ & Hp).
    exists f. split; [|done]. rewrite !elem_of_app. auto.
Qed.

Lemma vulnerability_finding_complete (v : json) (f : dict) :
  vulnerability_finding v = Ok f →
  (∀ m severity, v = JObj m → m !! "Severity" = Some severity → hashable severity) →
  complete f.
Proof.
  intros (m & id & sev & -> & _ & _ & Hsev & _ & _ & Hfsev & Hkeys)%vulnerability_finding_inv
         Hhash.
  split; [done|]. rewrite Hfsev.
  specialize (Hhash m sev eq_refl Hsev). by destruct sev.
Qed.

Lemma collect_complete (l : list json) (fs : list dict) :
  collect vulnerability_finding l = Ok fs →
  (∀ m severity, JObj m ∈ l → m !! "Severity" = Some severity → hashable severity) →
  Forall complete fs.
Proof.
  intros Hfs%collect_Ok Hhash.
  induction Hfs as [|x y l fs Hxy _ IH]; [constructor|].
  apply Forall_cons_2.
  - apply (vulnerability_finding_complete x y Hxy). intros m sev -> Hsev.
    apply (Hhash m sev); [apply elem_of_cons; by left|done].
  - apply IH. intros m sev Hin. apply Hhash. apply elem_of_cons. by right.
Qed.

Lemma loaded_results (fs : file_system) (file_list : list string) :
  Forall (usable fs) file_list →
  Forall (λ data, results_seq data = Ok (results_of data)) (loaded fs file_list).
Proof.
  induction 1 as [|f rest Hf _ IH]; [constructor|].
  unfold usable in Hf. destruct (fs f) as [data|e] eqn:Hfs.
  - rewrite (loaded_cons_Ok _ _ _ _ Hfs). apply Forall_cons_2; [|done].
    destruct Hf as [xs Hxs]. unfold results_of. by rewrite Hxs.
  - by rewrite (loaded_cons_Raise _ _ _ _ Hfs).
Qed.

Lemma collect_extract_findings (docs : list json) :
  Forall (λ data, results_seq data = Ok (results_of data)) docs →
  (per ← collect (extract_findings py_str) docs; Ok (concat per)) =
  (yss ← collect (collect (result_findings py_str)) (results_of <$> docs);
   Ok (concat (concat yss))).
Proof.
  induction 1 as [|data docs Hdata _ IH]; [done|].
  rewrite fmap_cons. simpl. rewrite extract_findings_unfold, Hdata. simpl.
  destruct (collect (result_findings py_str) (results_of data)) as [ys|];
    simpl; [|done].
  destruct (collect (extract_findings py_str) docs) as [per|]; simpl in *.
  - destruct (collect (collect (result_findings py_str)) (results_of <$> docs))
      as [yss|]; simpl in *; [|done].
    injection IH as IH. by rewrite concat_app, IH.
  - by destruct (collect (collect (result_findings py_str)) (results_of <$> docs)).
Qed.
End Pipeline.

(** X7. Whenever the corpus holds a misconfiguration or a secret and
    extraction ends normally, the assembler raises on the findings
    extraction returned, whatever the template, the clock and the names:
    no HDF document is written for such a corpus. *)
Theorem export_raises_on_other_types (py_str : json → string) (data : json)
    (findings : list dict) (result : json) (template : res json)
    (clock : nat → string) (image_name directory timestamp : string) :
  extract_findings py_str data = Ok findings →
  result ∈ results_of data →
  section_entries result "Misconfigurations" ≠ [] ∨
    section_entries result "Secrets" ≠ [] →
  ∃ e, export_mitre_saf_hdf py_str template clock image_name findings
         directory timestamp = Raise e.
Proof.
  intros (per & Hper & ->)%extract_findings_Ok Hresult Hne.
  apply list_elem_of_lookup in Hresult as [i Hi].
  destruct (Forall2_lookup_l _ _ _ _ _ Hper Hi) as (fs & Hfs & Hrf).
  destruct (result_findings_no_package py_str _ _ Hrf Hne) as (f & Hf & Hp).
  apply (export_Raise py_str _ _ _ _ _ _ f); [|done].
  apply elem_of_concat. exists fs. split; [|done].
  apply list_elem_of_lookup. by exists i.
Qed.

Lemma export_raises_on_other_types_witness :
  extract_findings str_scalar
    (corpus_of [sample_vulnerability] [] [sample_secret])
    = Ok [sample_finding; sample_secret_finding] ∧
  ∃ e, export_mitre_saf_hdf str_scalar (Ok sample_template) sample_clock
         "registry/app:1.0" [sample_finding; sample_secret_finding]
         "/scan/MITRE" "20251201_100000" = Raise e.
Proof.
  assert (extract_findings str_scalar
            (corpus_of [sample_vulnerability] [] [sample_secret])
          = Ok [sample_finding; sample_secret_finding]) as Hex
    by (rewrite extract_findings_corpus_of; reflexivity).
  split; [exact Hex|].
  eapply (export_raises_on_other_types str_scalar _ _ _ (Ok sample_template)
            sample_clock "registry/app:1.0" "/scan/MITRE" "20251201_100000" Hex).
  - apply list_elem_of_singleton. reflexivity.
  - right. discriminate.
Defined.

(** X8. On a corpus that holds vulnerabilities only, each with a severity
    that is not a list or an object, the findings extraction returns are
    all accepted by the assembler: with the fallback profile it ends
    normally and the output holds exactly one control per finding. *)
Theorem export_accepts_vulnerabilities (py_str : json → string) (data : json)
    (findings : list dict) (clock : nat → string)
    (image_name directory timestamp : string) :
  extract_findings py_str data = Ok findings →
  (∀ result, result ∈ results_of data →
     section_entries result "Misconfigurations" = [] ∧
     section_entries result "Secrets" = []) →
  (∀ result m severity, result ∈ results_of data →
     JObj m ∈ section_entries result "Vulnerabilities" →
     m !! "Severity" = Some severity → hashable severity) →
  ∃ e, export_mitre_saf_hdf py_str (Raise FileNotFoundError) clock image_name
         findings directory timestamp = Ok e ∧
       length (output_controls (document e)) = length findings.
Proof.
  intros (per & Hper & ->)%extract_findings_Ok Hempty Hhash.
  assert (Forall complete (concat per)) as Hall.
  { apply Forall_concat.
    revert Hempty Hhash. induction Hper as [|result fs results per Hfs _ IH];
      intros Hempty Hhash; [constructor|].
    apply Forall_cons_2.
    - apply result_findings_Ok in Hfs as (fv & fm & fs' & Hv & Hm & Hs & ->).
      destruct (Hempty result) as [Hme Hse]; [apply elem_of_cons; by left|].
      rewrite Hme in Hm. rewrite Hse in Hs. simpl in Hm, Hs.
      injection Hm as <-. injection Hs as <-. rewrite !app_nil_r.
      apply (collect_complete _ _ Hv). intros m sev Hin.
      apply (Hhash result); [apply elem_of_cons; by left|done].
    - apply IH.
      + intros r Hr. apply Hempty. apply elem_of_cons. by right.
      + intros r m sev Hr. apply Hhash. apply elem_of_cons. by right. }
  destruct (export_fallback_complete py_str clock image_name _ directory timestamp Hall)
    as [e He].
  exists e. split; [done|].
  destruct (export_one_control_per_finding py_str _ _ _ _ _ _ _ He)
    as (hdf & cs & [= <-] & -> & Hlen & _).
  done.
Qed.

Lemma export_accepts_vulnerabilities_witness :
  extract_findings str_scalar (corpus_of [sample_vulnerability; sample_low] [] [])
    = Ok [sample_finding; sample_low_finding] ∧
  ∃ e, export_mitre_saf_hdf str_scalar (Raise FileNotFoundError) sample_clock
         "registry/app:1.0" [sample_finding; sample_low_finding]
         "/scan/MITRE" "20251201_100000" = Ok e ∧
       length (output_controls (document e)) = 2.
Proof.
  assert (extract_findings str_scalar
            (corpus_of [sample_vulnerability; sample_low] [] [])
          = Ok [sample_finding; sample_low_finding]) as Hex
    by (rewrite extract_findings_corpus_of; reflexivity).
  split; [exact Hex|].
  apply (export_accepts_vulnerabilities str_scalar _ _ sample_clock
           "registry/app:1.0" "/scan/MITRE" "20251201_100000" Hex).
  - intros result Hin. apply list_elem_of_singleton in Hin as ->.
    split; reflexivity.
  - intros result m sev Hin. apply list_elem_of_singleton in Hin as ->.
    change (JObj m ∈ [JObj sample_vulnerability; JObj sample_low] →
            m !! "Severity" = Some sev → hashable sev).
    intros Hm.
    repeat (apply elem_of_cons in Hm as [[= ->] | Hm];
            [intros [= <-]; exact I|]).
    by apply elem_of_nil in Hm.
Defined.

(** X9. Extraction after the merge is the merge of the extractions: on
    files the loader can use, extracting from the merged corpus returns the
    findings of the loaded documents one after the other, in load order,
    and raises what the first failing document raises. *)
Theorem extract_findings_of_merged (py_str : json → string) (fs : file_system)
    (file_list : list string) :
  Forall (usable fs) file_list →
  ∃ merged,
    (merge_jsons fs file_list).2 = Ok merged ∧
    extract_findings py_str (JObj merged) =
      (per ← collect (extract_findings py_str) (loaded fs file_list);
       Ok (concat per)).
Proof.
  intros Hall.
  destruct (merge_loop_usable fs file_list _ [] [] initial_results Hall)
    as (merged & Hloop & Hres & _).
  exists merged. unfold merge_jsons. rewrite Hloop. split; [done|].
  rewrite (collect_extract_findings py_str _ (loaded_results fs file_list Hall)).
  rewrite extract_findings_unfold. unfold results_seq. simpl. rewrite Hres.
  simpl. rewrite collect_concat.
  by destruct (collect (collect (result_findings py_str))
                 (results_of <$> loaded fs file_list)).
Qed.

Lemma extract_findings_of_merged_witness :
  Forall (usable sample_fs) sample_files ∧
  ∃ merged,
    (merge_jsons sample_fs sample_files).2 = Ok merged ∧
    extract_findings str_scalar (JObj merged) =
      (per ← collect (extract_findings str_scalar) (loaded sample_fs sample_files);
       Ok (concat per)).
Proof.
  assert (Forall (usable sample_fs) sample_files) as Hall.
  { repeat apply Forall_cons_2; [| | | |apply Forall_nil_2].
    - exists (results_of sample_vuln_document). reflexivity.
    - exists (results_of sample_secret_document). reflexivity.
    - right. reflexivity.
    - left. reflexivity. }
  split; [exact Hall|].
  exact (extract_findings_of_merged str_scalar sample_fs sample_files Hall).
Defined.

(** ** More on the assembler *)

Section Document.
Context (py_str : json → string).

(** The only documents the append accepts, and what it makes of them. *)
Lemma append_controls_inv (hdf hdf' : json) (controls : list json) :
  append_controls hdf controls = Ok hdf' →
  ∃ h p others old,
    hdf = JObj h ∧ h !! "profiles" = Some (JArr (JObj p :: others)) ∧
    (p !! "controls" = None ∧ old = [] ∨ p !! "controls" = Some (JArr old)) ∧
    hdf' = JObj (<["profiles" :=
                    JArr (JObj (<["controls" := JArr (old ++ controls)]> p) :: others)]> h).
Proof.
  unfold append_controls.
  destruct hdf as [| | | | | |h]; try done. simpl.
  destruct (h !! "profiles") as [profiles|] eqn:Hp; simpl; [|done].
  destruct profiles as [| | | |s|l|m]; try done; simpl.
  - destruct (code_points s) as [|c ?]; simpl; [done|].
    by destruct (negb (is_infix "controls" c)).
  - destruct l as [|profile others]; simpl; [done|].
    destruct profile as [| | | |s|l|p]; try done; simpl.
    + by destruct (negb (is_infix "controls" s)).
    + by destruct (negb (existsb _ l)).
    + destruct (p !! "controls") as [existing|] eqn:Hc; simpl.
      * destruct existing as [| | | | |old|]; try done. simpl.
        intros [= <-]. exists h, p, others, old. split_and!; auto.
      * intros [= <-]. exists h, p, others, []. split_and!; auto.
Qed.

Lemma controls_from_lookup (clock : nat → string) (findings : list dict) :
  ∀ (i0 : nat) (cs : list json),
  controls_from py_str clock i0 findings = Ok cs →
  ∀ i f, findings !! i = Some f →
  ∃ c, cs !! i = Some c ∧ control py_str (clock (i0 + i)) f = Ok c.
Proof.
  induction findings as [|f0 rest IH]; intros i0 cs; simpl; [by intros _ ? ? ?|].
  destruct (control py_str (clock i0) f0) as [c0|] eqn:Hc0; simpl; [|done].
  destruct (controls_from py_str clock (S i0) rest) as [cs'|] eqn:Hcs;
    simpl; [|done].
  intros [= <-] [|i] f Hf; simpl in *.
  - injection Hf as <-. exists c0. by rewrite Nat.add_0_r.
  - destruct (IH _ _ Hcs i f Hf) as (c & Hc & Hnow). exists c.
    by rewrite <- Nat.add_succ_comm.
Qed.

(** Whether a control can be built does not depend on the clock. *)
Lemma control_any_time (now now' : string) (f : dict) (c : json) :
  control py_str now f = Ok c → ∃ c', control py_str now' f = Ok c'.
Proof.
  unfold control. simpl.
  destruct (f !! "id"); simpl; [|done].
  destruct (f !! "title"); simpl; [|done].
  destruct (f !! "description"); simpl; [|done].
  destruct (f !! "severity"); simpl; [|done].
  destruct (impact _); simpl; [|done].
  destruct (f !! "package"); simpl; [|done].
  destruct (f !! "installed"); simpl; [|done].
  destruct (f !! "fixed"); simpl; [|done].
  intros _. by eexists.
Qed.

Lemma controls_from_any_clock (clock clock' : nat → string) (findings : list dict) :
  ∀ (i i' : nat) (cs : list json),
  controls_from py_str clock i findings = Ok cs →
  ∃ cs', controls_from py_str clock' i' findings = Ok cs'.
Proof.
  induction findings as [|f rest IH]; intros i i' cs; simpl; [by eexists|].
  destruct (control py_str (clock i) f) as [c|] eqn:Hc; simpl; [|done].
  destruct (controls_from py_str clock (S i) rest) as [cs0|] eqn:Hcs;
    simpl; [|done].
  intros _. destruct (control_any_time _ (clock' i') _ _ Hc) as [c' ->].
  destruct (IH _ (S i') _ Hcs) as [cs' ->]. by eexists.
Qed.
End Document.

(** X10. The assembler changes nothing of the document but the [controls]
    of its first profile: the other top-level keys, the other profiles and
    the other keys of the first profile are those of the document it
    started from, and the controls that were there stay, in order, before
    the new ones. *)
Theorem export_touches_only_controls (py_str : json → string)
    (template : res json) (clock : nat → string) (image_name : string)
    (findings : list dict) (directory timestamp : string) (e : exported) :
  export_mitre_saf_hdf py_str template clock image_name findings directory timestamp
    = Ok e →
  ∃ h h' p p' others cs,
    starting_hdf template = Ok (JObj h) ∧ document e = JObj h' ∧
    (∀ k, k ≠ "profiles" → h' !! k = h !! k) ∧
    h !! "profiles" = Some (JArr (JObj p :: others)) ∧
    h' !! "profiles" = Some (JArr (JObj p' :: others)) ∧
    (∀ k, k ≠ "controls" → p' !! k = p !! k) ∧
    p' !! "controls" = Some (JArr (output_controls (JObj h) ++ cs)) ∧
    length cs = length findings.
Proof.
  unfold export_mitre_saf_hdf. fold (starting_hdf template).
  destruct (starting_hdf template) as [hdf|]; simpl; [|done].
  destruct (controls_from py_str clock 0 findings) as [cs|] eqn:Hcs; simpl; [|done].
  destruct (append_controls hdf cs) as [hdf'|] eqn:Ha; simpl; [|done].
  intros [= <-]. simpl.
  apply append_controls_inv in Ha as (h & p & others & old & -> & Hp & Hold & ->).
  exists h, (<["profiles" :=
               JArr (JObj (<["controls" := JArr (old ++ cs)]> p) :: others)]> h),
         p, (<["controls" := JArr (old ++ cs)]> p), others, cs.
  split_and!; try done.
  - intros k Hk. by rewrite lookup_insert_ne.
  - apply lookup_insert_eq.
  - intros k Hk. by rewrite lookup_insert_ne.
  - rewrite lookup_insert_eq. unfold output_controls. rewrite Hp.
    by destruct Hold as [[-> ->] | ->].
  - apply controls_from_Ok in Hcs. symmetry. by eapply Forall2_length.
Qed.

Lemma export_touches_only_controls_witness :
  ∃ e,
    export_mitre_saf_hdf str_scalar (Ok sample_template) sample_clock
      "registry/app:1.0" [sample_finding] "/scan/MITRE" "20251201_100000" = Ok e ∧
    ∃ h h' p p' others cs,
      starting_hdf (Ok sample_template) = Ok (JObj h) ∧ document e = JObj h' ∧
      (∀ k, k ≠ "profiles" → h' !! k = h !! k) ∧
      h !! "profiles" = Some (JArr (JObj p :: others)) ∧
      h' !! "profiles" = Some (JArr (JObj p' :: others)) ∧
      (∀ k, k ≠ "controls" → p' !! k = p !! k) ∧
      p' !! "controls" = Some (JArr (output_controls (JObj h) ++ cs)) ∧
      length cs = length [sample_finding].
Proof.
  assert (∃ e, export_mitre_saf_hdf str_scalar (Ok sample_template) sample_clock
      "registry/app:1.0" [sample_finding] "/scan/MITRE" "20251201_100000" = Ok e)
    as [e He] by (eexists; reflexivity).
  exists e. split; [exact He|].
  exact (export_touches_only_controls str_scalar (Ok sample_template) sample_clock
           "registry/app:1.0" [sample_finding] "/scan/MITRE" "20251201_100000" e He).
Defined.

(** X11. The append is not idempotent: when the document a run wrote is
    given back as the template, the same findings are assembled again and
    their controls are added after the ones already there, so every
    control of the first run is followed by a second copy with the same
    id. *)
Theorem export_twice_duplicates (py_str : json → string) (template : res json)
    (clock clock' : nat → string) (image_name : string) (findings : list dict)
    (directory timestamp timestamp' : string) (e : exported) :
  export_mitre_saf_hdf py_str template clock image_name findings directory timestamp
    = Ok e →
  ∃ e' cs',
    export_mitre_saf_hdf py_str (Ok (document e)) clock' image_name findings
      directory timestamp' = Ok e' ∧
    output_controls (document e') = output_controls (document e) ++ cs' ∧
    length cs' = length findings ∧
    Forall2 (λ f c, control_id c = f !! "id") findings cs'.
Proof.
  intros He.
  assert (∃ e', export_mitre_saf_hdf py_str (Ok (document e)) clock' image_name
                  findings directory timestamp' = Ok e') as [e' He'].
  { revert He. unfold export_mitre_saf_hdf. fold (starting_hdf template).
    destruct (starting_hdf template) as [hdf|]; simpl; [|done].
    destruct (controls_from py_str clock 0 findings) as [cs|] eqn:Hcs;
      simpl; [|done].
    destruct (append_controls hdf cs) as [hdf'|] eqn:Ha; simpl; [|done].
    intros [= <-]. simpl.
    destruct (controls_from_any_clock py_str clock clock' findings 0 0 cs Hcs)
      as [cs' ->]. simpl.
    apply append_controls_inv in Ha as (h & p & others & old & -> & Hp & Hold & ->).
    unfold append_controls. simpl. rewrite lookup_insert_eq. simpl.
    rewrite lookup_insert_eq. simpl. by eexists. }
  destruct (export_one_control_per_finding py_str _ _ _ _ _ _ _ He')
    as (hdf & cs' & [= <-] & Hout & Hlen & Hids).
  by exists e', cs'.
Qed.

Lemma export_twice_duplicates_witness :
  ∃ e,
    export_mitre_saf_hdf str_scalar (Raise FileNotFoundError) sample_clock
      "registry/app:1.0" [sample_finding; sample_low_finding]
      "/scan/MITRE" "20251201_100000" = Ok e ∧
    ∃ e' cs',
      export_mitre_saf_hdf str_scalar (Ok (document e)) sample_clock
        "registry/app:1.0" [sample_finding; sample_low_finding]
        "/scan/MITRE" "20251201_100500" = Ok e' ∧
      output_controls (document e') = output_controls (document e) ++ cs' ∧
      length cs' = length [sample_finding; sample_low_finding] ∧
      Forall2 (λ f c, control_id c = f !! "id")
              [sample_finding; sample_low_finding] cs'.
Proof.
  destruct (export_fallback_complete str_scalar sample_clock "registry/app:1.0"
              [sample_finding; sample_low_finding] "/scan/MITRE" "20251201_100000"
              sample_findings_complete) as [e He].
  exists e. split; [exact He|].
  exact (export_twice_duplicates str_scalar (Raise FileNotFoundError) sample_clock
           sample_clock "registry/app:1.0" [sample_finding; sample_low_finding]
           "/scan/MITRE" "20251201_100000" "20251201_100500" e He).
Defined.

(** X12. What a template that is not a usable document makes of the run,
    once the controls are built: a template that fails to load for another
    reason than a missing file is not replaced by the fallback, its
    exception leaves the assembler; a document without [profiles] raises
    [KeyError], one with an empty [profiles] raises [IndexError], one whose
    first profile has [controls] that are not a list raises
    [AttributeError], and one that is not an object raises [TypeError]. *)
Theorem export_template_errors (py_str : json → string) (clock : nat → string)
    (image_name : string) (findings : list dict) (directory timestamp : string)
    (cs : list json) :
  controls_from py_str clock 0 findings = Ok cs →
  (∀ e, e ≠ FileNotFoundError →
     export_mitre_saf_hdf py_str (Raise e) clock image_name findings
       directory timestamp = Raise e) ∧
  (∀ h, h !! "profiles" = None →
     export_mitre_saf_hdf py_str (Ok (JObj h)) clock image_name findings
       directory timestamp = Raise (KeyError "profiles")) ∧
  (∀ h, h !! "profiles" = Some (JArr []) →
     export_mitre_saf_hdf py_str (Ok (JObj h)) clock image_name findings
       directory timestamp = Raise IndexError) ∧
  (∀ h p others v, h !! "profiles" = Some (JArr (JObj p :: others)) →
     p !! "controls" = Some v → (∀ l, v ≠ JArr l) →
     export_mitre_saf_hdf py_str (Ok (JObj h)) clock image_name findings
       directory timestamp = Raise AttributeError) ∧
  (∀ v, (∀ h, v ≠ JObj h) →
     export_mitre_saf_hdf py_str (Ok v) clock image_name findings
       directory timestamp = Raise TypeError).
Proof.
  intros Hcs. unfold export_mitre_saf_hdf. split_and!.
  - intros e He. by destruct e.
  - intros h Hp. simpl. rewrite Hcs. simpl. unfold append_controls. simpl.
    by rewrite Hp.
  - intros h Hp. simpl. rewrite Hcs. simpl. unfold append_controls. simpl.
    by rewrite Hp.
  - intros h p others v Hp Hc Hv. simpl. rewrite Hcs. simpl.
    unfold append_controls. simpl. rewrite Hp. simpl. rewrite Hc. simpl.
    destruct v as [| | | | |l|]; try done. by destruct (Hv l).
  - intros v Hv. simpl. rewrite Hcs. simpl. unfold append_controls.
    destruct v as [| | | | | |h]; try done. by destruct (Hv h).
Qed.

Lemma export_template_errors_witness :
  ∃ cs, controls_from str_scalar sample_clock 0 [sample_finding] = Ok cs ∧
  export_mitre_saf_hdf str_scalar (Raise JSONDecodeError) sample_clock
    "registry/app:1.0" [sample_finding] "/scan/MITRE" "20251201_100000"
    = Raise JSONDecodeError ∧
  export_mitre_saf_hdf str_scalar (Ok (JObj ∅)) sample_clock
    "registry/app:1.0" [sample_finding] "/scan/MITRE" "20251201_100000"
    = Raise (KeyError "profiles").
Proof.
  assert (∃ cs, controls_from str_scalar sample_clock 0 [sample_finding] = Ok cs)
    as [cs Hcs] by (eexists; reflexivity).
  exists cs. split; [exact Hcs|].
  destruct (export_template_errors str_scalar sample_clock "registry/app:1.0"
              [sample_finding] "/scan/MITRE" "20251201_100000" cs Hcs)
    as (H1 & H2 & _).
  split; [by apply H1 | by apply H2].
Defined.

(** X13. The impact of a severity is one of 0.1, 0.3, 0.5, 0.7, 0.9, and
    it rises with the rank [SEVERITY_ORDER] gives the severity: of two
    severities of the ordering table, the one of lower or equal rank has
    the lower or equal impact. *)
Theorem impact_monotone (s1 s2 : string) (r1 r2 : Z) :
  SEVERITY_ORDER !! s1 = Some r1 →
  SEVERITY_ORDER !! s2 = Some r2 →
  (r1 ≤ r2)%Z →
  ∃ q1 q2,
    impact (JStr s1) = Ok (JFloat q1) ∧ impact (JStr s2) = Ok (JFloat q2) ∧
    (q1 <= q2)%Q ∧ ((1 # 10) <= q1)%Q ∧ (q2 <= (9 # 10))%Q.
Proof.
  intros H1 H2 Hle.
  assert (Hkeys : ∀ s r, SEVERITY_ORDER !! s = Some r →
            (s, r) ∈ [("CRITICAL", 4%Z); ("HIGH", 3%Z); ("MEDIUM", 2%Z);
                      ("LOW", 1%Z); ("UNKNOWN", 0%Z)])
    by (intros s r Hs; by apply elem_of_list_to_map_2 in Hs).
  apply Hkeys in H1. apply Hkeys in H2.
  repeat (apply elem_of_cons in H1 as [[= -> ->] | H1]);
    try (by apply elem_of_nil in H1);
    repeat (apply elem_of_cons in H2 as [[= -> ->] | H2]);
    try (by apply elem_of_nil in H2);
    try lia;
    (eexists _, _; split; [reflexivity|]; split; [reflexivity|];
     split_and!; by vm_compute).
Qed.

Lemma impact_monotone_witness :
  SEVERITY_ORDER !! "LOW" = Some 1%Z ∧ SEVERITY_ORDER !! "HIGH" = Some 3%Z ∧
  ∃ q1 q2,
    impact (JStr "LOW") = Ok (JFloat q1) ∧ impact (JStr "HIGH") = Ok (JFloat q2) ∧
    (q1 <= q2)%Q ∧ ((1 # 10) <= q1)%Q ∧ (q2 <= (9 # 10))%Q.
Proof.
  split; [reflexivity|]. split; [reflexivity|].
  apply (impact_monotone "LOW" "HIGH" 1 3); [reflexivity|reflexivity|lia].
Defined.

Lemma replace_char_absent (old new : ascii) (s : string) :
  old ≠ new → is_infix (String old EmptyString) (replace_char old new s) = false.
Proof.
  intros Hne. induction s as [|c s IH]; simpl; [done|].
  rewrite IH, orb_false_r, andb_true_r. apply bool_decide_eq_false.
  destruct (bool_decide (c = old)) eqn:Hc; [done|].
  apply bool_decide_eq_false in Hc. congruence.
Qed.

Lemma replace_char_keeps_absent (a old new : ascii) (s : string) :
  a ≠ new → is_infix (String a EmptyString) s = false →
  is_infix (String a EmptyString) (replace_char old new s) = false.
Proof.
  intros Hne. induction s as [|c s IH]; simpl; [done|].
  intros [Hc Hs]%orb_false_elim. rewrite (IH Hs), orb_false_r.
  rewrite andb_true_r in Hc |- *. apply bool_decide_eq_false in Hc.
  apply bool_decide_eq_false. destruct (bool_decide (c = old)); congruence.
Qed.

Lemma replace_char_length (old new : ascii) (s : string) :
  String.length (replace_char old new s) = String.length s.
Proof. induction s as [|c s IH]; simpl; congruence. Qed.

(** X14. The name put into the file name holds neither [/] nor [:] and is
    as long as the image name: the image name cannot add a directory level
    to the path of the written file. *)
Theorem safe_name_has_no_separator (image_name : string) :
  is_infix "/" (safe_name image_name) = false ∧
  is_infix ":" (safe_name image_name) = false ∧
  String.length (safe_name image_name) = String.length image_name.
Proof.
  unfold safe_name. split_and!.
  - apply replace_char_keeps_absent; [done|]. by apply replace_char_absent.
  - by apply replace_char_absent.
  - by rewrite !replace_char_length.
Qed.

(** X15. The controls of a run sit after the ones the profile held, at the
    positions of their findings: the control of the [i]-th finding is the
    [i]-th new one, has the finding's id, one result record whose status
    is [failed], and as its start time the [i]-th reading of the clock
    followed by [Z]. *)
Theorem export_control_positions (py_str : json → string) (template : res json)
    (clock : nat → string) (image_name : string) (findings : list dict)
    (directory timestamp : string) (e : exported) (i : nat) (f : dict) :
  export_mitre_saf_hdf py_str template clock image_name findings directory timestamp
    = Ok e →
  findings !! i = Some f →
  ∃ hdf c r,
    starting_hdf template = Ok hdf ∧
    output_controls (document e) !! (length (output_controls hdf) + i) = Some c ∧
    control_id c = f !! "id" ∧
    result_records c = [JObj r] ∧
    r !! "status" = Some (JStr "failed") ∧
    r !! "start_time" = Some (JStr (clock i +:+ "Z")).
Proof.
  intros He Hf.
  destruct (export_Ok py_str _ _ _ _ _ _ _ He) as (hdf & cs & Hs & Hcs & Hout).
  destruct (controls_from_lookup py_str clock findings 0 cs Hcs i f Hf)
    as (c & Hc & Hnow).
  pose proof (control_id_Ok _ _ _ _ Hnow) as Hid.
  apply control_inv in Hnow
    as (? & ? & ? & ? & ? & ? & ? & ? & _ & _ & _ & _ & _ & _ & _ & _ & ->).
  eexists hdf, _, _. split; [done|]. split.
  - rewrite Hout, lookup_app_r by lia.
    replace (length (output_controls hdf) + i - length (output_controls hdf))
      with i by lia. exact Hc.
  - split_and!; done.
Qed.

Lemma export_control_positions_witness :
  ∃ e,
    export_mitre_saf_hdf str_scalar (Ok sample_template) sample_clock
      "registry/app:1.0" [sample_finding; sample_low_finding]
      "/scan/MITRE" "20251201_100000" = Ok e ∧
    ∃ hdf c r,
      starting_hdf (Ok sample_template) = Ok hdf ∧
      output_controls (document e) !! (length (output_controls hdf) + 1) = Some c ∧
      control_id c = sample_low_finding !! "id" ∧
      result_records c = [JObj r] ∧
      r !! "status" = Some (JStr "failed") ∧
      r !! "start_time" = Some (JStr (sample_clock 1 +:+ "Z")).
Proof.
  assert (∃ e, export_mitre_saf_hdf str_scalar (Ok sample_template) sample_clock
      "registry/app:1.0" [sample_finding; sample_low_finding]
      "/scan/MITRE" "20251201_100000" = Ok e)
    as [e He] by (eexists; reflexivity).
  exists e. split; [exact He|].
  exact (export_control_positions str_scalar (Ok sample_template) sample_clock
           "registry/app:1.0" [sample_finding; sample_low_finding]
           "/scan/MITRE" "20251201_100000" e 1 sample_low_finding He eq_refl).
Defined.

(** ** The table converter *)

Lemma read_all_app (p : place) (l1 l2 : list string) :
  read_all p (l1 ++ l2) =
  match read_all p l1 with
  | Some p' => read_all p' l2
  | None => None
  end.
Proof.
  revert p. induction l1 as [|c l1 IH]; intros p; simpl; [done|].
  destruct (read p c); [apply IH|done].
Qed.

Lemma read_cells (cs : list string) :
  read_all InRow ((λ cell, "<td>" +:+ cell +:+ "</td>") <$> cs) = Some InRow.
Proof. induction cs as [|c cs IH]; [done|]. rewrite fmap_cons. exact IH. Qed.

Lemma read_row (p : place) (line : string) :
  p = Opened ∨ p = InTable → read_all p (write_row line) = Some InTable.
Proof.
  intros Hp. unfold write_row. rewrite read_all_app.
  replace (read_all p [row_open]) with (Some InRow)
    by (by destruct Hp as [-> | ->]).
  cbv beta iota. rewrite read_all_app, read_cells. reflexivity.
Qed.

Lemma read_all_pre (text : string) (l : list string) :
  read_all Outside (("<pre>" +:+ text) :: l) = read_all Outside l.
Proof. reflexivity. Qed.

Lemma read_all_open (l : list string) :
  read_all Outside (table_open :: l) = read_all Opened l.
Proof. reflexivity. Qed.

Lemma read_all_close (l : list string) :
  read_all InTable (table_close :: l) = read_all Outside l.
Proof. reflexivity. Qed.

Lemma convert_lines_cons (raw : string) (rest : list string) (in_table : bool) :
  convert_lines (raw :: rest) in_table =
  if is_border (rstrip raw) then convert_lines rest in_table
  else if is_infix "│" (rstrip raw) then
    (if negb in_table then [table_open] else []) ++
    write_row (rstrip raw) ++ convert_lines rest true
  else if negb (bool_decide (strip (rstrip raw) ≠ EmptyString)) then
    (if in_table then [table_close] else []) ++ convert_lines rest false
  else
    (if in_table then [table_close] else []) ++
    (if bool_decide (strip (rstrip raw) ≠ EmptyString)
     then ["<pre>" +:+ escape (rstrip raw) +:+ "</pre>" +:+ newline] else []) ++
    convert_lines rest false.
Proof. reflexivity. Qed.

Lemma convert_lines_nested (lines : list string) :
  read_all Outside (convert_lines lines false) = Some Outside ∧
  read_all InTable (convert_lines lines true) = Some Outside.
Proof.
  induction lines as [|raw rest [IHout IHin]]; [done|].
  rewrite !convert_lines_cons.
  destruct (is_border (rstrip raw)); [done|].
  destruct (is_infix "│" (rstrip raw)).
  - cbn [negb app]. rewrite read_all_open, !read_all_app, !read_row by auto.
    done.
  - destruct (bool_decide (strip (rstrip raw) ≠ "")); cbn [negb app].
    + by rewrite read_all_close, !read_all_pre.
    + by rewrite read_all_close.
Qed.

(** X16. The page the converter writes is well nested, whatever the
    lines: a table is opened only outside a table and is closed before the
    next one opens and before the page ends, it holds at least one row,
    rows are written only inside a table and cells only inside a row, and
    text lines are written only outside tables. *)
Theorem convert_tables_well_nested (lines : list string) :
  read_all Outside (convert_lines lines false) = Some Outside.
Proof. apply convert_lines_nested. Qed.

Lemma is_infix_char_app (a : ascii) (x y : string) :
  is_infix (String a EmptyString) (x +:+ y) =
  is_infix (String a EmptyString) x || is_infix (String a EmptyString) y.
Proof.
  induction x as [|c x IH]; simpl.
  - by destruct y.
  - rewrite IH. by rewrite orb_assoc.
Qed.

Lemma escape_char_plain (a c : ascii) :
  a ∈ ["<"%char; ">"%char; "034"%char; "'"%char] →
  is_infix (String a EmptyString) (escape_char c) = false.
Proof.
  intros Ha. unfold escape_char.
  repeat (case_bool_decide; [subst c;
    repeat (apply elem_of_cons in Ha as [-> | Ha]; [reflexivity|]);
    by apply elem_of_nil in Ha|]).
  simpl. rewrite orb_false_r, andb_true_r. apply bool_decide_eq_false.
  repeat (apply elem_of_cons in Ha as [-> | Ha]; [congruence|]).
  by apply elem_of_nil in Ha.
Qed.

Lemma escape_plain (a : ascii) (s : string) :
  a ∈ ["<"%char; ">"%char; "034"%char; "'"%char] →
  is_infix (String a EmptyString) (escape s) = false.
Proof.
  intros Ha. induction s as [|c s IH]; [done|].
  simpl. by rewrite is_infix_char_app, IH, escape_char_plain.
Qed.

Lemma escape_is_plain (s : string) : plain (escape s).
Proof. intros a Ha. by apply escape_plain. Qed.

Lemma fixed_in_markup (chunk : string) :
  chunk ∈ [table_open; table_close; row_open; row_close] → chunk ∈ markup.
Proof.
  intros Hin. unfold markup. apply elem_of_app. right.
  rewrite !elem_of_cons in Hin. rewrite !elem_of_cons.
  destruct Hin as [-> | [-> | [-> | [-> | Hin]]]]; auto 10;
    by apply elem_of_nil in Hin.
Qed.

Lemma write_row_chunks (raw chunk : string) :
  chunk ∈ write_row (rstrip raw) →
  chunk ∈ markup ∨ escaped_text_of raw chunk.
Proof.
  unfold write_row, cells. rewrite !elem_of_app, !list_elem_of_singleton.
  intros [-> | [Hcell | ->]].
  - left. apply fixed_in_markup. rewrite !elem_of_cons. auto 10.
  - right. apply list_elem_of_fmap in Hcell as (text & -> & Htext).
    apply list_elem_of_fmap in Htext as (cell & -> & Hcell).
    exists (escape (strip cell)). split; [apply escape_is_plain|].
    right. by exists cell.
  - left. apply fixed_in_markup. rewrite !elem_of_cons. auto 10.
Qed.

Lemma flag_chunk (flag : bool) (tag chunk : string) :
  tag ∈ [table_open; table_close] →
  chunk ∈ (if flag then [tag] else []) → chunk ∈ markup.
Proof.
  intros Htag Hin. destruct flag; [|by apply elem_of_nil in Hin].
  apply list_elem_of_singleton in Hin as ->. apply fixed_in_markup.
  rewrite !elem_of_cons in Htag. rewrite !elem_of_cons.
  destruct Htag as [-> | [-> | Htag]]; auto 10; by apply elem_of_nil in Htag.
Qed.

Lemma convert_lines_chunks (lines : list string) (in_table : bool)
    (chunk : string) :
  chunk ∈ convert_lines lines in_table →
  chunk ∈ markup ∨ ∃ raw, raw ∈ lines ∧ escaped_text_of raw chunk.
Proof.
  revert in_table. induction lines as [|raw rest IH]; intros in_table.
  - simpl. intros Hin. left. apply (flag_chunk in_table table_close); [|done].
    rewrite !elem_of_cons. auto.
  - assert (∀ flag, chunk ∈ convert_lines rest flag →
              chunk ∈ markup ∨
              ∃ raw', raw' ∈ raw :: rest ∧ escaped_text_of raw' chunk) as Hrest.
    { intros flag [Hm | (raw' & Hin & Hraw')]%IH; [by left|].
      right. exists raw'. split; [|done]. apply elem_of_cons. by right. }
    rewrite convert_lines_cons.
    destruct (is_border (rstrip raw)); [apply Hrest|].
    destruct (is_infix "│" (rstrip raw)).
    { rewrite !elem_of_app. intros [Hopen | [Hrow | Hlater]].
      - left. apply (flag_chunk (negb in_table) table_open); [|done].
        rewrite !elem_of_cons. auto.
      - apply write_row_chunks in Hrow as [Hm | Hraw]; [by left|].
        right. exists raw. split; [|done]. apply elem_of_cons. by left.
      - by apply (Hrest true). }
    destruct (bool_decide (strip (rstrip raw) ≠ EmptyString)); cbn [negb].
    + rewrite !elem_of_app. intros [Hclose | [Hpre | Hlater]].
      * left. apply (flag_chunk in_table table_close); [|done].
        rewrite !elem_of_cons. auto.
      * apply list_elem_of_singleton in Hpre as ->. right. exists raw.
        split; [apply elem_of_cons; by left|].
        exists (escape (rstrip raw)). split; [apply escape_is_plain|]. by left.
      * by apply (Hrest false).
    + rewrite !elem_of_app. intros [Hclose | Hlater].
      * left. apply (flag_chunk in_table table_close); [|done].
        rewrite !elem_of_cons. auto.
      * by apply (Hrest false).
Qed.

(** X17. Every string of the page is one of the fixed strings of the
    script, or a text of a line of the input, written escaped: the line in
    a [pre] block, or one of its cells in a [td] element, holding no [<],
    no [>], no double quote and no apostrophe. Nothing of a line can open
    or close a tag or an attribute of the page. *)
Theorem convert_escapes_text (lines : list string) (chunk : string) :
  chunk ∈ convert_tbl_to_html lines →
  chunk ∈ markup ∨ ∃ raw, raw ∈ lines ∧ escaped_text_of raw chunk.
Proof.
  unfold convert_tbl_to_html. rewrite !elem_of_app.
  intros [Hhead | [Hbody | Hfoot]].
  - left. unfold markup. apply elem_of_app. by left.
  - by apply (convert_lines_chunks lines false).
  - left. apply list_elem_of_singleton in Hfoot as ->.
    unfold markup. apply elem_of_app. right. rewrite !elem_of_cons. auto 10.
Qed.

Lemma convert_escapes_text_witness :
  "<td>&lt;b&gt;</td>" ∈ convert_tbl_to_html sample_table ∧
  ("<td>&lt;b&gt;</td>" ∈ markup ∨
   ∃ raw, raw ∈ sample_table ∧ escaped_text_of raw "<td>&lt;b&gt;</td>").
Proof.
  assert ("<td>&lt;b&gt;</td>" ∈ convert_tbl_to_html sample_table) as Hin
    by (apply (bool_decide_unpack _); vm_compute; exact I).
  split; [exact Hin|].
  exact (convert_escapes_text sample_table "<td>&lt;b&gt;</td>" Hin).
Defined.




Lemma filter_cons_bool {A} (P : A → bool) (x : A) (l : list A) :
  filter (λ a, P a) (x :: l) =
  if P x then x :: filter (λ a, P a) l else filter (λ a, P a) l.
Proof. rewrite filter_cons. by destruct (P x). Qed.







(** ** main *)

Lemma split_single (a : ascii) (s : string) :
  split (String a EmptyString) s = split_char a s.
Proof.
  unfold split. induction s as [|c s IH]; [done|].
  simpl. rewrite andb_true_r, IH. by destruct (bool_decide (a = c)).
Qed.

Lemma split_char_no_sep (a : ascii) (s : string) :
  Forall (λ part, is_infix (String a EmptyString) part = false) (split_char a s).
Proof.
  induction s as [|c s IH]; simpl.
  - by apply Forall_cons_2.
  - destruct (bool_decide (a = c)) eqn:Hc; [by apply Forall_cons_2|].
    destruct (split_char a s) as [|h t].
    + apply Forall_cons_2; [|done]. simpl. by rewrite andb_true_r, Hc.
    + apply Forall_cons in IH as [Hh Ht]. apply Forall_cons_2; [|done].
      simpl. by rewrite andb_true_r, Hc, Hh.
Qed.

Lemma split_char_keeps (a b : ascii) (s : string) :
  is_infix (String b EmptyString) s = false →
  Forall (λ part, is_infix (String b EmptyString) part = false) (split_char a s).
Proof.
  induction s as [|c s IH]; simpl.
  - intros _. by apply Forall_cons_2.
  - rewrite andb_true_r. intros [Hc Hs]%orb_false_elim. specialize (IH Hs).
    destruct (bool_decide (a = c)); [by apply Forall_cons_2|].
    destruct (split_char a s) as [|h t].
    + apply Forall_cons_2; [|done]. simpl. by rewrite andb_true_r, Hc.
    + apply Forall_cons in IH as [Hh Ht]. apply Forall_cons_2; [|done].
      simpl. by rewrite andb_true_r, Hc, Hh.
Qed.

Lemma split_char_absent (a : ascii) (s : string) :
  is_infix (String a EmptyString) s = false → split_char a s = [s].
Proof.
  induction s as [|c s IH]; simpl; [done|].
  rewrite andb_true_r. intros [Hc Hs]%orb_false_elim.
  by rewrite Hc, (IH Hs).
Qed.

Lemma split_char_not_nil (a : ascii) (s : string) : split_char a s ≠ [].
Proof.
  destruct s as [|c s]; simpl; [done|].
  destruct (bool_decide (a = c)); [done|]. by destruct (split_char a s).
Qed.

Lemma Forall_last {A} (P : A → Prop) (l : list A) (d : A) :
  l ≠ [] → Forall P l → P (List.last l d).
Proof.
  induction l as [|x l IH]; [done|]. intros _ [Hx Hl]%Forall_cons.
  destruct l as [|y l]; [done|]. by apply IH.
Qed.

Lemma Forall_hd {A} (P : A → Prop) (l : list A) (d : A) :
  l ≠ [] → Forall P l → P (hd d l).
Proof. destruct l; [done|]. by intros _ [Hx _]%Forall_cons. Qed.

(** X19. The container name of an image name is the part of its last
    path segment before the first colon, whether or not the image name
    holds a slash (the test on the slash changes nothing), and it holds
    neither a slash nor a colon. *)
Theorem container_name_is_last_segment (image_name : string) :
  ∃ name,
    container_name (JStr image_name) = Ok name ∧
    name = hd EmptyString
             (split ":" (List.last (split "/" image_name) EmptyString)) ∧
    is_infix "/" name = false ∧ is_infix ":" name = false.
Proof.
  set (segment := List.last (split "/" image_name) EmptyString).
  assert (is_infix "/" segment = false) as Hsegment.
  { unfold segment. rewrite split_single.
    apply (Forall_last (λ part, is_infix "/" part = false));
      [apply split_char_not_nil | apply split_char_no_sep]. }
  exists (hd EmptyString (split ":" segment)). split_and!.
  - unfold container_name. simpl.
    destruct (is_infix "/" image_name) eqn:Hslash; [done|].
    unfold segment. rewrite (split_single "/"), (split_char_absent _ _ Hslash).
    done.
  - done.
  - rewrite split_single.
    apply (Forall_hd (λ part, is_infix "/" part = false));
      [apply split_char_not_nil | by apply split_char_keeps].
  - rewrite split_single.
    apply (Forall_hd (λ part, is_infix ":" part = false));
      [apply split_char_not_nil | apply split_char_no_sep].
Qed.

Lemma menu_cons (w : world) (image_name directory timestamp hdf_file : string)
    (line : string) (rest : list string) :
  menu w image_name directory timestamp hdf_file (line :: rest) =
  let choice := strip line in
  let continue (events : list event) :=
    let '(later, ending) := menu w image_name directory timestamp hdf_file rest in
    (menu_text ++ events ++ [Printed EmptyString] ++ later, ending) in
  let with_openscap (after : list event) :=
    match export_openscap_bundle w image_name directory timestamp hdf_file with
    | (events, None) =>
        continue ([Printed "Generating OpenSCAP XCCDF..."] ++ events ++
                  [Printed "XCCDF generation complete."] ++ after)
    | (events, Some e) =>
        (menu_text ++ [Printed "Generating OpenSCAP XCCDF..."] ++ events, Raised e)
    end in
  if bool_decide (choice = "1") then with_openscap []
  else if bool_decide (choice = "2") then continue (hdf_lines hdf_file)
  else if bool_decide (choice = "3") then continue ckl_lines
  else if bool_decide (choice = "4") then
    with_openscap (hdf_lines hdf_file ++ ckl_lines)
  else if bool_decide (choice = "5") then
    (menu_text ++ [Printed "Goodbye!"], Returned)
  else continue [Printed "Invalid choice. Try again."].
Proof. reflexivity. Qed.

Lemma filter_events_app (P : event → bool) (l1 l2 : list event) :
  filter (λ e, P e) (l1 ++ l2) = filter (λ e, P e) l1 ++ filter (λ e, P e) l2.
Proof. apply filter_app. Qed.

(** The menu writes no file and never calls [sys.exit]. *)
Lemma menu_writes_nothing (w : world)
    (image_name directory timestamp hdf_file : string) (inputs : list string) :
  filter (λ e, is_write e)
    (menu w image_name directory timestamp hdf_file inputs).1 = [] ∧
  ∀ code, (menu w image_name directory timestamp hdf_file inputs).2 ≠ Exited code.
Proof.
  induction inputs as [|line rest [IHw IHe]]; [done|].
  rewrite menu_cons. cbv zeta. unfold export_openscap_bundle.
  destruct (menu w image_name directory timestamp hdf_file rest) as [later ending].
  simpl in IHw, IHe.
  generalize (strip line). intros choice.
  destruct (bool_decide (choice = "1"));
    [destruct (subprocess_run w _); simpl;
     rewrite ?filter_events_app, ?IHw; done|].
  destruct (bool_decide (choice = "2"));
    [simpl; rewrite ?filter_events_app, ?IHw; done|].
  destruct (bool_decide (choice = "3"));
    [simpl; rewrite ?filter_events_app, ?IHw; done|].
  destruct (bool_decide (choice = "4"));
    [destruct (subprocess_run w _); simpl;
     rewrite ?filter_events_app, ?IHw; done|].
  destruct (bool_decide (choice = "5")); simpl;
    rewrite ?filter_events_app, ?IHw; done.
Qed.

Lemma menu_exit (w : world) (image_name directory timestamp hdf_file : string)
    (line : string) (rest : list string) :
  strip line = "5" →
  menu w image_name directory timestamp hdf_file (line :: rest) =
    (menu_text ++ [Printed "Goodbye!"], Returned).
Proof. intros Hline. rewrite menu_cons, Hline. reflexivity. Qed.

Lemma menu_continues (w : world)
    (image_name directory timestamp hdf_file : string)
    (line : string) (rest : list string) :
  converter_ends w →
  strip line ≠ "5" →
  ∃ events,
    menu w image_name directory timestamp hdf_file (line :: rest) =
      (menu_text ++ events ++ [Printed EmptyString] ++
         (menu w image_name directory timestamp hdf_file rest).1,
       (menu w image_name directory timestamp hdf_file rest).2) ∧
    length (filter (λ e, is_run e) events) =
      (if runs_converter (strip line) then 1 else 0).
Proof.
  intros Hends Hline. rewrite menu_cons. cbv zeta.
  unfold runs_converter, export_openscap_bundle.
  destruct (menu w image_name directory timestamp hdf_file rest) as [later ending].
  revert Hline. generalize (strip line). intros choice Hchoice.
  destruct (bool_decide (choice = "1")) eqn:H1.
  { destruct (subprocess_run w _) eqn:Hrun; [| |by apply Hends in Hrun];
      (eexists; split; [reflexivity|reflexivity]). }
  destruct (bool_decide (choice = "2")) eqn:H2.
  { apply bool_decide_eq_true in H2 as ->.
    eexists; split; [reflexivity|reflexivity]. }
  destruct (bool_decide (choice = "3")) eqn:H3.
  { apply bool_decide_eq_true in H3 as ->.
    eexists; split; [reflexivity|reflexivity]. }
  destruct (bool_decide (choice = "4")) eqn:H4.
  { destruct (subprocess_run w _) eqn:Hrun; [| |by apply Hends in Hrun];
      (eexists; split; [reflexivity|reflexivity]). }
  rewrite bool_decide_false by done.
  eexists; split; [reflexivity|reflexivity].
Qed.

(** X20. The menu runs the converter once for every choice [1] or [4]
    typed before the first [5], and for nothing else; it writes no file;
    with a converter that ends, the loop ends only at the first [5], and
    a run whose input has no [5] ends on [EOFError]. *)
Theorem menu_runs_converter_per_choice (w : world)
    (image_name directory timestamp hdf_file : string) (inputs : list string) :
  converter_ends w →
  length (filter (λ e, is_run e)
            (menu w image_name directory timestamp hdf_file inputs).1) =
    length (filter (λ c, runs_converter c) (before_exit inputs)) ∧
  filter (λ e, is_write e)
    (menu w image_name directory timestamp hdf_file inputs).1 = [] ∧
  (menu w image_name directory timestamp hdf_file inputs).2 =
    if bool_decide (Exists (λ line, strip line = "5") inputs)
    then Returned else EndOfInput.
Proof.
  intros Hends. split; [|split; [apply menu_writes_nothing|]].
  - induction inputs as [|line rest IH]; [done|].
    simpl before_exit. case_bool_decide as Hline.
    + by rewrite (menu_exit _ _ _ _ _ _ _ Hline).
    + destruct (menu_continues w image_name directory timestamp hdf_file
                  line rest Hends Hline) as (events & -> & Hruns).
      cbn [fst]. rewrite !filter_events_app, !length_app, Hruns, IH.
      rewrite (filter_cons_bool runs_converter).
      by destruct (runs_converter (strip line)).
  - induction inputs as [|line rest IH].
    + reflexivity.
    + destruct (decide (strip line = "5")) as [Hline | Hline].
      * rewrite (menu_exit _ _ _ _ _ _ _ Hline).
        rewrite bool_decide_true; [done|]. apply Exists_cons. by left.
      * destruct (menu_continues w image_name directory timestamp hdf_file
                    line rest Hends Hline) as (events & -> & _).
        cbn [snd]. rewrite IH.
        apply (f_equal (λ b : bool, if b then Returned else EndOfInput)).
        apply bool_decide_ext. rewrite Exists_cons. tauto.
Qed.

Lemma menu_runs_converter_per_choice_witness :
  converter_ends sample_world ∧
  length (filter (λ e, is_run e)
            (menu sample_world "registry/app:1.0" "/scan/MITRE" "20251201_100000"
                  "/scan/MITRE/hdf/x.json" ["2"; " 1 "; "9"; "4"; "5"; "1"]).1) = 2.
Proof.
  assert (converter_ends sample_world) as Hends by (intros command e; discriminate).
  split; [exact Hends|].
  exact (proj1 (menu_runs_converter_per_choice sample_world "registry/app:1.0"
                  "/scan/MITRE" "20251201_100000" "/scan/MITRE/hdf/x.json"
                  ["2"; " 1 "; "9"; "4"; "5"; "1"] Hends)).
Defined.

(** The menu asks for the converter no more often than the choices typed
    before the first [5] ask for it, and as often when the loop is left
    through [5]. *)
Lemma menu_runs_bounded (w : world)
    (image_name directory timestamp hdf_file : string) (inputs : list string) :
  length (filter (λ e, is_run e)
            (menu w image_name directory timestamp hdf_file inputs).1) ≤
    length (filter (λ c, runs_converter c) (before_exit inputs)) ∧
  ((menu w image_name directory timestamp hdf_file inputs).2 = Returned →
   length (filter (λ e, is_run e)
             (menu w image_name directory timestamp hdf_file inputs).1) =
     length (filter (λ c, runs_converter c) (before_exit inputs))).
Proof.
  induction inputs as [|line rest [IHle IHeq]]; [done|].
  simpl before_exit. rewrite menu_cons. cbv zeta.
  unfold export_openscap_bundle.
  destruct (menu w image_name directory timestamp hdf_file rest) as [later ending].
  simpl in IHle, IHeq.
  generalize (strip line). intros choice.
  destruct (bool_decide (choice = "1")) eqn:H1.
  { apply bool_decide_eq_true in H1 as ->.
    destruct (subprocess_run w _); simpl;
      rewrite ?(filter_cons_bool is_run); cbn [is_run length];
      (split; [lia|]); intros Hend; [rewrite IHeq| rewrite IHeq|]; done. }
  destruct (bool_decide (choice = "2")) eqn:H2.
  { apply bool_decide_eq_true in H2 as ->. simpl. done. }
  destruct (bool_decide (choice = "3")) eqn:H3.
  { apply bool_decide_eq_true in H3 as ->. simpl. done. }
  destruct (bool_decide (choice = "4")) eqn:H4.
  { apply bool_decide_eq_true in H4 as ->.
    destruct (subprocess_run w _); simpl;
      rewrite ?(filter_cons_bool is_run); cbn [is_run length];
      (split; [lia|]); intros Hend; [rewrite IHeq| rewrite IHeq|]; done. }
  destruct (bool_decide (choice = "5")) eqn:H5; [done|].
  assert (runs_converter choice = false) as Hskip
    by (unfold runs_converter; by rewrite H1, H4).
  rewrite (filter_cons_bool runs_converter), Hskip. simpl.
  rewrite ?(filter_cons_bool is_run). cbn [is_run]. done.
Qed.

Lemma filter_printed (P : event → bool) (lines : list string) :
  (∀ text, P (Printed text) = false) →
  filter (λ e, P e) (Printed <$> lines) = [].
Proof.
  intros HP. induction lines as [|text lines IH]; [done|].
  rewrite fmap_cons, filter_cons_bool, HP. exact IH.
Qed.

Lemma export_filename (py_str : json → string) (template : res json)
    (clock : nat → string) (image_name : string) (findings : list dict)
    (directory timestamp : string) (e : exported) :
  export_mitre_saf_hdf py_str template clock image_name findings directory timestamp
    = Ok e →
  filename e =
    directory +:+ "/hdf/trivy-hdf-" +:+ safe_name image_name +:+ "_"
      +:+ timestamp +:+ ".json".
Proof.
  unfold export_mitre_saf_hdf. fold (starting_hdf template).
  destruct (starting_hdf template) as [hdf|]; simpl; [|done].
  destruct (controls_from py_str clock 0 findings) as [cs|]; simpl; [|done].
  destruct (append_controls hdf cs) as [hdf'|]; simpl; [|done].
  by intros [= <-].
Qed.

(** The three ways [main] goes: no scan file is found; an exception leaves
    it before anything is written; the document is written and the menu is
    entered. *)
Lemma main_cases (py_str : json → string) (w : world) (directory : string)
    (inputs : list string) :
  (all_files w directory = [] ∧
   main py_str w directory inputs =
     ([Printed "Error: No Trivy scan JSON files found in trivy_scans directory"],
      Exited 1)) ∨
  (all_files w directory ≠ [] ∧
   ∃ events e,
     main py_str w directory inputs = (events, Raised e) ∧
     filter (λ e, is_write e) events = [] ∧
     filter (λ e, is_run e) events = []) ∨
  (all_files w directory ≠ [] ∧
   ∃ early told image findings ex,
     export_mitre_saf_hdf py_str (template_file w) (utcnow w) image findings
       (directory +:+ "/MITRE") (now_stamp w) = Ok ex ∧
     main py_str w directory inputs =
       (early ++ [Wrote (filename ex) (document ex)] ++ told ++
          (menu w image (directory +:+ "/MITRE") (now_stamp w) (filename ex) inputs).1,
        (menu w image (directory +:+ "/MITRE") (now_stamp w) (filename ex) inputs).2) ∧
     filter (λ e, is_write e) early = [] ∧
     filter (λ e, is_run e) early = [] ∧
     filter (λ e, is_made e) early =
       [MadeDirs ((directory +:+ "/MITRE") +:+ "/openscap");
        MadeDirs ((directory +:+ "/MITRE") +:+ "/hdf");
        MadeDirs ((directory +:+ "/MITRE") +:+ "/ckl")] ∧
     filter (λ e, is_write e) told = [] ∧
     filter (λ e, is_run e) told = []).
Proof.
  unfold main. fold (all_files w directory). cbv zeta.
  destruct (bool_decide (all_files w directory = [])) eqn:Hfiles.
  { apply bool_decide_eq_true in Hfiles. left. split; [exact Hfiles|reflexivity]. }
  apply bool_decide_eq_false in Hfiles. right.
  destruct (merge_jsons (open_json w) (all_files w directory))
    as [warnings [data|e]].
  2: { left. split; [exact Hfiles|]. exists (Printed <$> warnings), e.
       split_and!; [reflexivity|by apply filter_printed..]. }
  destruct (extract_findings py_str (JObj data)) as [findings|e].
  2: { left. split; [exact Hfiles|]. exists (Printed <$> warnings), e.
       split_and!; [reflexivity|by apply filter_printed..]. }
  destruct (container_name _) as [name|e]; cbn [mbind res_bind].
  2: { left. split; [exact Hfiles|]. exists (Printed <$> warnings), e.
       split_and!; [reflexivity|by apply filter_printed..]. }
  destruct (image_digest data) as [digest|e]; cbn [mbind res_bind].
  2: { left. split; [exact Hfiles|]. exists (Printed <$> warnings), e.
       split_and!; [reflexivity|by apply filter_printed..]. }
  destruct (export_mitre_saf_hdf _ _ _ _ _ _ _) as [ex|e] eqn:Hex.
  { right. split; [exact Hfiles|].
    destruct (menu _ _ _ _ _ inputs) as [asked ending] eqn:Hmenu.
    match goal with
    | |- context [(?l ++ ?f ++ ?m ++ (_ :: ?pr) ++ ?t ++ asked, ending)] =>
        exists (l ++ f ++ m), (pr ++ t)
    end.
    eexists _, findings, ex.
    split; [exact Hex|]. rewrite Hmenu. cbn [fst snd].
    split; [rewrite <- !app_assoc; reflexivity|].
    rewrite !filter_events_app, !filter_printed by reflexivity.
    rewrite !(filter_cons_bool is_write), !(filter_cons_bool is_run),
      !(filter_cons_bool is_made).
    cbn [is_write is_run is_made app]. split_and!; reflexivity. }
  left. split; [exact Hfiles|]. eexists _, e. split; [reflexivity|].
  rewrite !filter_events_app, !filter_printed by reflexivity.
  rewrite !(filter_cons_bool is_write), !(filter_cons_bool is_run).
  cbn [is_write is_run app]. split; reflexivity.
Qed.

(** X21. A call of [main] ends through [sys.exit] exactly when the four
    patterns find no scan file, and the code is then 1: no other path of
    [main], its menu included, calls [sys.exit]. *)
Theorem main_exits_iff_no_scan_files (py_str : json → string) (w : world)
    (directory : string) (inputs : list string) (code : Z) :
  (main py_str w directory inputs).2 = Exited code ↔
  code = 1%Z ∧ all_files w directory = [].
Proof.
  destruct (main_cases py_str w directory inputs)
    as [[Hfiles ->] | [[Hfiles (events & e & -> & _)]
                      | [Hfiles (early & told & image & findings & ex & _ & -> & _)]]];
    cbn [snd].
  - split; [by intros [= <-]|by intros [-> _]].
  - split; [done|by intros [_ ?]].
  - split; [|by intros [_ ?]]. intros Hexit. exfalso.
    by eapply (proj2 (menu_writes_nothing _ _ _ _ _ _)).
Qed.

(** X22. [main] writes at most one file. A run that reaches the end of the
    menu, or the end of its input, has written exactly one: the document,
    under [<directory>/MITRE/hdf/trivy-hdf-], after that directory was
    made. *)
Theorem main_writes_one_file (py_str : json → string) (w : world)
    (directory : string) (inputs : list string) :
  length (filter (λ e, is_write e) (main py_str w directory inputs).1) ≤ 1 ∧
  ((main py_str w directory inputs).2 = Returned ∨
   (main py_str w directory inputs).2 = EndOfInput →
   ∃ early name doc later,
     (main py_str w directory inputs).1 =
       early ++
       Wrote ((directory +:+ "/MITRE") +:+ "/hdf/trivy-hdf-" +:+ name) doc :: later ∧
     MadeDirs ((directory +:+ "/MITRE") +:+ "/hdf") ∈ early ∧
     filter (λ e, is_write e) early = [] ∧
     filter (λ e, is_write e) later = []).
Proof.
  destruct (main_cases py_str w directory inputs)
    as [[Hfiles ->] | [[Hfiles (events & e & -> & Hw & _)]
                      | [Hfiles (early & told & image & findings & ex & Hex & -> &
                                 Hwe & _ & Hmade & Hwt & _)]]];
    cbn [fst snd].
  - split; [|by intros [|]].
    rewrite filter_cons_bool. cbn [is_write]. rewrite filter_nil. cbn [length]. lia.
  - split; [|by intros [|]]. rewrite Hw. cbn [length]. lia.
  - pose proof (proj1 (menu_writes_nothing w image (directory +:+ "/MITRE")
                         (now_stamp w) (filename ex) inputs)) as Hwm.
    split.
    + rewrite !filter_events_app, Hwe, Hwt, Hwm, filter_cons_bool.
      cbn [is_write]. by rewrite filter_nil.
    + intros _. apply export_filename in Hex.
      eexists early, _, (document ex), _. rewrite <- Hex.
      split; [reflexivity|]. split_and!.
      * assert (MadeDirs ((directory +:+ "/MITRE") +:+ "/hdf")
                  ∈ filter (λ e, is_made e) early) as Hin
          by (rewrite Hmade; set_solver).
        by apply list_elem_of_filter in Hin as [_ Hin].
      * exact Hwe.
      * by rewrite filter_events_app, Hwt, Hwm.
Qed.

(** X23. [main] starts the converter only from the menu: never more often
    than a choice 1 or 4 typed before the first 5 asks for it, and exactly
    as often in a run that returns. *)
Theorem main_runs_converter_on_request (py_str : json → string) (w : world)
    (directory : string) (inputs : list string) :
  length (filter (λ e, is_run e) (main py_str w directory inputs).1) ≤
    length (filter (λ c, runs_converter c) (before_exit inputs)) ∧
  ((main py_str w directory inputs).2 = Returned →
   length (filter (λ e, is_run e) (main py_str w directory inputs).1) =
     length (filter (λ c, runs_converter c) (before_exit inputs))).
Proof.
  destruct (main_cases py_str w directory inputs)
    as [[Hfiles ->] | [[Hfiles (events & e & -> & _ & Hr)]
                      | [Hfiles (early & told & image & findings & ex & _ & -> &
                                 _ & Hre & _ & _ & Hrt)]]];
    cbn [fst snd].
  - split; [|done]. rewrite filter_cons_bool. cbn [is_run].
    rewrite filter_nil. cbn [length]. lia.
  - split; [|done]. rewrite Hr. cbn [length]. lia.
  - destruct (menu_runs_bounded w image (directory +:+ "/MITRE") (now_stamp w)
                (filename ex) inputs) as [Hle Heq].
    rewrite !filter_events_app, Hre, Hrt, filter_cons_bool.
    cbn [is_run]. rewrite filter_nil. cbn [app length].
    split; [exact Hle|exact Heq].
Qed.

(** X24. The digest printed is never empty: whatever [RepoDigests] starts
    with, a value that tests false ([None], an empty string, 0) is replaced
    by the text [No digest found]. *)
Theorem image_digest_is_never_empty (data : dict) (digest : json) :
  image_digest data = Ok digest → truthy digest = true.
Proof.
  unfold image_digest. cbn [get mbind res_bind].
  destruct (get _ "RepoDigests" _) as [digests|]; cbn [mbind res_bind]; [|done].
  destruct (index0 digests) as [first|]; cbn [mbind res_bind]; [|done].
  destruct (truthy first) eqn:Hfirst; intros [= <-]; [exact Hfirst|reflexivity].
Qed.

Lemma image_digest_is_never_empty_witness :
  image_digest {[ "Metadata" := JObj {[ "RepoDigests" := JArr [JStr EmptyString] ]} ]} =
    Ok (JStr "No digest found") ∧
  truthy (JStr "No digest found") = true.
Proof.
  assert (image_digest
            {[ "Metadata" := JObj {[ "RepoDigests" := JArr [JStr EmptyString] ]} ]} =
          Ok (JStr "No digest found")) as Hd by reflexivity.
  split; [exact Hd|].
  exact (image_digest_is_never_empty _ _ Hd).
Defined.

(** X25. A scan whose [Metadata.RepoDigests] is an empty list stops [main]:
    an exception leaves it after the loader's warnings, before a directory
    is made or the document written; it is [IndexError] when the findings
    and the container name were obtained. *)
Theorem main_stops_on_empty_digests (py_str : json → string) (w : world)
    (directory : string) (inputs warnings : list string) (data m : dict) :
  merge_jsons (open_json w) (all_files w directory) = (warnings, Ok data) →
  data !! "Metadata" = Some (JObj m) →
  m !! "RepoDigests" = Some (JArr []) →
  ∃ e,
    main py_str w directory inputs = (Printed <$> warnings, Raised e) ∧
    ∀ findings name,
      extract_findings py_str (JObj data) = Ok findings →
      container_name (default (JStr "unknown-image") (data !! "ArtifactName")) =
        Ok name →
      e = IndexError.
Proof.
  intros Hmerge Hmeta Hdigests.
  assert (all_files w directory ≠ []) as Hfiles.
  { intros Hnil. rewrite Hnil in Hmerge. injection Hmerge as _ <-.
    by rewrite lookup_singleton_ne in Hmeta. }
  assert (image_digest data = Raise IndexError) as Hdigest.
  { unfold image_digest. cbn [get mbind res_bind]. rewrite Hmeta.
    unfold default, from_option, id. cbn [get mbind res_bind]. by rewrite Hdigests. }
  unfold main. fold (all_files w directory). cbv zeta.
  rewrite bool_decide_false by exact Hfiles. rewrite Hmerge.
  destruct (extract_findings py_str (JObj data)) as [findings|e].
  2: { exists e. split; [reflexivity|]. by intros ? ? [=]. }
  destruct (container_name _) as [name|e]; cbn [mbind res_bind].
  2: { exists e. split; [reflexivity|]. by intros ? ? _ [=]. }
  rewrite Hdigest. cbn [mbind res_bind]. by exists IndexError.
Qed.

Lemma main_stops_on_empty_digests_witness :
  ∃ e, main str_scalar sample_local_world "/scan" ["5"] = ([], Raised e).
Proof.
  edestruct (main_stops_on_empty_digests str_scalar sample_local_world "/scan" ["5"])
    as (e & He & _); [reflexivity|reflexivity|reflexivity|].
  exists e. exact He.
Defined.
